(** * VoodooPad data store: a shallow embedding of [datastore.py]

    The store keeps a collection of pages on disk, one metadata record
    (a property list) and one content file per page, sharded by the
    first character of the page identifier.  This file embeds the store
    operations ([create], [open], [validate], [add_item]) and the RTFD
    container decoder ([read_int], [read_rtf_item],
    [extract_rtf_content_from_rtfd]) and states their properties.

    Conventions.
    - A Python [str] is a list of Unicode code points, a [bytes] value a
      list of [Byte.byte].
    - A path is absolute and is the list of its components below the
      root: [[]] is the root directory [/], which always exists, and
      [os.path.dirname] of a one-component path is the root.  Joining
      with [pathlib.Path(base, segment, ...)] is [path_join], which
      splits every segment at [/] and drops empty and [.] components
      the way [pathlib] does; where every segment is a literal name of
      the source, or an entry [os.listdir] returned, the join is
      written as the concatenation it amounts to.  The names under
      which a [World] holds its entries are names a directory can hold:
      not empty, not [.] or [..], and without [/].
    - The decoder recurses once for every level of nesting, as the
      source does; the interpreter's limit on the depth of recursion
      (a [RecursionError] near a thousand levels) is not part of the
      embedding.
    - Python exceptions are values of [exn]; a computation that touches
      the file system, the random source or standard output is a function
      from [World] to an outcome and a new [World]. *)

From Stdlib Require Import NArith ZArith List Bool Lia.
From Stdlib.Strings Require Import String Ascii Byte.
From stdpp Require Import base option list countable.

Local Set Warnings "-register-all".
Local Open Scope N_scope.
Local Open Scope list_scope.

(** ** Strings and bytes *)

Abbreviation pystr := (list N) (only parsing).
Abbreviation bytes := (list byte) (only parsing).
Abbreviation Path := (list (list N)) (only parsing).

(** A string literal of the source, as code points. *)
Definition py (s : string) : pystr := map N_of_ascii (list_ascii_of_string s).

(** A bytes literal of the source ([b'...']). *)
Definition bytes_of (s : string) : bytes := list_byte_of_string s.

Definition byte_of_N (n : N) : byte := default x00 (Byte.of_N n).

#[global] Instance byte_eq_decision : EqDecision byte := Byte.byte_eq_dec.

(** ** Exceptions *)

Inductive exn : Type :=
| FileNotFoundError (filename : Path)
| FileExistsError (filename : Path)
| NotADirectoryError (filename : Path)
| IsADirectoryError (filename : Path)
| PyException (msg : pystr)
| ExpatError
| KeyError (key : pystr)
| TypeError
| AttributeError
| IndexError
| UnicodeEncodeError
| UnicodeDecodeError
| ValueError.

Inductive result (A : Type) : Type :=
| Ok (a : A)
| Raise (e : exn).
Arguments Ok {A} a.
Arguments Raise {A} e.

(** ** UTF-8 ([str.encode('utf-8')], [bytes.decode('utf-8')]) *)

Definition is_surrogate (c : N) : bool := (0xD800 <=? c) && (c <=? 0xDFFF).

Definition utf8_encode_char (c : N) : option bytes :=
  if c <? 0x80 then Some [byte_of_N c]
  else if c <? 0x800 then
    Some [byte_of_N (0xC0 + c / 64); byte_of_N (0x80 + c mod 64)]
  else if c <? 0x10000 then
    if is_surrogate c then None
    else Some [byte_of_N (0xE0 + c / 4096);
               byte_of_N (0x80 + (c / 64) mod 64);
               byte_of_N (0x80 + c mod 64)]
  else if c <? 0x110000 then
    Some [byte_of_N (0xF0 + c / 262144);
          byte_of_N (0x80 + (c / 4096) mod 64);
          byte_of_N (0x80 + (c / 64) mod 64);
          byte_of_N (0x80 + c mod 64)]
  else None.

Fixpoint utf8_encode_opt (s : pystr) : option bytes :=
  match s with
  | [] => Some []
  | c :: s' =>
    match utf8_encode_char c, utf8_encode_opt s' with
    | Some bs, Some rest => Some (bs ++ rest)
    | _, _ => None
    end
  end.

Definition utf8_encode (s : pystr) : result bytes :=
  match utf8_encode_opt s with
  | Some bs => Ok bs
  | None => Raise UnicodeEncodeError
  end.

Definition in_range (lo hi : N) (b : byte) : bool :=
  (lo <=? Byte.to_N b) && (Byte.to_N b <=? hi).

Definition cont_bits (b : byte) : N := Byte.to_N b mod 64.

(** The strict decoder: no overlong forms, no surrogates, nothing above
    U+10FFFF, no truncated sequence. *)
Fixpoint utf8_decode_opt (bs : bytes) : option pystr :=
  match bs with
  | [] => Some []
  | b0 :: r0 =>
    let n0 := Byte.to_N b0 in
    if n0 <? 0x80 then cons n0 <$> utf8_decode_opt r0
    else if in_range 0xC2 0xDF b0 then
      match r0 with
      | b1 :: r1 =>
        if in_range 0x80 0xBF b1
        then cons ((n0 - 0xC0) * 64 + cont_bits b1) <$> utf8_decode_opt r1
        else None
      | _ => None
      end
    else if in_range 0xE0 0xEF b0 then
      match r0 with
      | b1 :: b2 :: r2 =>
        let lo := if n0 =? 0xE0 then 0xA0 else 0x80 in
        let hi := if n0 =? 0xED then 0x9F else 0xBF in
        if in_range lo hi b1 && in_range 0x80 0xBF b2
        then cons ((n0 - 0xE0) * 4096 + cont_bits b1 * 64 + cont_bits b2)
               <$> utf8_decode_opt r2
        else None
      | _ => None
      end
    else if in_range 0xF0 0xF4 b0 then
      match r0 with
      | b1 :: b2 :: b3 :: r3 =>
        let lo := if n0 =? 0xF0 then 0x90 else 0x80 in
        let hi := if n0 =? 0xF4 then 0x8F else 0xBF in
        if in_range lo hi b1 && in_range 0x80 0xBF b2 && in_range 0x80 0xBF b3
        then cons ((n0 - 0xF0) * 262144 + cont_bits b1 * 4096
                   + cont_bits b2 * 64 + cont_bits b3)
               <$> utf8_decode_opt r3
        else None
      | _ => None
      end
    else None
  end.

Definition utf8_decode (bs : bytes) : result pystr :=
  match utf8_decode_opt bs with
  | Some s => Ok s
  | None => Raise UnicodeDecodeError
  end.

(** ** SHA-1 ([hashlib.sha1]) *)

Module SHA1.

Definition w32 (x : N) : N := x mod 2 ^ 32.

Definition rotl (n x : N) : N :=
  w32 (N.lor (N.shiftl x n) (N.shiftr x (32 - n))).

Definition be_bytes (width : nat) (x : N) : list N :=
  map (fun i => (x / 2 ^ (8 * N.of_nat i)) mod 256) (rev (seq 0 width)).

Definition be_word (bs : list N) : N :=
  fold_left (fun acc b => acc * 256 + b) bs 0.

Definition pad (msg : list N) : list N :=
  let len := N.of_nat (length msg) in
  let k := (119 - len mod 64) mod 64 in
  msg ++ [0x80] ++ repeat 0 (N.to_nat k) ++ be_bytes 8 (8 * len).

Fixpoint words (n : nat) (block : list N) : list N :=
  match n with
  | O => []
  | S n' => be_word (firstn 4 block) :: words n' (skipn 4 block)
  end.

Definition schedule (block : list N) : list N :=
  fold_left
    (fun w i =>
       let x := N.lxor (N.lxor (nth (i - 3) w 0) (nth (i - 8) w 0))
                       (N.lxor (nth (i - 14) w 0) (nth (i - 16) w 0)) in
       w ++ [rotl 1 x])
    (seq 16 64) (words 16 block).

Definition state : Type := N * N * N * N * N.

Definition round (i : nat) (wi : N) (s : state) : state :=
  let '(a, b, c, d, e) := s in
  let '(f, k) :=
    if (i <? 20)%nat then
      (N.lor (N.land b c) (N.land (N.lxor b 0xFFFFFFFF) d), 0x5A827999)
    else if (i <? 40)%nat then
      (N.lxor (N.lxor b c) d, 0x6ED9EBA1)
    else if (i <? 60)%nat then
      (N.lor (N.lor (N.land b c) (N.land b d)) (N.land c d), 0x8F1BBCDC)
    else
      (N.lxor (N.lxor b c) d, 0xCA62C1D6) in
  (w32 (rotl 5 a + f + e + k + wi), a, rotl 30 b, c, d).

Fixpoint rounds (i : nat) (w : list N) (s : state) : state :=
  match w with
  | [] => s
  | wi :: w' => rounds (S i) w' (round i wi s)
  end.

Definition compress (h : state) (block : list N) : state :=
  let '(h0, h1, h2, h3, h4) := h in
  let '(a, b, c, d, e) := rounds 0 (schedule block) h in
  (w32 (h0 + a), w32 (h1 + b), w32 (h2 + c), w32 (h3 + d), w32 (h4 + e)).

Fixpoint blocks (n : nat) (msg : list N) (h : state) : state :=
  match n with
  | O => h
  | S n' => blocks n' (skipn 64 msg) (compress h (firstn 64 msg))
  end.

Definition init : state :=
  (0x67452301, 0xEFCDAB89, 0x98BADCFE, 0x10325476, 0xC3D2E1F0).

Definition digest (msg : bytes) : list N :=
  let m := pad (map Byte.to_N msg) in
  let '(h0, h1, h2, h3, h4) := blocks (length m / 64) m init in
  concat (map (be_bytes 4) [h0; h1; h2; h3; h4]).

End SHA1.

Definition hex_digit (d : N) : N := if d <? 10 then 48 + d else 87 + d.

(** The lowercase hexadecimal text of a list of byte values. *)
Definition hex_of_bytes (bs : list N) : pystr :=
  concat (map (fun b => [hex_digit (b / 16); hex_digit (b mod 16)]) bs).

Definition sha1_hexdigest (msg : bytes) : pystr :=
  hex_of_bytes (SHA1.digest msg).

(** [sha1_hash(s)]: the hex digest of the UTF-8 encoding of [s]. *)
Definition sha1_hash (s : pystr) : result pystr :=
  match utf8_encode s with
  | Ok bs => Ok (sha1_hexdigest bs)
  | Raise e => Raise e
  end.

(** ** Ordered dictionaries

    A Python [dict] keeps its keys in insertion order and assigning to
    a key that is present keeps the key's position.  The same structure
    models the file-system table below. *)

Section dict.
Context {K V : Type} `{EqDecision K}.

Definition dict : Type := list (K * V).

Fixpoint dict_get (k : K) (d : dict) : option V :=
  match d with
  | [] => None
  | (k', v) :: d' => if decide (k = k') then Some v else dict_get k d'
  end.

Fixpoint dict_set (k : K) (v : V) (d : dict) : dict :=
  match d with
  | [] => [(k, v)]
  | (k', v') :: d' =>
    if decide (k = k') then (k, v) :: d' else (k', v') :: dict_set k v d'
  end.

Definition dict_keys (d : dict) : list K := map fst d.

Fixpoint dict_remove (k : K) (d : dict) : dict :=
  match d with
  | [] => []
  | (k', v) :: d' =>
    if decide (k = k') then dict_remove k d' else (k', v) :: dict_remove k d'
  end.
End dict.
Arguments dict : clear implicits.

(** ** Property-list values ([plistlib])

    The store only subscripts the root of a property list with a string
    key and then tests the value for truth or compares it with a string
    or an integer.  Values it never looks into (arrays, nested
    dictionaries, data, dates) are kept as [POpaque] with their truth
    value; a root that is not a dictionary is [PlOther]. *)

Inductive pyfloat : Type :=
| FRatio (num : Z) (den : positive)
| FInf (negative : bool)
| FNan.

Inductive pvalue : Type :=
| PBool (b : bool)
| PInt (z : Z)
| PReal (f : pyfloat)
| PStr (s : pystr)
| POpaque (truthy : bool).

Inductive plist : Type :=
| PlDict (d : dict pystr pvalue)
| PlOther.

(** [bool(v)] *)
Definition truthy (v : pvalue) : bool :=
  match v with
  | PBool b => b
  | PInt z => negb (z =? 0)%Z
  | PReal (FRatio n _) => negb (n =? 0)%Z
  | PReal _ => true
  | PStr s => match s with [] => false | _ => true end
  | POpaque t => t
  end.

(** [v == n] for an integer literal [n] *)
Definition eq_int (v : pvalue) (n : Z) : bool :=
  match v with
  | PBool b => ((if b then 1 else 0) =? n)%Z
  | PInt z => (z =? n)%Z
  | PReal (FRatio num den) => (num =? n * Z.pos den)%Z
  | _ => false
  end.

(** [v == s] for a string [s] *)
Definition eq_str (v : pvalue) (s : pystr) : bool :=
  match v with
  | PStr s' => bool_decide (s' = s)
  | _ => false
  end.

(** [pl[key]] *)
Definition getitem (pl : plist) (key : pystr) : result pvalue :=
  match pl with
  | PlDict d =>
    match dict_get key d with
    | Some v => Ok v
    | None => Raise (KeyError key)
    end
  | PlOther => Raise TypeError
  end.

(** [pl[key] = v] on a dictionary built by the store itself *)
Definition setitem (pl : plist) (key : pystr) (v : pvalue) : result plist :=
  match pl with
  | PlDict d => Ok (PlDict (dict_set key v d))
  | PlOther => Raise TypeError
  end.

(** ** What the store takes from its platform

    [str.lower] needs the Unicode tables and [plistlib] an XML parser;
    both are used through their interface. [plist_dump_partial] is what
    a failing [plistlib.dump] has written when it raises. *)

Class Runtime : Type := {
  str_lower : pystr -> pystr;
  plist_dumps : plist -> result bytes;
  plist_dump_partial : plist -> bytes;
  plist_loads : bytes -> result plist;
}.

(** The codec's contract: what it writes, it reads back. *)
Definition codec_round_trip `{Runtime} : Prop :=
  forall pl bs, plist_dumps pl = Ok bs -> plist_loads bs = Ok pl.

(** ** The world: file system, random source, standard output *)

Inductive node : Type :=
| File (data : bytes)
| Dir.

Record World : Type := mkWorld {
  fs : dict Path node;
  entropy : nat -> N;
  cursor : nat;
  stdout : list pystr;
}.

Definition M (A : Type) : Type := World -> result A * World.

Definition ret {A} (a : A) : M A := fun w => (Ok a, w).

Definition raise {A} (e : exn) : M A := fun w => (Raise e, w).

Definition bind {A B} (c : M A) (k : A -> M B) : M B :=
  fun w =>
    match c w with
    | (Ok a, w') => k a w'
    | (Raise e, w') => (Raise e, w')
    end.

Definition lift {A} (r : result A) : M A := fun w => (r, w).

Notation "x <- c1 ; c2" := (bind c1 (fun x => c2))
  (at level 20, c1 at level 100, c2 at level 200, only parsing).
Notation "' pat <- c1 ; c2" := (bind c1 (fun x => let 'pat := x in c2))
  (at level 20, pat pattern, c1 at level 100, c2 at level 200, only parsing).
Notation "'do' c1 ; c2" := (bind c1 (fun _ => c2))
  (at level 20, c1 at level 100, c2 at level 200, only parsing).

(** [try: c except E: h] for the exceptions selected by [catches] *)
Definition try_except {A} (c : M A) (catches : exn -> bool) (h : exn -> M A) : M A :=
  fun w =>
    match c w with
    | (Ok a, w') => (Ok a, w')
    | (Raise e, w') => if catches e then h e w' else (Raise e, w')
    end.

(** [for x in l: acc = body x acc] *)
Fixpoint for_each {A S} (l : list A) (body : A -> S -> M S) (acc : S) : M S :=
  match l with
  | [] => ret acc
  | x :: l' => acc' <- body x acc ; for_each l' body acc'
  end.

Definition print (line : pystr) : M unit :=
  fun w => (Ok tt, mkWorld (fs w) (entropy w) (cursor w) (stdout w ++ [line])).

Definition get_fs : M (dict Path node) := fun w => (Ok (fs w), w).

Definition put_fs (f : dict Path node) : M unit :=
  fun w => (Ok tt, mkWorld f (entropy w) (cursor w) (stdout w)).

(** [os.urandom(16)] as a 128-bit number *)
Definition urandom16 : M N :=
  fun w => (Ok (entropy w (cursor w) mod 2 ^ 128),
            mkWorld (fs w) (entropy w) (S (cursor w)) (stdout w)).

(** ** File system *)

Definition fs_lookup (f : dict Path node) (p : Path) : option node :=
  match p with
  | [] => Some Dir
  | _ => dict_get p f
  end.

(** [os.path.dirname] *)
Definition dirname (p : Path) : Path := removelast p.

Definition split_last (p : Path) : option (Path * pystr) :=
  match rev p with
  | [] => None
  | n :: rd => Some (rev rd, n)
  end.

Definition fs_children (f : dict Path node) (d : Path) : list pystr :=
  omap (fun kv => match split_last (fst kv) with
                  | Some (d', n) => if decide (d' = d) then Some n else None
                  | None => None
                  end) f.

Definition path_exists (p : Path) : M bool :=
  f <- get_fs ; ret (match fs_lookup f p with Some _ => true | None => false end).

Definition is_dir (p : Path) : M bool :=
  f <- get_fs ; ret (match fs_lookup f p with Some Dir => true | _ => false end).

(** The error of resolving the directory that should hold [p] *)
Definition check_parent (f : dict Path node) (p : Path) : result unit :=
  match fs_lookup f (dirname p) with
  | Some Dir => Ok tt
  | Some (File _) => Raise (NotADirectoryError p)
  | None => Raise (FileNotFoundError p)
  end.

Definition os_mkdir (p : Path) : M unit :=
  f <- get_fs;
  do lift (check_parent f p);
  match fs_lookup f p with
  | Some _ => raise (FileExistsError p)
  | None => put_fs (dict_set p Dir f)
  end.

Definition os_listdir (p : Path) : M (list pystr) :=
  f <- get_fs;
  match fs_lookup f p with
  | Some Dir => ret (fs_children f p)
  | Some (File _) => raise (NotADirectoryError p)
  | None => do lift (check_parent f p); raise (FileNotFoundError p)
  end.

(** [open(p, 'rb').read()] *)
Definition read_file (p : Path) : M bytes :=
  f <- get_fs;
  match fs_lookup f p with
  | Some (File data) => ret data
  | Some Dir => raise (IsADirectoryError p)
  | None => do lift (check_parent f p); raise (FileNotFoundError p)
  end.

(** [open(p, 'wb')] followed by writing [data] *)
Definition write_file (p : Path) (data : bytes) : M unit :=
  f <- get_fs;
  do lift (check_parent f p);
  match fs_lookup f p with
  | Some Dir => raise (IsADirectoryError p)
  | _ => put_fs (dict_set p (File data) f)
  end.

(** [os.makedirs(name, exist_ok=True)], on the reversed path.  The empty
    list is the root: [os.mkdir] finds it there, [os.path.isdir] holds
    of it, and the call returns.  (The empty relative name, on which
    [os.makedirs] raises, is no path of this embedding; the store calls
    [os.makedirs] on the directory of an item path, which ends in
    [pages] or in a shard.) *)
Fixpoint makedirs_rev (rname : Path) : M unit :=
  match rname with
  | [] => ret tt
  | _ :: rhead =>
    let name := rev rname in
    head_exists <- path_exists (rev rhead);
    do (if head_exists then ret tt
        else try_except (makedirs_rev rhead)
               (fun e => match e with FileExistsError _ => true | _ => false end)
               (fun _ => ret tt));
    try_except (os_mkdir name) (fun _ => true)
      (fun e => isd <- is_dir name ; if isd then ret tt else raise e)
  end.

Definition os_makedirs (name : Path) : M unit := makedirs_rev (rev name).

(** ** UUIDs ([uuid.uuid4], [str(uuid)]) *)

Definition uuid4 : M N :=
  r <- urandom16;
  let int := N.lor (N.ldiff r (N.shiftl 0xc000 48)) (N.shiftl 0x8000 48) in
  let int := N.lor (N.ldiff int (N.shiftl 0xf000 64)) (N.shiftl 4 76) in
  ret int.

(** ['%032x' % int] *)
Definition hex32 (int : N) : pystr :=
  map (fun i => hex_digit ((int / 16 ^ N.of_nat i) mod 16)) (rev (seq 0 32)).

Definition uuid_str (int : N) : pystr :=
  let hex := hex32 int in
  let dash := py "-" in
  firstn 8 hex ++ dash ++ firstn 4 (skipn 8 hex) ++ dash
  ++ firstn 4 (skipn 12 hex) ++ dash ++ firstn 4 (skipn 16 hex) ++ dash
  ++ skipn 20 hex.

(** ** The RTFD container decoder *)

(** [int.from_bytes(four_bytes, byteorder='little')] *)
Definition read_int (four_bytes : bytes) : N :=
  fold_right (fun b acc => Byte.to_N b + 256 * acc) 0 four_bytes.

(** [data.read(n)]: the bytes read and the rest of the stream.  A read
    past the end returns what is there. *)
Definition stream_read (n : N) (data : bytes) : bytes * bytes :=
  (firstn (N.to_nat n) data, skipn (N.to_nat n) data).

(** What [read_rtf_item] returns: [None], a [bytes] value or a [dict]
    from names to such values. *)
Inductive rtf_item : Type :=
| RNone
| RBytes (content : bytes)
| RDict (directory_map : dict pystr rtf_item).

(** The first loop of a directory record: [n] length-prefixed names. *)
Fixpoint read_names (n : nat) (data : bytes) : result (list pystr) * bytes :=
  match n with
  | O => (Ok [], data)
  | S n' =>
    let '(field, data) := stream_read 4 data in
    let attr_len := read_int field in
    let '(raw, data) := stream_read attr_len data in
    match utf8_decode raw with
    | Raise e => (Raise e, data)
    | Ok attr_name =>
      match read_names n' data with
      | (Ok names, data) => (Ok (attr_name :: names), data)
      | (Raise e, data) => (Raise e, data)
      end
    end
  end.

(** [[read_int(data.read(4)) for _ in range(n)]] *)
Fixpoint read_sizes (n : nat) (data : bytes) : list N * bytes :=
  match n with
  | O => ([], data)
  | S n' =>
    let '(field, data) := stream_read 4 data in
    let '(sizes, data) := read_sizes n' data in
    (read_int field :: sizes, data)
  end.

(** [[data.read(size) for size in item_sizes]] *)
Fixpoint read_chunks (sizes : list N) (data : bytes) : list bytes * bytes :=
  match sizes with
  | [] => ([], data)
  | size :: sizes' =>
    let '(chunk, data) := stream_read size data in
    let '(chunks, data) := read_chunks sizes' data in
    (chunk :: chunks, data)
  end.

(** The last loop of a directory record: each entry's bytes are decoded
    by [rec] and bound to the entry's name.  ([item_names] and
    [item_data] have the same length, so [enumerate] with an index into
    [item_names] is a walk over the pairs.) *)
Fixpoint fill_directory (rec : bytes -> option (result rtf_item * bytes))
    (entries : list (pystr * bytes)) (directory_map : dict pystr rtf_item)
    : option (result (dict pystr rtf_item)) :=
  match entries with
  | [] => Some (Ok directory_map)
  | (name, item) :: entries' =>
    match rec item with
    | None => None
    | Some (Raise e, _) => Some (Raise e)
    | Some (Ok v, _) => fill_directory rec entries' (dict_set name v directory_map)
    end
  end.

(** The body of [read_rtf_item]; [rec] is the recursive call on the
    bytes of a directory entry. *)
Definition read_rtf_item_body (rec : bytes -> option (result rtf_item * bytes))
    (data : bytes) : option (result rtf_item * bytes) :=
  let '(field, data) := stream_read 4 data in
  let item_type := read_int field in
  if item_type =? 1 then
    let '(field, data) := stream_read 4 data in
    let item_size := read_int field in
    if item_size =? 2147483648 then
      let '(field, data) := stream_read 4 data in
      let padding_size := read_int field in
      let '(field, data) := stream_read 4 data in
      let real_size := read_int field in
      let '(_, data) := stream_read padding_size data in
      let '(content, data) := stream_read real_size data in
      Some (Ok (RBytes content), data)
    else
      let '(content, data) := stream_read item_size data in
      Some (Ok (RBytes content), data)
  else if item_type =? 3 then
    let '(field, data) := stream_read 4 data in
    let n_items := N.to_nat (read_int field) in
    match read_names n_items data with
    | (Raise e, data) => Some (Raise e, data)
    | (Ok item_names, data) =>
      let directory_map :=
        fold_left (fun d name => dict_set name RNone d) item_names [] in
      let '(item_sizes, data) := read_sizes n_items data in
      let '(item_data, data) := read_chunks item_sizes data in
      match fill_directory rec (combine item_names item_data) directory_map with
      | None => None
      | Some (Ok d) => Some (Ok (RDict d), data)
      | Some (Raise e) => Some (Raise e, data)
      end
    end
  else Some (Ok RNone, data).

(** [read_rtf_item], with a bound on the nesting depth; [None] when the
    bound is reached. *)
Fixpoint read_rtf_item_fuel (fuel : nat) (data : bytes)
    : option (result rtf_item * bytes) :=
  match fuel with
  | O => None
  | S fuel' => read_rtf_item_body (read_rtf_item_fuel fuel') data
  end.

(** Every nested record is shorter than the record that holds it, so
    the length of the input bounds the depth.  The value is the one the
    source computes when the interpreter lets the recursion run to its
    end; an input nested deeper than the interpreter's recursion limit
    makes the source raise [RecursionError], which this definition does
    not produce. *)
Definition read_rtf_item (data : bytes) : result rtf_item * bytes :=
  match read_rtf_item_fuel (S (length data)) data with
  | Some r => r
  | None => (Ok RNone, data)
  end.

Definition rtfd_magic : bytes := bytes_of "rtfd".

Definition extract_rtf_content_from_rtfd (rtfd_file_path : Path) : M rtf_item :=
  rtfd_file <- read_file rtfd_file_path;
  let '(magic, rtfd_file) := stream_read 4 rtfd_file in
  if negb (bool_decide (magic = rtfd_magic)) then
    do print (py "File is not an RTFD file.");
    ret RNone
  else
    let '(_, rtfd_file) := stream_read 4 rtfd_file in
    contents <- lift (fst (read_rtf_item rtfd_file));
    match contents with
    | RDict d =>
      match dict_get (py "TXT.rtf") d with
      | Some v => ret v
      | None =>
        do print (py "Could not find RTF.rtf in RTFD file.");
        ret RNone
      end
    | _ => ret RNone
    end.

(** [v.decode('utf-8')] on what [load_file] returned *)
Definition decode_method (v : rtf_item) : result pystr :=
  match v with
  | RBytes b => utf8_decode b
  | _ => Raise AttributeError
  end.

(** ** The data store *)

Record DataStore : Type := mkDataStore {
  path : Path;
  encrypted : bool;
  password : option pystr;
  in_memory : bool;
  storeinfo : plist;
  properties : plist;
  items : dict pystr pystr;
  item_plists : dict pystr plist;
}.

Definition set_storeinfo (ds : DataStore) (v : plist) : DataStore :=
  mkDataStore (path ds) (encrypted ds) (password ds) (in_memory ds)
    v (properties ds) (items ds) (item_plists ds).

Definition set_properties (ds : DataStore) (v : plist) : DataStore :=
  mkDataStore (path ds) (encrypted ds) (password ds) (in_memory ds)
    (storeinfo ds) v (items ds) (item_plists ds).

Definition set_items (ds : DataStore) (v : dict pystr pystr) : DataStore :=
  mkDataStore (path ds) (encrypted ds) (password ds) (in_memory ds)
    (storeinfo ds) (properties ds) v (item_plists ds).

Definition set_item_plists (ds : DataStore) (v : dict pystr plist) : DataStore :=
  mkDataStore (path ds) (encrypted ds) (password ds) (in_memory ds)
    (storeinfo ds) (properties ds) (items ds) v.

(** [s[0]] *)
Definition first_char (s : pystr) : result pystr :=
  match s with
  | [] => Raise IndexError
  | c :: _ => Ok [c]
  end.

(** [e.endswith(suffix)] *)
Definition endswith (e suffix : pystr) : bool :=
  bool_decide (skipn (length e - length suffix) e = suffix).

(** [name.rfind('.')] *)
Fixpoint rfind_dot (name : pystr) : option nat :=
  match name with
  | [] => None
  | c :: name' =>
    match rfind_dot name' with
    | Some i => Some (S i)
    | None => if c =? 46 then Some O else None
    end
  end.

(** [Path.stem]: the final component without its last suffix; a dot
    that starts or ends the name does not start a suffix. *)
Definition stem (p : Path) : pystr :=
  let name := List.last p [] in
  match rfind_dot name with
  | Some i =>
    if (0 <? i)%nat && (i <? length name - 1)%nat then firstn i name else name
  | None => name
  end.

Definition item_uuids (self : DataStore) : list pystr :=
  dict_keys (item_plists self).

Definition item (self : DataStore) (uuid : pystr) : result pystr :=
  match dict_get uuid (items self) with
  | Some v => Ok v
  | None => Raise (KeyError uuid)
  end.

Definition item_plist (self : DataStore) (uuid : pystr) : result plist :=
  match dict_get uuid (item_plists self) with
  | Some v => Ok v
  | None => Raise (KeyError uuid)
  end.

(** [seg.split('/')] *)
Fixpoint split_slash (seg : pystr) : list pystr :=
  match seg with
  | [] => [[]]
  | c :: seg' =>
    if c =? 47 then [] :: split_slash seg'
    else match split_slash seg' with
         | part :: parts => (c :: part) :: parts
         | [] => [[c]]
         end
  end.

(** The components [pathlib] keeps of one segment: those that are
    neither empty nor [.]. *)
Definition path_parts (seg : pystr) : Path :=
  filter (fun part => part <> [] /\ part <> py ".") (split_slash seg).

(** [pathlib.Path(base, seg, ...)]: every segment is split into its
    components; a segment that starts with [/] is absolute and replaces
    what was joined before it. *)
Definition path_join (base : Path) (segs : list pystr) : Path :=
  fold_left (fun joined seg =>
               match seg with
               | c :: _ => if c =? 47 then path_parts seg
                           else joined ++ path_parts seg
               | [] => joined
               end) segs base.

(** [Path(self.path, 'pages', uuid[0], uuid)] *)
Definition item_path (self : DataStore) (uuid : pystr) : result Path :=
  match first_char uuid with
  | Ok c => Ok (path_join (path self) [py "pages"; c; uuid])
  | Raise e => Raise e
  end.

(** [Path(self.path, 'pages', uuid[0], uuid + '.plist')] *)
Definition item_plist_path (self : DataStore) (uuid : pystr) : result Path :=
  match first_char uuid with
  | Ok c => Ok (path_join (path self) [py "pages"; c; uuid ++ py ".plist"])
  | Raise e => Raise e
  end.

(** [validate]: every record's [uuid] is the key it is stored under. *)
Definition validate (self : DataStore) : M bool :=
  for_each (item_uuids self)
    (fun item_uuid valid =>
       item_plist <- lift (item_plist self item_uuid);
       recorded <- lift (getitem item_plist (py "uuid"));
       if negb (eq_str recorded item_uuid) then
         do print (py "[WARN] UUID mismatch for " ++ item_uuid);
         ret false
       else ret valid)
    true.

Section store.
Context `{Runtime}.

(** [plistlib.dump(plist, open(path, 'wb'))] *)
Definition dump_plist (pl : plist) (p : Path) : M unit :=
  match plist_dumps pl with
  | Ok data => write_file p data
  | Raise e => do write_file p (plist_dump_partial pl); raise e
  end.

(** The disabled encryption layer: [enc_ctx] is [None]. *)
Definition enc_ctx_call {A} : M A := raise AttributeError.

Definition load_plist (self : DataStore) (p : Path) : M plist :=
  if encrypted self then enc_ctx_call
  else
    data <- read_file p;
    lift (plist_loads data).

Definition save_plist (self : DataStore) (pl : plist) (p : Path) : M unit :=
  do os_makedirs (dirname p);
  if encrypted self then enc_ctx_call
  else dump_plist pl p.

Definition load_file (self : DataStore) (p : Path) : M rtf_item :=
  if encrypted self then enc_ctx_call
  else
    file_content <- read_file p;
    if (4 <? length file_content)%nat
       && bool_decide (firstn 4 file_content = rtfd_magic)
    then extract_rtf_content_from_rtfd p
    else ret (RBytes file_content).

Definition save_file (self : DataStore) (data : bytes) (p : Path) : M unit :=
  do os_makedirs (dirname p);
  if encrypted self then enc_ctx_call
  else write_file p data.

Definition get_plists (dir : Path) : M (list Path) :=
  subdirs <- os_listdir dir;
  for_each subdirs
    (fun s plists =>
       let p := dir ++ [s] in
       isd <- is_dir p;
       if negb isd then ret plists
       else
         entries <- os_listdir p;
         ret (plists ++ map (fun e => p ++ [e])
                          (filter (fun e => endswith e (py ".plist") = true) entries)))
    [].

Definition add_item (self : DataStore) (name text format : pystr)
    : M (pystr * DataStore) :=
  u <- uuid4;
  let item_uuid := uuid_str u in
  let item_key := str_lower name in
  data_hash <- lift (sha1_hash text);
  let pl := PlDict [(py "uuid", PStr item_uuid);
                    (py "key", PStr item_key);
                    (py "displayName", PStr name);
                    (py "uti", PStr format);
                    (py "dataHash", PStr data_hash)] in
  c <- lift (first_char item_uuid);
  let item_path := path_join (path self) [py "pages"; c; item_uuid] in
  let plist_path :=
    path_join (path self) [py "pages"; c; item_uuid ++ py ".plist"] in
  do save_plist self pl plist_path;
  encoded <- lift (utf8_encode text);
  do save_file self encoded item_path;
  let self := set_items self (dict_set item_uuid text (items self)) in
  let self := set_item_plists self (dict_set item_uuid pl (item_plists self)) in
  ret (item_uuid, self).

Definition new_store (p : Path) (pw : option pystr) (in_mem : bool) : DataStore :=
  mkDataStore p false pw in_mem (PlDict []) (PlDict []) [] [].

Definition create (p : Path) : M DataStore :=
  let ds := new_store p None false in
  do os_mkdir (path ds);
  do os_mkdir (path ds ++ [py "pages"]);
  do for_each (seq 0 16)
       (fun i _ => os_mkdir (path ds ++ [py "pages"; [hex_digit (N.of_nat i)]]))
       tt;
  u <- uuid4;
  let ds := set_storeinfo ds
    (PlDict [(py "isEncrypted", PBool false);
             (py "uuid", PStr (uuid_str u));
             (py "VoodooPadBundleVersion", PInt 6)]) in
  store_uuid <- lift (getitem (storeinfo ds) (py "uuid"));
  let ds := set_properties ds
    (PlDict [(py "allowPluginLinks", PBool true);
             (py "bdToBookmarkAliasUpgrade", PBool true);
             (py "createSpotlightIndex", PBool true);
             (py "dbVersion", PInt 7);
             (py "expectedPageCount", PInt 0);
             (py "localWebAccess", PBool false);
             (py "newPageUTI", PStr (py "net.daringfireball.markdown"));
             (py "skIndexVersion", PInt 7);
             (py "updatedFMPageToRealUTIs", PBool true);
             (py "updatedSpecialPages3", PBool true);
             (py "uuid", store_uuid)]) in
  let index_title := py "Index" in
  '(index_uuid, ds) <- add_item ds (py "Index") (py "Write about Index here.")
                         (py "net.daringfireball.markdown");
  props <- lift (setitem (properties ds) (py "defaultPage") (PStr index_title));
  props <- lift (setitem props (py "defaultUUID") (PStr index_uuid));
  let ds := set_properties ds props in
  let storeinfo_path := path ds ++ [py "storeinfo.plist"] in
  do dump_plist (storeinfo ds) storeinfo_path;
  let properties_path := path ds ++ [py "properties.plist"] in
  do dump_plist (properties ds) properties_path;
  ret ds.

(** The body of the first loop of [open], for one path: load the
    metadata record, or skip it when the XML parser rejects it. *)
Definition load_item_plist (ds : DataStore) (item_plist_path : Path)
    (tbl : dict pystr plist) : M (dict pystr plist) :=
  let item_uuid := stem item_plist_path in
  try_except
    (item_plist <- load_plist ds item_plist_path;
     ret (dict_set item_uuid item_plist tbl))
    (fun e => match e with ExpatError => true | _ => false end)
    (fun _ =>
       do print (py "Skipping " ++ item_uuid ++ py " due to invalid plist");
       ret tbl).

Definition load_item_plists (ds : DataStore) (item_plist_paths : list Path)
    : M (dict pystr plist) :=
  for_each item_plist_paths (load_item_plist ds) [].

(** The body of the second loop of [open], for one identifier. *)
Definition load_item (ds : DataStore) (item_uuid : pystr)
    (tbl : dict pystr pystr) : M (dict pystr pystr) :=
  item_plist <- lift (item_plist ds item_uuid);
  uti <- lift (getitem item_plist (py "uti"));
  if eq_str uti (py "com.fm.page-alias") then ret tbl
  else
    uti <- lift (getitem item_plist (py "uti"));
    if eq_str uti (py "com.fm.file-alias") then ret tbl
    else
      item_path <- lift (item_path ds item_uuid);
      present <- path_exists item_path;
      if negb present then raise (FileNotFoundError item_path)
      else
        content <- load_file ds item_path;
        text <- lift (decode_method content);
        ret (dict_set item_uuid text tbl).

Definition open (p : Path) (pw : option pystr) (in_mem : bool) : M DataStore :=
  let ds := new_store p pw in_mem in
  let storeinfo_path := path ds ++ [py "storeinfo.plist"] in
  present <- path_exists storeinfo_path;
  if negb present then raise (FileNotFoundError storeinfo_path)
  else
    let properties_path := path ds ++ [py "properties.plist"] in
    present <- path_exists properties_path;
    if negb present then raise (FileNotFoundError properties_path)
    else
      data <- read_file storeinfo_path;
      si <- lift (plist_loads data);
      let ds := set_storeinfo ds si in
      is_encrypted <- lift (getitem (storeinfo ds) (py "isEncrypted"));
      if truthy is_encrypted
      then raise (PyException (py "Encrypted documents are not supported"))
      else
        version <- lift (getitem (storeinfo ds) (py "VoodooPadBundleVersion"));
        if negb (eq_int version 5) then raise (PyException (py "Unsupported"))
        else
          props <- load_plist ds properties_path;
          let ds := set_properties ds props in
          let items_path := path ds ++ [py "pages"] in
          isd <- is_dir items_path;
          if negb isd then raise (FileNotFoundError properties_path)
          else
            item_plist_paths <- get_plists items_path;
            tbl <- load_item_plists ds item_plist_paths;
            let ds := set_item_plists ds tbl in
            contents <- for_each (dict_keys (item_plists ds)) (load_item ds) [];
            let ds := set_items ds contents in
            ret ds.
End store.

(** [n.to_bytes(4, 'little')]: a 4-byte little-endian field. *)
Definition le32 (n : N) : bytes :=
  map (fun i => byte_of_N ((n / 256 ^ i) mod 256)) [0; 1; 2; 3].

Definition len (b : bytes) : N := N.of_nat (length b).

(** ** A small runtime, to run the store on concrete worlds

    Lower-casing of ASCII letters and a property-list codec that writes
    the bits of a numbering of the values; bytes that are not such bits
    are rejected the way the XML parser rejects malformed markup. *)

Module Sample.

#[global] Instance pyfloat_eq_dec : EqDecision pyfloat.
Proof. solve_decision. Defined.
#[global] Instance pvalue_eq_dec : EqDecision pvalue.
Proof. solve_decision. Defined.
#[global] Instance plist_eq_dec : EqDecision plist.
Proof. solve_decision. Defined.

#[global] Instance pyfloat_countable : Countable pyfloat.
Proof.
  refine (inj_countable'
    (fun f => match f with
              | FRatio n d => inl (n, d)
              | FInf s => inr (Some s)
              | FNan => inr None
              end)
    (fun x => match x with
              | inl (n, d) => FRatio n d
              | inr (Some s) => FInf s
              | inr None => FNan
              end) _).
  intros []; reflexivity.
Defined.

#[global] Instance pvalue_countable : Countable pvalue.
Proof.
  refine (inj_countable'
    (fun v => match v with
              | PBool b => inl (inl b)
              | PInt z => inl (inr z)
              | PReal f => inr (inl f)
              | PStr s => inr (inr (inl s))
              | POpaque t => inr (inr (inr t))
              end)
    (fun x => match x with
              | inl (inl b) => PBool b
              | inl (inr z) => PInt z
              | inr (inl f) => PReal f
              | inr (inr (inl s)) => PStr s
              | inr (inr (inr t)) => POpaque t
              end) _).
  intros []; reflexivity.
Defined.

#[global] Instance plist_countable : Countable plist.
Proof.
  refine (inj_countable'
    (fun pl => match pl with
               | PlDict d => Some (d : list (pystr * pvalue))
               | PlOther => None
               end)
    (fun x => match x with
              | Some d => PlDict d
              | None => PlOther
              end) _).
  intros []; reflexivity.
Defined.

Fixpoint bits_of_pos (p : positive) : bytes :=
  match p with
  | xH => []
  | xO q => x00 :: bits_of_pos q
  | xI q => x01 :: bits_of_pos q
  end.

Fixpoint pos_of_bits (bs : bytes) : option positive :=
  match bs with
  | [] => Some xH
  | x00 :: r => xO <$> pos_of_bits r
  | x01 :: r => xI <$> pos_of_bits r
  | _ => None
  end.

Definition dumps (pl : plist) : result bytes := Ok (bits_of_pos (encode pl)).

Definition loads (bs : bytes) : result plist :=
  match pos_of_bits bs ≫= decode with
  | Some pl => Ok pl
  | None => Raise ExpatError
  end.

Definition ascii_lower (s : pystr) : pystr :=
  map (fun c => if (65 <=? c) && (c <=? 90) then c + 32 else c) s.

#[global] Instance runtime : Runtime := {
  str_lower := ascii_lower;
  plist_dumps := dumps;
  plist_dump_partial := fun _ => [];
  plist_loads := loads;
}.

(** An empty disk and a fixed random source. *)
Definition world0 : World :=
  mkWorld [] (fun n => 0x0123456789abcdef0123456789abcdef * N.of_nat (S n)) 0 [].

Definition root : Path := [py "tmp"; py "x.vpdoc"].

(** A store-identity record of the version [open] accepts. *)
Definition storeinfo5 : plist :=
  PlDict [(py "isEncrypted", PBool false);
          (py "uuid", PStr (py "5f0c2d4e-0b1a-4c3d-9e8f-7a6b5c4d3e2f"));
          (py "VoodooPadBundleVersion", PInt 5)].

(** A store directory with both property lists and no pages. *)
Definition bare_store : World :=
  snd ((do os_mkdir [py "tmp"];
        do os_mkdir root;
        do dump_plist storeinfo5 (root ++ [py "storeinfo.plist"]);
        dump_plist (PlDict []) (root ++ [py "properties.plist"])) world0).

(** Stores of the supported version, built through the file-system
    operations: [files] are written under [pages]. *)
Definition make_store (files : list (Path * bytes)) : World :=
  snd ((do os_mkdir [py "tmp"];
        do os_mkdir root;
        do dump_plist storeinfo5 (root ++ [py "storeinfo.plist"]);
        do dump_plist (PlDict []) (root ++ [py "properties.plist"]);
        do os_mkdir (root ++ [py "pages"]);
        for_each files
          (fun f _ =>
             do os_makedirs (dirname (root ++ py "pages" :: fst f));
             write_file (root ++ py "pages" :: fst f) (snd f))
          tt) world0).

Definition record_bytes (item_uuid name uti : pystr) : bytes :=
  match dumps (PlDict [(py "uuid", PStr item_uuid);
                       (py "key", PStr (ascii_lower name));
                       (py "displayName", PStr name);
                       (py "uti", PStr uti)]) with
  | Ok bs => bs
  | Raise _ => []
  end.

(** An RTFD container: a directory with the rich text and an image. *)
Definition rtfd_content : bytes :=
  rtfd_magic ++ bytes_of "0001"
  ++ le32 3 ++ le32 2
  ++ le32 7 ++ bytes_of "TXT.rtf" ++ le32 5 ++ bytes_of "a.png"
  ++ le32 21 ++ le32 11
  ++ (le32 1 ++ le32 13 ++ bytes_of "{\rtf1 Hello}")
  ++ (le32 1 ++ le32 3 ++ bytes_of "PNG").

(** A store with a markdown page and an RTFD page. *)
Definition two_pages : list (Path * bytes) :=
  [([py "a"; py "a1.plist"],
    record_bytes (py "a1") (py "Notes") (py "net.daringfireball.markdown"));
   ([py "a"; py "a1"], bytes_of "# Notes");
   ([py "b"; py "b2.plist"], record_bytes (py "b2") (py "Rich") (py "com.apple.rtfd"));
   ([py "b"; py "b2"], rtfd_content)].

Definition two_page_store : World := make_store two_pages.

(** The same store with a metadata record that is not well-formed. *)
Definition bad_record : Path * bytes := ([py "d"; py "d4.plist"], bytes_of "<plist").

Definition bad_record_store : World := make_store (two_pages ++ [bad_record]).

(** A store whose record, in the directory [d], names the page [.x];
    the content file is in [pages] itself. *)
Definition dot_page_store : World :=
  make_store
    [([py "d"; py ".x.plist"],
      record_bytes (py ".x") (py "Hidden") (py "net.daringfireball.markdown"));
     ([py ".x"], bytes_of "found")].

(** A store with the RTFD page, a page whose content is the RTFD magic
    and nothing more, and a page of three bytes. *)
Definition magic_page_store : World :=
  make_store
    [([py "b"; py "b2.plist"],
      record_bytes (py "b2") (py "Rich") (py "com.apple.rtfd"));
     ([py "b"; py "b2"], rtfd_content);
     ([py "e"; py "e5.plist"],
      record_bytes (py "e5") (py "Magic") (py "net.daringfireball.markdown"));
     ([py "e"; py "e5"], rtfd_magic);
     ([py "f"; py "f6.plist"],
      record_bytes (py "f6") (py "Short") (py "net.daringfireball.markdown"));
     ([py "f"; py "f6"], bytes_of "rtf")].

(** A store whose only page starts with the RTFD magic and holds a
    record with tag 2. *)
Definition bad_rtfd_store : World :=
  make_store
    [([py "c"; py "c3.plist"],
      record_bytes (py "c3") (py "Broken") (py "com.apple.rtfd"));
     ([py "c"; py "c3"], rtfd_magic ++ bytes_of "0001" ++ le32 2)].

End Sample.

(** ** A second runtime: what [plistlib] does to strings, and how its
    reader fails

    The sample codec reads back whatever it wrote and fails in one way.
    [plistlib] does neither.  Its XML writer passes every key and every
    string through [_escape], which refuses a control character other
    than tab, line feed and carriage return with [ValueError] and writes
    the line endings [\r\n] and [\r] as [\n] (it also writes [&], [<]
    and [>] as entities, which the reader undoes; that part is left
    out).  Its reader raises [xml.parsers.expat.ExpatError] on markup
    that is not well formed, and other exceptions, [ValueError] among
    them, on well-formed markup that describes no property list (an
    [integer] element without a number, a [key] outside a [dict]).
    This runtime has both on top of the sample coding: it writes the
    coding of the escaped record, and it tells bytes that are no coding
    at all from the coding of something that is no property list. *)
Module Plistlib.

Definition is_control (c : N) : bool :=
  (c <=? 8) || (c =? 11) || (c =? 12) || ((14 <=? c) && (c <=? 31)).

(** [text.replace('\r\n', '\n').replace('\r', '\n')] *)
Fixpoint newlines (text : pystr) : pystr :=
  match text with
  | [] => []
  | c :: rest =>
    if c =? 13 then
      match rest with
      | c' :: rest' =>
        if c' =? 10 then 10 :: newlines rest' else 10 :: newlines rest
      | [] => [10]
      end
    else c :: newlines rest
  end.

(** [plistlib._escape] *)
Definition escape (text : pystr) : result pystr :=
  if existsb is_control text then Raise ValueError else Ok (newlines text).

Definition escape_value (v : pvalue) : result pvalue :=
  match v with
  | PStr s =>
    match escape s with
    | Ok s' => Ok (PStr s')
    | Raise e => Raise e
    end
  | _ => Ok v
  end.

Fixpoint escape_entries (d : dict pystr pvalue) : result (dict pystr pvalue) :=
  match d with
  | [] => Ok []
  | (k, v) :: d' =>
    match escape k, escape_value v, escape_entries d' with
    | Ok k', Ok v', Ok d'' => Ok ((k', v') :: d'')
    | Raise e, _, _ => Raise e
    | _, Raise e, _ => Raise e
    | _, _, Raise e => Raise e
    end
  end.

Definition dumps (pl : plist) : result bytes :=
  match pl with
  | PlDict d =>
    match escape_entries d with
    | Ok d' => Sample.dumps (PlDict d')
    | Raise e => Raise e
    end
  | PlOther => Sample.dumps PlOther
  end.

Definition loads (bs : bytes) : result plist :=
  match Sample.pos_of_bits bs with
  | None => Raise ExpatError
  | Some p =>
    match decode p with
    | Some pl => Ok pl
    | None => Raise ValueError
    end
  end.

(** A failing [dump] leaves the beginning of the markup behind. *)
Definition runtime : Runtime := {|
  str_lower := Sample.ascii_lower;
  plist_dumps := dumps;
  plist_dump_partial := fun _ => bytes_of "<?xml";
  plist_loads := loads;
|}.

(** The sample store with one more record: the coding of something that
    is no property list. *)
Definition unparsed_record : Path * bytes := ([py "d"; py "d5.plist"], [x01]).

Definition unparsed_record_store : World :=
  Sample.make_store (Sample.two_pages ++ [unparsed_record]).

End Plistlib.

(** ** Vocabulary of the statements *)

Arguments py : simpl never.
Arguments stream_read : simpl never.

(** The encoding of a leaf: tag 1, the size, the content. *)
Definition leaf_record (content : bytes) : bytes :=
  le32 1 ++ le32 (len content) ++ content.

(** The encoding of an oversized leaf: tag 1, the sentinel, the padding
    size, the real size, the padding, the content. *)
Definition padded_leaf_record (padding content : bytes) : bytes :=
  le32 1 ++ le32 2147483648 ++ le32 (len padding) ++ le32 (len content)
  ++ padding ++ content.

(** The encoding of a directory: tag 3, the count, the length-prefixed
    names, the sizes, the entries; an entry is given by the bytes of its
    name and its own encoding. *)
Definition directory_record (entries : list (bytes * bytes)) : bytes :=
  le32 3 ++ le32 (N.of_nat (length entries))
  ++ concat (map (fun e => le32 (len (fst e)) ++ fst e) entries)
  ++ concat (map (fun e => le32 (len (snd e))) entries)
  ++ concat (map snd entries).

(** The dictionary a directory record decodes to: every name is first
    bound to [None], in stream order, then to its decoded entry. *)
Definition directory_map_of (names : list pystr) (values : list rtf_item)
    : dict pystr rtf_item :=
  fold_left (fun d nv => dict_set (fst nv) (snd nv) d) (combine names values)
    (fold_left (fun d name => dict_set name RNone d) names []).

(** An RTFD file: the magic, four bytes the decoder skips, one record. *)
Definition rtfd_file (version record : bytes) : bytes :=
  rtfd_magic ++ version ++ record.

(** Every entry of [f] is still there in [f']. *)
Definition fs_extends (f f' : dict Path node) : Prop :=
  forall q n, fs_lookup f q = Some n -> fs_lookup f' q = Some n.

(** The two type tags of records that have no content file. *)
Definition is_alias (uti : pvalue) : bool :=
  eq_str uti (py "com.fm.page-alias") || eq_str uti (py "com.fm.file-alias").

(** The test of [load_file]: more than four bytes, the first four the
    RTFD magic. *)
Definition routed_to_decoder (content : bytes) : bool :=
  (4 <? length content)%nat && bool_decide (firstn 4 content = rtfd_magic).

(** [w] with [out] printed. *)
Definition printed (w : World) (out : list pystr) : World :=
  mkWorld (fs w) (entropy w) (cursor w) (stdout w ++ out).

(** How [open] obtains the text of the item [item_uuid]: from the
    file at its content path, through the decoder when the content is
    routed to it, as UTF-8 in both cases. *)
Definition content_loaded (ds : DataStore) (w : World)
    (item_uuid text : pystr) : Prop :=
  exists p content,
    item_path ds item_uuid = Ok p
    /\ fs_lookup (fs w) p = Some (File content)
    /\ if routed_to_decoder content
       then exists extracted,
              fst (extract_rtf_content_from_rtfd p w) = Ok (RBytes extracted)
              /\ utf8_decode extracted = Ok text
       else utf8_decode content = Ok text.

(** The metadata-record paths [get_plists] collects from the entries
    [subdirs] of [dir], after the paths [acc]. *)
Definition plists_in (f : dict Path node) (dir : Path)
    (subdirs : list pystr) (acc : list Path) : list Path :=
  fold_left
    (fun plists s =>
       match fs_lookup f (dir ++ [s]) with
       | Some Dir =>
         plists ++ map (fun e => (dir ++ [s]) ++ [e])
                     (filter (fun e => endswith e (py ".plist") = true)
                        (fs_children f (dir ++ [s])))
       | _ => plists
       end)
    subdirs acc.

(** The world without the file at [p]. *)
Definition remove_file (p : Path) (w : World) : World :=
  mkWorld (dict_remove p (fs w)) (entropy w) (cursor w) (stdout w).

Section vocabulary.
Context `{Runtime}.

(** The checks [open] makes before it looks at the pages: both
    property lists are files that parse, the store is not encrypted
    and its version is the supported one. *)
Definition store_checks_pass (p : Path) (w : World) (si props : plist) : Prop :=
  exists sdata pdata enc ver,
    fs_lookup (fs w) (p ++ [py "storeinfo.plist"]) = Some (File sdata) /\
    fs_lookup (fs w) (p ++ [py "properties.plist"]) = Some (File pdata) /\
    plist_loads sdata = Ok si /\
    getitem si (py "isEncrypted") = Ok enc /\ truthy enc = false /\
    getitem si (py "VoodooPadBundleVersion") = Ok ver /\ eq_int ver 5 = true /\
    plist_loads pdata = Ok props.

(** The store [open] holds once the checks have passed. *)
Definition checked_store (p : Path) (pw : option pystr) (in_mem : bool)
    (si props : plist) : DataStore :=
  set_properties (set_storeinfo (new_store p pw in_mem) si) props.

(** The record [add_item] builds for an item. *)
Definition metadata_record (item_uuid name format data_hash : pystr) : plist :=
  PlDict [(py "uuid", PStr item_uuid);
          (py "key", PStr (str_lower name));
          (py "displayName", PStr name);
          (py "uti", PStr format);
          (py "dataHash", PStr data_hash)].

(** What [open] does once the pages directory is known to exist. *)
Definition open_pages (ds : DataStore) : M DataStore :=
  item_plist_paths <- get_plists (path ds ++ [py "pages"]);
  tbl <- load_item_plists ds item_plist_paths;
  let ds := set_item_plists ds tbl in
  contents <- for_each (dict_keys (item_plists ds)) (load_item ds) [];
  ret (set_items ds contents).
End vocabulary.

(** A lowercase hexadecimal digit, as a code point. *)
Definition is_hex_digit (c : N) : bool :=
  (48 <=? c) && (c <=? 57) || (97 <=? c) && (c <=? 102).

(** No leaf held by [v], at the top or as an entry, is longer than [n]. *)
Definition leaves_within (n : nat) (v : rtf_item) : Prop :=
  match v with
  | RNone => True
  | RBytes content => (length content <= n)%nat
  | RDict d =>
    forall name content,
      dict_get name d = Some (RBytes content) -> (length content <= n)%nat
  end.

(** The worlds differ in the file system only. *)
Definition same_outside_fs (w w' : World) : Prop :=
  entropy w' = entropy w /\ cursor w' = cursor w /\ stdout w' = stdout w.

(** From [w] to [w'] nothing was removed or overwritten, and what was
    added are directories whose paths satisfy [names]. *)
Definition adds_dirs (names : Path -> Prop) (w w' : World) : Prop :=
  same_outside_fs w w'
  /\ fs_extends (fs w) (fs w')
  /\ forall q n, fs_lookup (fs w') q = Some n ->
       fs_lookup (fs w) q = Some n
       \/ (n = Dir /\ fs_lookup (fs w) q = None /\ names q).

(** [w'] is [w] after some lines were printed. *)
Definition only_prints (w w' : World) : Prop := exists out, w' = printed w out.

(** The identifier the next call of [uuid4] gives in [w]. *)
Definition next_uuid (w : World) : pystr :=
  match fst (uuid4 w) with
  | Ok u => uuid_str u
  | Raise _ => []
  end.

(** The test of [validate] for one identifier: the record stored under
    it has a [uuid] field equal to it. *)
Definition uuid_matches (self : DataStore) (item_uuid : pystr) : bool :=
  match item_plist self item_uuid with
  | Ok pl =>
    match getitem pl (py "uuid") with
    | Ok recorded => eq_str recorded item_uuid
    | Raise _ => false
    end
  | Raise _ => false
  end.

(** The warnings of [validate] for the identifiers [l]. *)
Definition uuid_warnings (self : DataStore) (l : list pystr) : list pystr :=
  map (fun item_uuid => py "[WARN] UUID mismatch for " ++ item_uuid)
    (List.filter (fun item_uuid => negb (uuid_matches self item_uuid)) l).

(** Every record of the store has a [uuid] field. *)
Definition records_have_uuid (self : DataStore) : Prop :=
  forall item_uuid pl,
    dict_get item_uuid (item_plists self) = Some pl ->
    exists recorded, getitem pl (py "uuid") = Ok recorded.

(** The body of the loop of [validate]. *)
Definition validate_body (self : DataStore) (item_uuid : pystr) (valid : bool)
    : M bool :=
  item_plist <- lift (item_plist self item_uuid);
  recorded <- lift (getitem item_plist (py "uuid"));
  if negb (eq_str recorded item_uuid) then
    do print (py "[WARN] UUID mismatch for " ++ item_uuid);
    ret false
  else ret valid.

(** Every entry of the file system lies in a directory. *)
Definition parents_are_directories (f : dict Path node) : Prop :=
  forall q n, fs_lookup f q = Some n -> fs_lookup f (dirname q) = Some Dir.

(** No entry of the file system has a [/] in its name. *)
Definition names_without_slash (f : dict Path node) : Prop :=
  forall q n, fs_lookup f q = Some n -> List.Forall (fun name => ~ In 47 name) q.

(** The file system once [add_item] has written the record [bs] and the
    content [encoded] of [item_uuid] under [shard], which it makes when
    it is missing. *)
Definition with_item_files (f : dict Path node) (shard : Path)
    (item_uuid : pystr) (bs encoded : bytes) : dict Path node :=
  dict_set (shard ++ [item_uuid]) (File encoded)
    (dict_set (shard ++ [item_uuid ++ py ".plist"]) (File bs)
       match fs_lookup f shard with
       | None => dict_set shard Dir f
       | Some _ => f
       end).

(** A store whose second record carries another identifier. *)
Definition mismatched_store : DataStore :=
  mkDataStore Sample.root false None false (PlDict []) (PlDict []) []
    [(py "a1", PlDict [(py "uuid", PStr (py "a1"))]);
     (py "b2", PlDict [(py "uuid", PStr (py "zz"))])].

(** The store-identity record [create] builds. *)
Definition created_storeinfo (store_uuid : pystr) : plist :=
  PlDict [(py "isEncrypted", PBool false);
          (py "uuid", PStr store_uuid);
          (py "VoodooPadBundleVersion", PInt 6)].

(** The properties record [create] builds, with the two entries it adds
    once the index page exists. *)
Definition created_properties (store_uuid index_uuid : pystr) : plist :=
  PlDict [(py "allowPluginLinks", PBool true);
          (py "bdToBookmarkAliasUpgrade", PBool true);
          (py "createSpotlightIndex", PBool true);
          (py "dbVersion", PInt 7);
          (py "expectedPageCount", PInt 0);
          (py "localWebAccess", PBool false);
          (py "newPageUTI", PStr (py "net.daringfireball.markdown"));
          (py "skIndexVersion", PInt 7);
          (py "updatedFMPageToRealUTIs", PBool true);
          (py "updatedSpecialPages3", PBool true);
          (py "uuid", PStr store_uuid);
          (py "defaultPage", PStr (py "Index"));
          (py "defaultUUID", PStr index_uuid)].

(** The text of the index page of a new store. *)
Definition index_text : pystr := py "Write about Index here.".

Section new_store_vocabulary.
Context `{Runtime}.

(** The record of the index page of a new store. *)
Definition index_record (index_uuid : pystr) (encoded : bytes) : plist :=
  metadata_record index_uuid (py "Index") (py "net.daringfireball.markdown")
    (sha1_hexdigest encoded).

(** The store object [create] returns. *)
Definition created_store (p : Path) (store_uuid index_uuid : pystr)
    (encoded : bytes) : DataStore :=
  mkDataStore p false None false
    (created_storeinfo store_uuid)
    (created_properties store_uuid index_uuid)
    [(index_uuid, index_text)]
    [(index_uuid, index_record index_uuid encoded)].

(** The codec writes the three records of a new store. *)
Definition codec_writes_new_store : Prop :=
  forall su iu encoded,
    utf8_encode index_text = Ok encoded ->
    (exists bs, plist_dumps (created_storeinfo (uuid_str su)) = Ok bs)
    /\ (exists bs, plist_dumps (created_properties (uuid_str su) (uuid_str iu))
                   = Ok bs)
    /\ (exists bs, plist_dumps (index_record (uuid_str iu) encoded) = Ok bs).
End new_store_vocabulary.

(** * Properties *)

(** ** The hash agrees with the published test vectors *)

Example sha1_hash_abc :
  sha1_hash (py "abc") = Ok (py "a9993e364706816aba3e25717850c26c9cd0d89d").
Proof. vm_compute. reflexivity. Qed.

Example sha1_hash_empty :
  sha1_hash (py "") = Ok (py "da39a3ee5e6b4b0d3255bfef95601890afd80709").
Proof. vm_compute. reflexivity. Qed.

Example sha1_hash_two_blocks :
  sha1_hash (py "abcdbcdecdefdefgefghfghighijhijkijkljklmklmnlmnomnopnopq")
  = Ok (py "84983e441c3bd26ebaae4aa1f95129e5e54670f1").
Proof. vm_compute. reflexivity. Qed.

(** ** Running computations *)

Lemma bind_run {A B} (c : M A) (k : A -> M B) w a w1 :
  c w = (Ok a, w1) -> bind c k w = k a w1.
Proof. intros Hc. unfold bind. rewrite Hc. reflexivity. Qed.

Lemma bind_raise {A B} (c : M A) (k : A -> M B) w e w1 :
  c w = (Raise e, w1) -> bind c k w = (Raise e, w1).
Proof. intros Hc. unfold bind. rewrite Hc. reflexivity. Qed.

Lemma bind_ok {A B} (c : M A) (k : A -> M B) w b w' :
  bind c k w = (Ok b, w') ->
  exists a w1, c w = (Ok a, w1) /\ k a w1 = (Ok b, w').
Proof.
  unfold bind. destruct (c w) as [[a|e] w1]; intros Hk.
  - exists a, w1. split; [reflexivity | exact Hk].
  - discriminate Hk.
Qed.

Lemma bind_congr {A B} (c c' : M A) (k : A -> M B) w :
  c w = c' w -> bind c k w = bind c' k w.
Proof. unfold bind. intros ->. reflexivity. Qed.

Lemma lift_ok {A} (r : result A) w a w' :
  lift r w = (Ok a, w') -> r = Ok a /\ w' = w.
Proof. unfold lift. intros Heq. inversion Heq. split; reflexivity. Qed.

Lemma ret_ok {A} (x : A) w a w' :
  ret x w = (Ok a, w') -> a = x /\ w' = w.
Proof. unfold ret. intros Heq. inversion Heq. split; reflexivity. Qed.

(** Take a successful run apart, one [bind] at a time. *)
Ltac bind_inv H :=
  let a := fresh "a" in
  let w1 := fresh "w" in
  let Hc := fresh "Hrun" in
  apply bind_ok in H; destruct H as (a & w1 & Hc & H).

Tactic Notation "run_inv" hyp(H) "as" ident(a) ident(w1) ident(Hc) :=
  apply bind_ok in H; destruct H as (a & w1 & Hc & H).

(** ** Dictionaries *)

Section dict_facts.
Context {K V : Type} `{EqDecision K}.
Implicit Types (d : dict K V) (k : K) (v : V).

Lemma dict_get_set_eq d k v : dict_get k (dict_set k v d) = Some v.
Proof.
  induction d as [|[k' v'] d IH]; simpl.
  - destruct (decide (k = k)); congruence.
  - destruct (decide (k = k')) as [->|Hne]; simpl.
    + destruct (decide (k' = k')); congruence.
    + destruct (decide (k = k')); [contradiction | exact IH].
Qed.

Lemma dict_get_set_ne d k k' v :
  k <> k' -> dict_get k' (dict_set k v d) = dict_get k' d.
Proof.
  intros Hne. induction d as [|[k0 v0] d IH]; simpl.
  - destruct (decide (k' = k)); congruence.
  - destruct (decide (k = k0)) as [->|Hk]; simpl.
    + destruct (decide (k' = k0)); congruence.
    + destruct (decide (k' = k0)); [reflexivity | exact IH].
Qed.

Lemma dict_get_none_keys d k : dict_get k d = None <-> ~ In k (dict_keys d).
Proof.
  induction d as [|[k' v'] d IH]; simpl.
  - split; [intros _ [] | reflexivity].
  - destruct (decide (k = k')) as [->|Hne].
    + split; [discriminate | intros Hn; exfalso; apply Hn; left; reflexivity].
    + rewrite IH. split.
      * intros Hn [Heq|Hin]; [congruence | contradiction].
      * intros Hn Hin. apply Hn. right. exact Hin.
Qed.

Lemma dict_get_some_keys d k v : dict_get k d = Some v -> In k (dict_keys d).
Proof.
  intros Hget. destruct (in_dec (fun a b => decide (a = b)) k (dict_keys d)) as [Hin|Hn].
  - exact Hin.
  - apply dict_get_none_keys in Hn. congruence.
Qed.

Lemma dict_keys_set_in d k v :
  forall k', In k' (dict_keys (dict_set k v d)) <-> k' = k \/ In k' (dict_keys d).
Proof.
  intros k'. induction d as [|[k0 v0] d IH]; simpl.
  - split; [intros [<-|[]]; left; reflexivity | intros [->|[]]; left; reflexivity].
  - destruct (decide (k = k0)) as [->|Hk]; simpl.
    + split; [intros [<-|Hin]; [left; reflexivity | right; right; exact Hin]
             | intros [->|[<-|Hin]]; [left | left | right]; auto].
    + rewrite IH. split.
      * intros [<-|[->|Hin]]; [right; left | left | right; right]; auto.
      * intros [->|[<-|Hin]]; [right; left | left | right; right]; auto.
Qed.

Lemma dict_keys_set_nodup d k v :
  List.NoDup (dict_keys d) -> List.NoDup (dict_keys (dict_set k v d)).
Proof.
  induction d as [|[k0 v0] d IH]; simpl; intros Hnd.
  - constructor; [intros [] | constructor].
  - inversion Hnd as [|? ? Hnotin Hnd']; subst.
    destruct (decide (k = k0)) as [->|Hk]; simpl.
    + constructor; assumption.
    + constructor; [|apply IH, Hnd'].
      intros Hin. apply dict_keys_set_in in Hin.
      destruct Hin as [->|Hin]; [congruence | contradiction].
Qed.

Lemma dict_get_remove_eq d k : dict_get k (dict_remove k d) = None.
Proof.
  induction d as [|[k' v'] d IH]; simpl; [reflexivity|].
  destruct (decide (k = k')) as [->|Hne]; [exact IH|].
  simpl. destruct (decide (k = k')); [contradiction | exact IH].
Qed.

Lemma dict_get_remove_ne d k k' :
  k <> k' -> dict_get k' (dict_remove k d) = dict_get k' d.
Proof.
  intros Hne. induction d as [|[k0 v0] d IH]; simpl; [reflexivity|].
  destruct (decide (k = k0)) as [->|Hk]; simpl.
  - destruct (decide (k' = k0)); [congruence | exact IH].
  - destruct (decide (k' = k0)); [reflexivity | exact IH].
Qed.
End dict_facts.

(** ** File system *)

Lemma snoc_not_nil {A} (l : list A) (x : A) : l ++ [x] <> [].
Proof. destruct l; discriminate. Qed.

Lemma fs_lookup_nonempty f (p : Path) :
  p <> [] -> fs_lookup f p = dict_get p f.
Proof. destruct p; [contradiction | reflexivity]. Qed.

Lemma fs_lookup_set_eq f (p : Path) n :
  p <> [] -> fs_lookup (dict_set p n f) p = Some n.
Proof. intros Hp. rewrite fs_lookup_nonempty by exact Hp. apply dict_get_set_eq. Qed.

Lemma fs_lookup_set_ne f (p q : Path) n :
  p <> q -> fs_lookup (dict_set p n f) q = fs_lookup f q.
Proof.
  intros Hne. destruct q as [|c q]; [reflexivity|].
  simpl. apply dict_get_set_ne. exact Hne.
Qed.

Lemma fs_lookup_remove_ne f (p q : Path) :
  p <> q -> fs_lookup (dict_remove p f) q = fs_lookup f q.
Proof.
  intros Hne. destruct q as [|c q]; [reflexivity|].
  simpl. apply dict_get_remove_ne. exact Hne.
Qed.

Lemma path_exists_run p w :
  path_exists p w
  = (Ok (match fs_lookup (fs w) p with Some _ => true | None => false end), w).
Proof. reflexivity. Qed.

Lemma is_dir_run p w :
  is_dir p w
  = (Ok (match fs_lookup (fs w) p with Some Dir => true | _ => false end), w).
Proof. reflexivity. Qed.

Lemma read_file_run p w data :
  fs_lookup (fs w) p = Some (File data) -> read_file p w = (Ok data, w).
Proof. intros Hl. unfold read_file, bind, get_fs. rewrite Hl. reflexivity. Qed.

Lemma read_file_ok p w data w' :
  read_file p w = (Ok data, w') ->
  fs_lookup (fs w) p = Some (File data) /\ w' = w.
Proof.
  unfold read_file, bind, get_fs, ret, raise, lift.
  destruct (fs_lookup (fs w) p) as [[d|]|].
  - intros [= -> ->]. split; reflexivity.
  - discriminate.
  - destruct (check_parent (fs w) p); discriminate.
Qed.

(** ** The checks of [open] *)

Section open_checks.
Context `{Runtime}.

Lemma lift_run {A} (r : result A) w : lift r w = (r, w).
Proof. reflexivity. Qed.

Lemma load_plist_run ds p w data :
  encrypted ds = false ->
  fs_lookup (fs w) p = Some (File data) ->
  load_plist ds p w = (plist_loads data, w).
Proof.
  intros Henc Hl. unfold load_plist. rewrite Henc.
  rewrite (bind_run _ _ _ _ _ (read_file_run _ _ _ Hl)). reflexivity.
Qed.

Lemma open_checked p pw im w si props :
  store_checks_pass p w si props ->
  open p pw im w
  = (isd <- is_dir (p ++ [py "pages"]);
     if negb isd then raise (FileNotFoundError (p ++ [py "properties.plist"]))
     else open_pages (checked_store p pw im si props)) w.
Proof.
  intros (sdata & pdata & enc & ver & Hs & Hp & Hsi & Henc & Hfalse & Hver & H5 & Hprops).
  unfold open, new_store.
  cbn [path encrypted storeinfo set_storeinfo set_properties].
  rewrite (bind_run _ _ _ _ _ (path_exists_run _ _)), Hs. cbn [negb].
  rewrite (bind_run _ _ _ _ _ (path_exists_run _ _)), Hp. cbn [negb].
  rewrite (bind_run _ _ _ _ _ (read_file_run _ _ _ Hs)).
  rewrite Hsi, (bind_run _ _ _ _ _ (lift_run _ _)).
  rewrite Henc, (bind_run _ _ _ _ _ (lift_run _ _)), Hfalse.
  rewrite Hver, (bind_run _ _ _ _ _ (lift_run _ _)), H5. cbn [negb].
  erewrite bind_run;
    [|rewrite (load_plist_run _ _ _ pdata);
      [rewrite Hprops; reflexivity | reflexivity | exact Hp]].
  reflexivity.
Qed.

Lemma open_ok_checks p pw im w ds w' :
  open p pw im w = (Ok ds, w') ->
  exists si props,
    store_checks_pass p w si props /\
    fs_lookup (fs w) (p ++ [py "pages"]) = Some Dir /\
    open_pages (checked_store p pw im si props) w = (Ok ds, w').
Proof.
  intros Hopen. pose proof Hopen as Hrun. unfold open, new_store in Hrun.
  cbn [path encrypted storeinfo set_storeinfo set_properties] in Hrun.
  rewrite (bind_run _ _ _ _ _ (path_exists_run _ _)) in Hrun.
  destruct (fs_lookup (fs w) (p ++ [py "storeinfo.plist"])) as [ns|] eqn:Hs;
    [|discriminate Hrun].
  cbn [negb] in Hrun.
  rewrite (bind_run _ _ _ _ _ (path_exists_run _ _)) in Hrun.
  destruct (fs_lookup (fs w) (p ++ [py "properties.plist"])) as [np|] eqn:Hp;
    [|discriminate Hrun].
  cbn [negb] in Hrun.
  bind_inv Hrun. apply read_file_ok in Hrun0. destruct Hrun0 as [Hs' ->].
  rewrite Hs in Hs'. injection Hs' as ->.
  bind_inv Hrun. apply lift_ok in Hrun0. destruct Hrun0 as [Hsi ->].
  bind_inv Hrun. apply lift_ok in Hrun0. destruct Hrun0 as [Henc ->].
  destruct (truthy a1) eqn:Hfalse; [discriminate Hrun|].
  bind_inv Hrun. apply lift_ok in Hrun0. destruct Hrun0 as [Hver ->].
  destruct (eq_int a2 5) eqn:H5; [|discriminate Hrun].
  cbn [negb] in Hrun.
  bind_inv Hrun. unfold load_plist in Hrun0. cbn [encrypted] in Hrun0.
  bind_inv Hrun0. apply read_file_ok in Hrun1. destruct Hrun1 as [Hp' ->].
  rewrite Hp in Hp'. injection Hp' as ->.
  apply lift_ok in Hrun0. destruct Hrun0 as [Hprops ->].
  rewrite (bind_run _ _ _ _ _ (is_dir_run _ _)) in Hrun.
  exists a0, a3. split.
  - exists a, a4, a1, a2. repeat split; assumption.
  - destruct (fs_lookup (fs w) (p ++ [py "pages"])) as [[d|]|] eqn:Hpages;
      try discriminate Hrun.
    split; [reflexivity | exact Hrun].
Qed.
End open_checks.

(** ** A missing pages directory *)

(** C10: when both property lists exist and parse, the store is not
    encrypted and its version is the supported one, but [pages] is not
    a directory, [open] raises [FileNotFoundError], and the file name
    the error carries is the path of [properties.plist], not the path
    of [pages]. *)
Theorem open_without_pages_names_properties `{Runtime}
    (p : Path) (pw : option pystr) (im : bool) (w : World) (si props : plist) :
  store_checks_pass p w si props ->
  fs_lookup (fs w) (p ++ [py "pages"]) <> Some Dir ->
  open p pw im w
  = (Raise (FileNotFoundError (p ++ [py "properties.plist"])), w).
Proof.
  intros Hchecks Hpages.
  rewrite (open_checked _ _ _ _ _ _ Hchecks).
  rewrite (bind_run _ _ _ _ _ (is_dir_run _ _)).
  destruct (fs_lookup (fs w) (p ++ [py "pages"])) as [[d|]|]; try reflexivity.
  contradiction Hpages. reflexivity.
Qed.

Lemma open_without_pages_witness :
  store_checks_pass Sample.root Sample.bare_store Sample.storeinfo5 (PlDict [])
  /\ fs_lookup (fs Sample.bare_store) (Sample.root ++ [py "pages"]) <> Some Dir
  /\ open Sample.root None false Sample.bare_store
     = (Raise (FileNotFoundError (Sample.root ++ [py "properties.plist"])),
        Sample.bare_store).
Proof.
  assert (Hc : store_checks_pass Sample.root Sample.bare_store
                 Sample.storeinfo5 (PlDict [])).
  { eexists _, _, (PBool false), (PInt 5).
    repeat split; try (vm_compute; reflexivity). }
  assert (Hp : fs_lookup (fs Sample.bare_store) (Sample.root ++ [py "pages"])
               <> Some Dir).
  { vm_compute. discriminate. }
  split; [exact Hc | split; [exact Hp |]].
  exact (open_without_pages_names_properties _ _ _ _ _ _ Hc Hp).
Defined.

(** ** Writing to the file system *)

Lemma bind_any {A B} (c : M A) (k : A -> M B) w r w' :
  bind c k w = (r, w') ->
  (exists e, c w = (Raise e, w') /\ r = Raise e)
  \/ (exists a w1, c w = (Ok a, w1) /\ k a w1 = (r, w')).
Proof.
  unfold bind. destruct (c w) as [[a|e] w1]; intros Hk.
  - right. exists a, w1. split; [reflexivity | exact Hk].
  - left. exists e. inversion Hk; subst. split; reflexivity.
Qed.

Lemma try_except_any {A} (c : M A) catches (h : exn -> M A) w r w' :
  try_except c catches h w = (r, w') ->
  c w = (r, w') \/ (exists e w1, c w = (Raise e, w1) /\ h e w1 = (r, w')).
Proof.
  unfold try_except. destruct (c w) as [[a|e] w1]; intros Hh.
  - left. exact Hh.
  - destruct (catches e); [right; exists e, w1; split; [reflexivity | exact Hh]
                          | left; exact Hh].
Qed.

Lemma fs_extends_refl f : fs_extends f f.
Proof. intros q n Hq. exact Hq. Qed.

Lemma fs_extends_trans f1 f2 f3 :
  fs_extends f1 f2 -> fs_extends f2 f3 -> fs_extends f1 f3.
Proof. intros H12 H23 q n Hq. apply H23, H12, Hq. Qed.

Lemma os_mkdir_extends p w r w' :
  os_mkdir p w = (r, w') -> fs_extends (fs w) (fs w').
Proof.
  unfold os_mkdir, bind, get_fs, lift, raise, put_fs.
  destruct (check_parent (fs w) p).
  - destruct (fs_lookup (fs w) p) eqn:Hp.
    + intros [= <- <-]. apply fs_extends_refl.
    + intros [= <- <-]. simpl. intros q n Hq.
      rewrite fs_lookup_set_ne; [exact Hq|]. intros ->. congruence.
  - intros [= <- <-]. apply fs_extends_refl.
Qed.

Lemma makedirs_rev_extends rname :
  forall w r w', makedirs_rev rname w = (r, w') -> fs_extends (fs w) (fs w').
Proof.
  induction rname as [|c rhead IH]; intros w r w' Hrun.
  - inversion Hrun; subst. apply fs_extends_refl.
  - cbn [makedirs_rev] in Hrun.
    rewrite (bind_run _ _ _ _ _ (path_exists_run _ _)) in Hrun.
    apply bind_any in Hrun.
    assert (Hhead : forall r1 w1,
      (if match fs_lookup (fs w) (rev rhead) with Some _ => true | None => false end
       then ret tt
       else try_except (makedirs_rev rhead)
              (fun e => match e with FileExistsError _ => true | _ => false end)
              (fun _ => ret tt)) w = (r1, w1) -> fs_extends (fs w) (fs w1)).
    { intros r1 w1 Hh.
      destruct (fs_lookup (fs w) (rev rhead)).
      - inversion Hh; subst. apply fs_extends_refl.
      - apply try_except_any in Hh. destruct Hh as [Hh|(e & w2 & Hh & Hret)].
        + eapply IH, Hh.
        + inversion Hret; subst. eapply IH, Hh. }
    destruct Hrun as [(e & Hh & _)|(a & w1 & Hh & Hmk)].
    + eapply Hhead, Hh.
    + eapply fs_extends_trans; [eapply Hhead, Hh|].
      apply try_except_any in Hmk. destruct Hmk as [Hmk|(e & w2 & Hmk & Hisd)].
      * eapply os_mkdir_extends, Hmk.
      * eapply fs_extends_trans; [eapply os_mkdir_extends, Hmk|].
        rewrite (bind_run _ _ _ _ _ (is_dir_run _ _)) in Hisd.
        destruct (match fs_lookup (fs w2) (rev (c :: rhead)) with
                  | Some Dir => true | _ => false end);
          inversion Hisd; subst; apply fs_extends_refl.
Qed.

Lemma os_makedirs_extends name w r w' :
  os_makedirs name w = (r, w') -> fs_extends (fs w) (fs w').
Proof. apply makedirs_rev_extends. Qed.

Lemma write_file_ok p data w w' :
  write_file p data w = (Ok tt, w') ->
  fs w' = dict_set p (File data) (fs w) /\ p <> []
  /\ entropy w' = entropy w /\ cursor w' = cursor w /\ stdout w' = stdout w.
Proof.
  unfold write_file, bind, get_fs, lift, raise, put_fs.
  destruct (check_parent (fs w) p); [|discriminate].
  destruct p as [|c p].
  - simpl. discriminate.
  - destruct (fs_lookup (fs w) (c :: p)) as [[d|]|]; try discriminate;
      intros [= <-]; simpl; repeat split; discriminate.
Qed.

Section store_writes.
Context `{Runtime}.

Lemma dump_plist_ok pl p w (u : unit) w' :
  dump_plist pl p w = (Ok u, w') ->
  exists bs, plist_dumps pl = Ok bs
    /\ fs w' = dict_set p (File bs) (fs w) /\ p <> [].
Proof.
  destruct u. unfold dump_plist. destruct (plist_dumps pl) as [bs|e].
  - intros Hw. apply write_file_ok in Hw. exists bs. tauto.
  - intros Hw. bind_inv Hw. discriminate Hw.
Qed.

Lemma save_plist_ok self pl p w w' :
  save_plist self pl p w = (Ok tt, w') ->
  exists bs, plist_dumps pl = Ok bs
    /\ fs_lookup (fs w') p = Some (File bs)
    /\ encrypted self = false.
Proof.
  unfold save_plist. intros Hrun. bind_inv Hrun.
  destruct (encrypted self); [discriminate Hrun|].
  apply dump_plist_ok in Hrun. destruct Hrun as (bs & Hd & Hfs & Hp).
  exists bs. split; [exact Hd|]. split; [|reflexivity].
  rewrite Hfs. apply fs_lookup_set_eq, Hp.
Qed.

Lemma save_file_ok self data p w w' :
  save_file self data p w = (Ok tt, w') ->
  fs_lookup (fs w') p = Some (File data)
  /\ (forall q n, q <> p -> fs_lookup (fs w) q = Some n ->
                  fs_lookup (fs w') q = Some n).
Proof.
  unfold save_file. intros Hrun. bind_inv Hrun.
  apply os_makedirs_extends in Hrun0.
  destruct (encrypted self); [discriminate Hrun|].
  apply write_file_ok in Hrun. destruct Hrun as (Hfs & Hp & _).
  rewrite Hfs. split.
  - apply fs_lookup_set_eq, Hp.
  - intros q n Hne Hq. rewrite fs_lookup_set_ne by congruence.
    apply Hrun0, Hq.
Qed.
End store_writes.

(** ** Adding an item *)

Lemma uuid_str_cons u : exists c rest, uuid_str u = c :: rest.
Proof. eexists _, _. reflexivity. Qed.

Lemma app_plist_ne (s : pystr) : s ++ py ".plist" <> s.
Proof.
  intros Heq. apply (f_equal (@length N)) in Heq.
  rewrite length_app in Heq. vm_compute (length (py ".plist")) in Heq. lia.
Qed.

(** ** Paths *)

Lemma split_slash_plain (s : pystr) : ~ In 47 s -> split_slash s = [s].
Proof.
  induction s as [|c s IH]; intros Hs; [reflexivity|].
  cbn [split_slash]. destruct (N.eqb_spec c 47) as [->|_].
  - exfalso. apply Hs. left. reflexivity.
  - rewrite IH; [reflexivity|]. intros Hin. apply Hs. right. exact Hin.
Qed.

Lemma path_parts_plain (s : pystr) :
  ~ In 47 s -> s <> [] -> s <> py "." -> path_parts s = [s].
Proof.
  intros Hs Hne Hdot. unfold path_parts. rewrite (split_slash_plain s Hs).
  rewrite filter_cons_True by (split; assumption). reflexivity.
Qed.

Lemma path_join_name (base : Path) (segs : list pystr) (c : N) (s : pystr) :
  c <> 47 -> ~ In 47 s -> c :: s <> [46] ->
  path_join base ((c :: s) :: segs) = path_join (base ++ [c :: s]) segs.
Proof.
  intros Hc Hs Hdot. unfold path_join. cbn [fold_left].
  destruct (N.eqb_spec c 47) as [Heq|_]; [contradiction|].
  rewrite path_parts_plain; [reflexivity| |discriminate|exact Hdot].
  intros [Heq|Hin]; [congruence | contradiction].
Qed.

Lemma in_app_plist (s : pystr) : ~ In 47 s -> ~ In 47 (s ++ py ".plist").
Proof.
  intros Hs Hin. apply in_app_or in Hin. destruct Hin as [Hin|Hin]; [auto|].
  vm_compute in Hin. intuition discriminate.
Qed.

Lemma item_path_plain (self : DataStore) (c : N) (rest : pystr) :
  c <> 46 -> c <> 47 -> ~ In 47 rest ->
  item_path self (c :: rest) = Ok (path self ++ [py "pages"; [c]; c :: rest]).
Proof.
  intros Hdot Hslash Hrest. unfold item_path. cbn [first_char].
  change (py "pages") with (112 :: py "ages").
  rewrite path_join_name;
    [|discriminate|vm_compute; intuition discriminate|discriminate].
  rewrite path_join_name; [|exact Hslash|intros []|congruence].
  rewrite path_join_name; [|exact Hslash|exact Hrest|congruence].
  cbn [path_join fold_left]. rewrite <- !app_assoc. reflexivity.
Qed.

Lemma item_plist_path_plain (self : DataStore) (c : N) (rest : pystr) :
  c <> 46 -> c <> 47 -> ~ In 47 rest ->
  item_plist_path self (c :: rest)
  = Ok (path self ++ [py "pages"; [c]; (c :: rest) ++ py ".plist"]).
Proof.
  intros Hdot Hslash Hrest. unfold item_plist_path. cbn [first_char].
  change (py "pages") with (112 :: py "ages").
  rewrite path_join_name;
    [|discriminate|vm_compute; intuition discriminate|discriminate].
  rewrite path_join_name; [|exact Hslash|intros []|congruence].
  rewrite <- app_comm_cons.
  rewrite path_join_name;
    [|exact Hslash|apply in_app_plist, Hrest|congruence].
  cbn [path_join fold_left]. rewrite <- !app_assoc. reflexivity.
Qed.

Lemma path_parts_slashless (s : pystr) :
  ~ In 47 s -> path_parts s = [s] \/ path_parts s = [].
Proof.
  intros Hs. unfold path_parts. rewrite (split_slash_plain s Hs).
  rewrite filter_cons. destruct (decide _); [left | right]; reflexivity.
Qed.

Lemma path_join_slashless (segs : list pystr) :
  List.Forall (fun s => ~ In 47 s) segs ->
  forall base, path_join base segs = base ++ concat (map path_parts segs).
Proof.
  induction 1 as [|seg segs Hseg _ IH]; intros base.
  - cbn. rewrite app_nil_r. reflexivity.
  - change (path_join base (seg :: segs))
      with (path_join match seg with
                      | c :: _ => if c =? 47 then path_parts seg
                                  else base ++ path_parts seg
                      | [] => base
                      end segs).
    rewrite IH. cbn [map concat]. destruct seg as [|c seg].
    + cbn. reflexivity.
    + destruct (N.eqb_spec c 47) as [->|_].
      * exfalso. apply Hseg. left. reflexivity.
      * rewrite <- app_assoc. reflexivity.
Qed.

(** The content path of an identifier without [/]: [pages/c/id], or a
    shorter path when a component is dropped. *)
Lemma item_path_slashless (ds : DataStore) (k : pystr) (q : Path) :
  ~ In 47 k -> item_path ds k = Ok q ->
  q = path ds ++ [py "pages"; firstn 1 k; k]
  \/ (length q <= length (path ds) + 2)%nat.
Proof.
  intros Hk. unfold item_path. destruct k as [|c k]; [discriminate|].
  cbn [first_char]. intros Hq.
  assert (Hq' : q = path_join (path ds) [py "pages"; [c]; c :: k])
    by congruence.
  subst q. clear Hq.
  rewrite path_join_slashless.
  2: { repeat constructor; [vm_compute; intuition discriminate| |exact Hk].
       intros [->|[]]. apply Hk. left. reflexivity. }
  cbn [map concat]. rewrite app_nil_r.
  change (path_parts (py "pages")) with [py "pages"].
  assert (Hc : ~ In 47 [c]).
  { intros [->|[]]. apply Hk. left. reflexivity. }
  destruct (path_parts_slashless [c] Hc) as [-> | ->];
    destruct (path_parts_slashless (c :: k) Hk) as [-> | ->];
    [left; reflexivity | right | right | right];
    rewrite !length_app; cbn [length app]; lia.
Qed.

(** ** Identifiers *)

Lemma hex_digit_is_hex d : d < 16 -> is_hex_digit (hex_digit d) = true.
Proof.
  intros Hd. unfold hex_digit, is_hex_digit.
  destruct (N.ltb_spec d 10).
  - replace (48 <=? 48 + d) with true by (symmetry; apply N.leb_le; lia).
    replace (48 + d <=? 57) with true by (symmetry; apply N.leb_le; lia).
    reflexivity.
  - replace (97 <=? 87 + d) with true by (symmetry; apply N.leb_le; lia).
    replace (87 + d <=? 102) with true by (symmetry; apply N.leb_le; lia).
    apply orb_true_r.
Qed.

Lemma hex32_length u : length (hex32 u) = 32%nat.
Proof. reflexivity. Qed.

Lemma hex32_digits u : List.Forall (fun c => is_hex_digit c = true) (hex32 u).
Proof.
  unfold hex32. apply List.Forall_forall. intros c Hin.
  apply in_map_iff in Hin. destruct Hin as (i & <- & _).
  apply hex_digit_is_hex. apply N.mod_lt. discriminate.
Qed.

Lemma uuid_str_first u :
  exists rest, uuid_str u = hex_digit ((u / 16 ^ 31) mod 16) :: rest.
Proof. eexists. reflexivity. Qed.

Lemma uuid_str_format u :
  length (uuid_str u) = 36%nat
  /\ List.Forall (fun c => is_hex_digit c = true \/ c = 45) (uuid_str u).
Proof.
  pose proof (hex32_length u) as Hlen. pose proof (hex32_digits u) as Hdig.
  unfold uuid_str. split.
  - rewrite !length_app, !length_firstn, !length_skipn, Hlen. reflexivity.
  - assert (Hweak : List.Forall (fun c => is_hex_digit c = true \/ c = 45) (hex32 u)).
    { eapply List.Forall_impl; [|exact Hdig]. intros c Hc. left. exact Hc. }
    assert (Hdash : List.Forall (fun c => is_hex_digit c = true \/ c = 45) (py "-")).
    { change (py "-") with [45]. constructor; [right; reflexivity | constructor]. }
    repeat (apply List.Forall_app; split);
      try exact Hdash;
      repeat first [apply Forall_take | apply Forall_drop]; exact Hweak.
Qed.

Lemma hex_digit_plain c : is_hex_digit c = true \/ c = 45 -> c <> 46 /\ c <> 47.
Proof.
  intros [Hc| ->]; [|split; discriminate].
  unfold is_hex_digit in Hc. apply orb_true_iff in Hc.
  destruct Hc as [Hc|Hc]; apply andb_true_iff in Hc; destruct Hc as [Hlo Hhi];
    apply N.leb_le in Hlo, Hhi; split; lia.
Qed.

(** The identifiers [add_item] makes are single entry names: no [/] in
    them and no [.] in front. *)
Lemma uuid_str_plain u :
  exists c rest,
    uuid_str u = c :: rest /\ c <> 46 /\ c <> 47 /\ ~ In 47 rest.
Proof.
  destruct (uuid_str_format u) as [_ Hall].
  destruct (uuid_str u) as [|c rest] eqn:Hid; [discriminate Hid|].
  exists c, rest. split; [reflexivity|].
  apply List.Forall_cons_iff in Hall. destruct Hall as [Hc Hrest].
  destruct (hex_digit_plain c Hc) as [Hdot Hslash].
  split; [exact Hdot|]. split; [exact Hslash|].
  intros Hin. rewrite List.Forall_forall in Hrest.
  destruct (hex_digit_plain 47 (Hrest 47 Hin)) as [_ Habs]. congruence.
Qed.

(** For the identifiers [add_item] makes, joining is concatenation. *)
Lemma uuid_paths (base : Path) u :
  exists c rest,
    uuid_str u = c :: rest /\ c <> 46 /\ c <> 47 /\ ~ In 47 rest
    /\ path_join base [py "pages"; [c]; uuid_str u]
       = base ++ [py "pages"; [c]; uuid_str u]
    /\ path_join base [py "pages"; [c]; uuid_str u ++ py ".plist"]
       = base ++ [py "pages"; [c]; uuid_str u ++ py ".plist"].
Proof.
  destruct (uuid_str_plain u) as (c & rest & Hid & Hdot & Hslash & Hrest).
  exists c, rest. repeat (split; [assumption|]).
  pose (self := mkDataStore base false None false (PlDict []) (PlDict []) [] []).
  pose proof (item_path_plain self c rest Hdot Hslash Hrest) as Hip.
  pose proof (item_plist_path_plain self c rest Hdot Hslash Hrest) as Hpp.
  unfold item_path, item_plist_path in Hip, Hpp.
  cbn [first_char path self] in Hip, Hpp.
  injection Hip as Hip. injection Hpp as Hpp.
  rewrite Hid. split; [exact Hip | exact Hpp].
Qed.

Lemma item_path_uuid (ds : DataStore) (item_uuid : pystr) u c rest :
  item_uuid = uuid_str u -> item_uuid = c :: rest ->
  item_path ds item_uuid = Ok (path ds ++ [py "pages"; [c]; item_uuid]).
Proof.
  intros Hu Hid.
  destruct (uuid_str_plain u) as (c' & rest' & Hid' & Hdot & Hslash & Hrest).
  assert (Hcr : c' :: rest' = c :: rest) by congruence.
  injection Hcr as -> ->. rewrite Hid.
  apply item_path_plain; assumption.
Qed.

Section add_item_facts.
Context `{Runtime}.

Lemma add_item_ok self name text format w item_uuid self' w' :
  add_item self name text format w = (Ok (item_uuid, self'), w') ->
  exists u c rest encoded bs,
    let pl := metadata_record item_uuid name format (sha1_hexdigest encoded) in
    item_uuid = uuid_str u /\ item_uuid = c :: rest
    /\ utf8_encode text = Ok encoded
    /\ plist_dumps pl = Ok bs
    /\ fs_lookup (fs w') (path self ++ [py "pages"; [c]; item_uuid ++ py ".plist"])
       = Some (File bs)
    /\ fs_lookup (fs w') (path self ++ [py "pages"; [c]; item_uuid])
       = Some (File encoded)
    /\ self' = set_item_plists
                 (set_items self (dict_set item_uuid text (items self)))
                 (dict_set item_uuid pl (item_plists self))
    /\ encrypted self = false.
Proof.
  unfold add_item. intros Hrun.
  bind_inv Hrun. rename a into u.
  bind_inv Hrun. apply lift_ok in Hrun1. destruct Hrun1 as [Hhash ->].
  bind_inv Hrun. apply lift_ok in Hrun1. destruct Hrun1 as [Hc ->].
  bind_inv Hrun. destruct a1. rename w1 into wp.
  bind_inv Hrun. apply lift_ok in Hrun2. destruct Hrun2 as [Henc ->].
  bind_inv Hrun. destruct a2. rename w1 into wf.
  apply ret_ok in Hrun. destruct Hrun as [Hres ->].
  injection Hres as -> ->.
  destruct (uuid_paths (path self) u)
    as (c & rest & Hid & _ & _ & _ & Hip & Hpp).
  rewrite Hid in Hc. simpl in Hc. injection Hc as <-.
  rewrite Hpp in Hrun1. rewrite Hip in Hrun2.
  unfold sha1_hash in Hhash. rewrite Henc in Hhash. injection Hhash as <-.
  apply save_plist_ok in Hrun1. destruct Hrun1 as (bs & Hd & Hpl & Hplain).
  apply save_file_ok in Hrun2. destruct Hrun2 as (Hcontent & Hkeep).
  exists u, c, rest, a1, bs. cbn zeta.
  repeat split; try assumption; try reflexivity.
  apply Hkeep; [|exact Hpl].
  intros Heq. apply app_inv_head in Heq.
  assert (Hlast : uuid_str u ++ py ".plist" = uuid_str u) by congruence.
  exact (app_plist_ne _ Hlast).
Qed.
End add_item_facts.

Section add_item_claims.
Context `{Runtime}.

End add_item_claims.



Section addressing.
Context `{Runtime}.

(** C5: for an identifier [id] whose first character [c] is neither
    [.] nor [/] and which has no [/] further on, the content path is
    [pages/c/id] and the metadata path is [pages/c/id.plist] under the
    store's root: these are the paths [item_path] and [item_plist_path]
    compute, the paths [add_item] writes the content and the record to
    when it returns [id], and the path from which [open] loads the
    content of a record that is not an alias.  Every identifier
    [add_item] returns is of this kind. *)
Theorem item_paths_shard_by_first_character
    (self : DataStore) (c : N) (rest : pystr) :
  c <> 46 -> c <> 47 -> ~ In 47 rest ->
  let id : pystr := c :: rest in
  let content_path := path self ++ [py "pages"; [c]; id] in
  let metadata_path := path self ++ [py "pages"; [c]; id ++ py ".plist"] in
  item_path self id = Ok content_path
  /\ item_plist_path self id = Ok metadata_path
  /\ (forall name text format w self' w',
        add_item self name text format w = (Ok (id, self'), w') ->
        exists bs encoded,
          utf8_encode text = Ok encoded
          /\ plist_dumps (metadata_record id name format (sha1_hexdigest encoded))
             = Ok bs
          /\ fs_lookup (fs w') metadata_path = Some (File bs)
          /\ fs_lookup (fs w') content_path = Some (File encoded))
  /\ (forall tbl w pl uti,
        dict_get id (item_plists self) = Some pl ->
        getitem pl (py "uti") = Ok uti ->
        eq_str uti (py "com.fm.page-alias") = false ->
        eq_str uti (py "com.fm.file-alias") = false ->
        load_item self id tbl w
        = (present <- path_exists content_path;
           if negb present then raise (FileNotFoundError content_path)
           else
             content <- load_file self content_path;
             text <- lift (decode_method content);
             ret (dict_set id text tbl)) w)
  /\ (forall name text format w new_id self' w',
        add_item self name text format w = (Ok (new_id, self'), w') ->
        exists c' rest',
          new_id = c' :: rest' /\ c' <> 46 /\ c' <> 47 /\ ~ In 47 rest').
Proof.
  intros Hdot Hslash Hrest. cbn zeta.
  split; [apply item_path_plain; assumption|].
  split; [apply item_plist_path_plain; assumption|]. split; [|split].
  - intros name text format w self' w' Hadd. apply add_item_ok in Hadd.
    destruct Hadd as (u & c' & rest' & encoded & bs & _ & Hid & Henc & Hd
                      & Hpl & Hcontent & _ & _).
    injection Hid as <- <-.
    exists bs, encoded. repeat split; assumption.
  - intros tbl w pl uti Hpl Huti Hpage Hfile.
    unfold load_item, item_plist. rewrite Hpl.
    rewrite (bind_run _ _ _ _ _ (lift_run _ _)).
    rewrite Huti, (bind_run _ _ _ _ _ (lift_run _ _)), Hpage.
    rewrite (bind_run _ _ _ _ _ (lift_run _ _)), Hfile.
    rewrite (item_path_plain self c rest Hdot Hslash Hrest).
    reflexivity.
  - intros name text format w new_id self' w' Hadd. apply add_item_ok in Hadd.
    destruct Hadd as (u & _ & _ & _ & _ & Hu & _).
    destruct (uuid_str_plain u) as (c' & rest' & Hid & Hplain).
    exists c', rest'. split; [congruence | exact Hplain].
Qed.
End addressing.

Lemma item_paths_shard_witness :
  item_path (new_store Sample.root None false) (py "a1b2")
  = Ok (Sample.root ++ [py "pages"; py "a"; py "a1b2"])
  /\ item_plist_path (new_store Sample.root None false) (py "a1b2")
     = Ok (Sample.root ++ [py "pages"; py "a"; py "a1b2.plist"]).
Proof.
  assert (Hdot : 97 <> 46) by discriminate.
  assert (Hslash : 97 <> 47) by discriminate.
  assert (Hrest : ~ In 47 (py "1b2")).
  { vm_compute. intuition discriminate. }
  destruct (item_paths_shard_by_first_character
              (new_store Sample.root None false) 97 (py "1b2")
              Hdot Hslash Hrest)
    as (Hcontent & Hmeta & _).
  split; [exact Hcontent | exact Hmeta].
Defined.

(** C5, where the rule does not hold: [pathlib] drops a component [.],
    so the paths of the identifier [.x] have no shard directory: the
    content path is [pages/.x] and the metadata path [pages/.x.plist].
    [open] meets such an identifier as the stem of a record's file
    name: in the store with the record [pages/d/.x.plist] and the
    content in [pages/.x], it loads the page from there. *)
Lemma dot_identifier_has_no_shard :
  item_path (new_store Sample.root None false) (py ".x")
  = Ok (Sample.root ++ [py "pages"; py ".x"])
  /\ item_path (new_store Sample.root None false) (py ".x")
     <> Ok (Sample.root ++ [py "pages"; py "."; py ".x"])
  /\ item_plist_path (new_store Sample.root None false) (py ".x")
     = Ok (Sample.root ++ [py "pages"; py ".x.plist"])
  /\ item_plist_path (new_store Sample.root None false) (py ".x")
     <> Ok (Sample.root ++ [py "pages"; py "."; py ".x.plist"])
  /\ fs_lookup (fs Sample.dot_page_store)
       (Sample.root ++ [py "pages"; py "."; py ".x"]) = None
  /\ exists ds w',
       open Sample.root None false Sample.dot_page_store = (Ok ds, w')
       /\ item ds (py ".x") = Ok (py "found").
Proof.
  split; [vm_compute; reflexivity|].
  split; [vm_compute; discriminate|].
  split; [vm_compute; reflexivity|].
  split; [vm_compute; discriminate|].
  split; [vm_compute; reflexivity|].
  eexists _, _. split; vm_compute; reflexivity.
Qed.

(** ** The decoder terminates *)

Lemma stream_read_fst_length n data :
  (length (fst (stream_read n data)) <= length data)%nat.
Proof. unfold stream_read. simpl. rewrite length_firstn. lia. Qed.

Lemma stream_read_snd_length n data :
  (length (snd (stream_read n data)) <= length data)%nat.
Proof. unfold stream_read. simpl. rewrite length_skipn. lia. Qed.

Lemma read_names_length n :
  forall data, (length (snd (read_names n data)) <= length data)%nat.
Proof.
  induction n as [|n IH]; intros data; cbn [read_names]; [simpl; lia|].
  pose proof (stream_read_snd_length 4 data) as H4.
  destruct (stream_read 4 data) as [field d1]. simpl in H4.
  pose proof (stream_read_snd_length (read_int field) d1) as Hraw.
  destruct (stream_read (read_int field) d1) as [raw d2]. simpl in Hraw.
  destruct (utf8_decode raw); [|simpl; lia].
  specialize (IH d2). destruct (read_names n d2) as [[names|e] d3];
    simpl in *; lia.
Qed.

Lemma read_sizes_length n :
  forall data, (length (snd (read_sizes n data)) <= length data)%nat.
Proof.
  induction n as [|n IH]; intros data; cbn [read_sizes]; [simpl; lia|].
  pose proof (stream_read_snd_length 4 data) as H4.
  destruct (stream_read 4 data) as [field d1]. simpl in H4.
  specialize (IH d1). destruct (read_sizes n d1) as [sizes d2]. simpl in *. lia.
Qed.

Lemma read_chunks_length sizes :
  forall data chunk,
    In chunk (fst (read_chunks sizes data)) -> (length chunk <= length data)%nat.
Proof.
  induction sizes as [|size sizes IH]; intros data chunk; cbn [read_chunks];
    [intros []|].
  pose proof (stream_read_fst_length size data) as Hf.
  pose proof (stream_read_snd_length size data) as Hs.
  destruct (stream_read size data) as [c d1]. simpl in Hf, Hs.
  specialize (IH d1 chunk). destruct (read_chunks sizes d1) as [chunks d2].
  simpl in *. intros [<-|Hin]; [lia|]. specialize (IH Hin). lia.
Qed.

Lemma stream_read_tag_shorter data field rest :
  stream_read 4 data = (field, rest) -> read_int field <> 0 ->
  (length rest < length data)%nat.
Proof.
  unfold stream_read. intros [= <- <-] Hnz. destruct data as [|b data].
  - contradiction Hnz. reflexivity.
  - simpl. rewrite length_skipn. lia.
Qed.

Lemma fill_directory_ext rec1 rec2 entries :
  (forall name item, In (name, item) entries -> rec1 item = rec2 item) ->
  forall dm, fill_directory rec1 entries dm = fill_directory rec2 entries dm.
Proof.
  induction entries as [|[name item] entries IH]; intros Hext dm; simpl;
    [reflexivity|].
  rewrite (Hext name item) by (left; reflexivity).
  destruct (rec2 item) as [[[v|e] rest]|]; try reflexivity.
  apply IH. intros n i Hin. apply (Hext n i). right. exact Hin.
Qed.

Lemma fill_directory_total (g : bytes -> result rtf_item * bytes) entries :
  forall dm, fill_directory (fun item => Some (g item)) entries dm <> None.
Proof.
  induction entries as [|[name item] entries IH]; intros dm; simpl;
    [discriminate|].
  destruct (g item) as [[v|e] rest]; [apply IH | discriminate].
Qed.

(** The body only calls [rec] on inputs shorter than its own. *)
Lemma read_rtf_item_body_ext rec1 rec2 data :
  (forall item, (length item < length data)%nat -> rec1 item = rec2 item) ->
  read_rtf_item_body rec1 data = read_rtf_item_body rec2 data.
Proof.
  intros Hext. unfold read_rtf_item_body.
  destruct (stream_read 4 data) as [field d1] eqn:Htag.
  destruct (read_int field =? 1); [reflexivity|].
  destruct (read_int field =? 3) eqn:H3; [|reflexivity].
  apply N.eqb_eq in H3.
  assert (Hd1 : (length d1 < length data)%nat).
  { eapply stream_read_tag_shorter; [exact Htag | lia]. }
  pose proof (stream_read_snd_length 4 d1) as Hd2.
  destruct (stream_read 4 d1) as [field2 d2]. simpl in Hd2.
  pose proof (read_names_length (N.to_nat (read_int field2)) d2) as Hd3.
  destruct (read_names (N.to_nat (read_int field2)) d2) as [[names|e] d3];
    [|reflexivity].
  simpl in Hd3.
  pose proof (read_sizes_length (N.to_nat (read_int field2)) d3) as Hd4.
  destruct (read_sizes (N.to_nat (read_int field2)) d3) as [sizes d4].
  simpl in Hd4.
  pose proof (read_chunks_length sizes d4) as Hchunks.
  destruct (read_chunks sizes d4) as [chunks d5]. simpl in Hchunks.
  rewrite (fill_directory_ext rec1 rec2); [reflexivity|].
  intros name item Hin. apply Hext.
  apply in_combine_r in Hin. specialize (Hchunks item Hin). lia.
Qed.

Lemma read_rtf_item_body_total (g : bytes -> result rtf_item * bytes) data :
  read_rtf_item_body (fun item => Some (g item)) data <> None.
Proof.
  unfold read_rtf_item_body.
  destruct (stream_read 4 data) as [field d1].
  destruct (read_int field =? 1).
  { destruct (stream_read 4 d1) as [f2 d2].
    destruct (read_int f2 =? 2147483648).
    - destruct (stream_read 4 d2) as [f3 d3]. destruct (stream_read 4 d3) as [f4 d4].
      destruct (stream_read (read_int f3) d4) as [pad d5].
      destruct (stream_read (read_int f4) d5) as [c d6]. discriminate.
    - destruct (stream_read (read_int f2) d2) as [c d3]. discriminate. }
  destruct (read_int field =? 3); [|discriminate].
  destruct (stream_read 4 d1) as [field2 d2].
  destruct (read_names (N.to_nat (read_int field2)) d2) as [[names|e] d3];
    [|discriminate].
  destruct (read_sizes (N.to_nat (read_int field2)) d3) as [sizes d4].
  destruct (read_chunks sizes d4) as [chunks d5].
  pose proof (fill_directory_total g (combine names chunks)
                (fold_left (fun d name => dict_set name RNone d) names [])) as Hfill.
  destruct (fill_directory _ _ _) as [[d|e]|]; [discriminate | discriminate |].
  contradiction Hfill. reflexivity.
Qed.

(** With more fuel than the input has bytes, the bound is not reached
    and the result is that of [read_rtf_item]. *)
Lemma read_rtf_item_fuel_enough n :
  forall data fuel,
    (length data <= n)%nat -> (length data < fuel)%nat ->
    read_rtf_item_fuel fuel data = Some (read_rtf_item data).
Proof.
  induction n as [|n IH]; intros data fuel Hn Hfuel.
  - destruct data; [|simpl in Hn; lia].
    destruct fuel as [|fuel]; [lia|]. reflexivity.
  - assert (Hstep : forall f, (length data <= f)%nat ->
              read_rtf_item_fuel (S f) data
              = read_rtf_item_body (fun item => Some (read_rtf_item item)) data).
    { intros f Hf. cbn [read_rtf_item_fuel]. apply read_rtf_item_body_ext.
      intros item Hitem. apply IH; lia. }
    destruct fuel as [|fuel]; [lia|].
    assert (Hr : read_rtf_item data
                 = match read_rtf_item_body
                           (fun item => Some (read_rtf_item item)) data with
                   | Some r => r
                   | None => (Ok RNone, data)
                   end).
    { unfold read_rtf_item at 1. rewrite Hstep by lia. reflexivity. }
    rewrite Hstep by lia. rewrite Hr.
    pose proof (read_rtf_item_body_total read_rtf_item data) as Htotal.
    destruct (read_rtf_item_body _ data); [reflexivity|].
    contradiction Htotal. reflexivity.
Qed.

(** [read_rtf_item] satisfies the equation of the source function. *)
Lemma read_rtf_item_unfold data :
  read_rtf_item_body (fun item => Some (read_rtf_item item)) data
  = Some (read_rtf_item data).
Proof.
  rewrite <- (read_rtf_item_fuel_enough (length data) data (S (length data)))
    by lia.
  cbn [read_rtf_item_fuel]. apply read_rtf_item_body_ext.
  intros item Hitem. symmetry.
  apply (read_rtf_item_fuel_enough (length item)); lia.
Qed.

(** ** Reading well-formed fields *)

Lemma to_N_byte_of_N x : x < 256 -> Byte.to_N (byte_of_N x) = x.
Proof.
  intros Hx. unfold byte_of_N.
  destruct (Byte.of_N x) as [b|] eqn:Hb.
  - simpl. apply Byte.to_of_N, Hb.
  - apply Byte.of_N_None_iff in Hb. lia.
Qed.

Lemma length_le32 n : length (le32 n) = 4%nat.
Proof. reflexivity. Qed.

Lemma read_int_le32 n : n < 2 ^ 32 -> read_int (le32 n) = n.
Proof.
  intros Hn. unfold le32, read_int. cbn [map fold_right].
  rewrite !to_N_byte_of_N by (apply N.mod_lt; discriminate).
  change (256 ^ 0) with 1. change (256 ^ 1) with 256.
  change (256 ^ 2) with (256 * 256). change (256 ^ 3) with (256 * 256 * 256).
  rewrite N.div_1_r, <- !N.Div0.div_div.
  pose proof (N.div_mod n 256) as H0.
  pose proof (N.div_mod (n / 256) 256) as H1.
  pose proof (N.div_mod (n / 256 / 256) 256) as H2.
  assert (H3 : n / 256 / 256 / 256 < 256).
  { change (2 ^ 32) with (256 * (256 * (256 * 256))) in Hn.
    repeat (apply N.Div0.div_lt_upper_bound). exact Hn. }
  rewrite (N.mod_small _ _ H3). lia.
Qed.

Lemma stream_read_app n (a rest : bytes) :
  N.to_nat n = length a -> stream_read n (a ++ rest) = (a, rest).
Proof.
  intros Hn. unfold stream_read. rewrite Hn.
  rewrite firstn_app, Nat.sub_diag, firstn_all, firstn_O, app_nil_r.
  rewrite skipn_app, Nat.sub_diag, skipn_all, skipn_O. reflexivity.
Qed.

Lemma stream_read_le32 n rest : stream_read 4 (le32 n ++ rest) = (le32 n, rest).
Proof. apply stream_read_app. reflexivity. Qed.

Lemma stream_read_len (a rest : bytes) : stream_read (len a) (a ++ rest) = (a, rest).
Proof. apply stream_read_app. unfold len. apply Nat2N.id. Qed.

(** ** Leaf records *)

Lemma read_rtf_item_of_body data r :
  read_rtf_item_body (fun item => Some (read_rtf_item item)) data = Some r ->
  read_rtf_item data = r.
Proof. rewrite read_rtf_item_unfold. intros [= ->]. reflexivity. Qed.

Lemma read_rtf_item_leaf content rest :
  len content < 2 ^ 32 -> len content <> 2147483648 ->
  read_rtf_item (leaf_record content ++ rest) = (Ok (RBytes content), rest).
Proof.
  intros Hlen Hord. apply read_rtf_item_of_body.
  unfold read_rtf_item_body, leaf_record.
  rewrite <- !app_assoc, stream_read_le32.
  rewrite read_int_le32 by reflexivity. cbn [N.eqb Pos.eqb].
  rewrite stream_read_le32, (read_int_le32 _ Hlen).
  apply N.eqb_neq in Hord. rewrite Hord, stream_read_len.
  reflexivity.
Qed.

Lemma read_rtf_item_padded_leaf padding content rest :
  len padding < 2 ^ 32 -> len content < 2 ^ 32 ->
  read_rtf_item (padded_leaf_record padding content ++ rest)
  = (Ok (RBytes content), rest).
Proof.
  intros Hpad Hlen. apply read_rtf_item_of_body.
  unfold read_rtf_item_body, padded_leaf_record.
  rewrite <- !app_assoc, stream_read_le32.
  rewrite read_int_le32 by reflexivity. cbn [N.eqb Pos.eqb].
  rewrite stream_read_le32, read_int_le32 by reflexivity.
  rewrite N.eqb_refl.
  rewrite stream_read_le32, (read_int_le32 _ Hpad).
  rewrite stream_read_le32, (read_int_le32 _ Hlen).
  rewrite !stream_read_len.
  reflexivity.
Qed.

(** C6: a leaf record with an ordinary size field decodes to exactly
    the next [size] bytes; a leaf record with the [0x80000000] sentinel,
    a padding size [P] and a real size [R] decodes to exactly the [R]
    bytes that follow the [P] padding bytes, the padding left out.  In
    both cases the stream is left just after the content. *)
Theorem leaf_records_decode (padding content rest : bytes) :
  len padding < 2 ^ 32 -> len content < 2 ^ 32 ->
  (len content <> 2147483648 ->
   read_rtf_item (leaf_record content ++ rest) = (Ok (RBytes content), rest))
  /\ read_rtf_item (padded_leaf_record padding content ++ rest)
     = (Ok (RBytes content), rest).
Proof.
  intros Hpad Hlen. split.
  - intros Hord. apply read_rtf_item_leaf; assumption.
  - apply read_rtf_item_padded_leaf; assumption.
Qed.

Lemma leaf_records_decode_witness :
  read_rtf_item (leaf_record (bytes_of "{\rtf1}") ++ bytes_of "tail")
  = (Ok (RBytes (bytes_of "{\rtf1}")), bytes_of "tail")
  /\ read_rtf_item (padded_leaf_record (bytes_of "....") (bytes_of "{\rtf1}")
                    ++ bytes_of "tail")
     = (Ok (RBytes (bytes_of "{\rtf1}")), bytes_of "tail").
Proof.
  destruct (leaf_records_decode (bytes_of "....") (bytes_of "{\rtf1}")
              (bytes_of "tail")) as [Hleaf Hpadded].
  - vm_compute. reflexivity.
  - vm_compute. reflexivity.
  - split; [apply Hleaf; vm_compute; discriminate | exact Hpadded].
Defined.

(** ** Directory records *)

Lemma read_names_well_formed (entries : list (bytes * bytes)) names :
  Forall2 (fun e name => utf8_decode (fst e) = Ok name) entries names ->
  Forall (fun e => len (fst e) < 2 ^ 32) entries ->
  forall tail,
    read_names (length entries)
      (concat (map (fun e => le32 (len (fst e)) ++ fst e) entries) ++ tail)
    = (Ok names, tail).
Proof.
  induction 1 as [|e name entries names Hname _ IH]; intros Hlen tail.
  - reflexivity.
  - inversion Hlen as [|? ? He Hrest]; subst.
    cbn [length map concat read_names].
    rewrite <- !app_assoc, stream_read_le32, (read_int_le32 _ He).
    rewrite stream_read_len, Hname, (IH Hrest). reflexivity.
Qed.

Lemma read_sizes_well_formed (entries : list (bytes * bytes)) :
  Forall (fun e => len (snd e) < 2 ^ 32) entries ->
  forall tail,
    read_sizes (length entries)
      (concat (map (fun e => le32 (len (snd e))) entries) ++ tail)
    = (map (fun e => len (snd e)) entries, tail).
Proof.
  induction 1 as [|e entries He _ IH]; intros tail.
  - reflexivity.
  - cbn [length map concat read_sizes].
    rewrite <- !app_assoc, stream_read_le32, (read_int_le32 _ He), IH.
    reflexivity.
Qed.

Lemma read_chunks_well_formed (entries : list (bytes * bytes)) tail :
  read_chunks (map (fun e => len (snd e)) entries)
    (concat (map snd entries) ++ tail)
  = (map snd entries, tail).
Proof.
  induction entries as [|e entries IH].
  - reflexivity.
  - cbn [map concat read_chunks].
    rewrite <- !app_assoc, stream_read_len, IH. reflexivity.
Qed.

Lemma fill_directory_values (g : bytes -> result rtf_item * bytes)
    (entries : list (bytes * bytes)) values :
  Forall2 (fun e v => fst (g (snd e)) = Ok v) entries values ->
  forall names dm,
    fill_directory (fun item => Some (g item)) (combine names (map snd entries)) dm
    = Some (Ok (fold_left (fun d nv => dict_set (fst nv) (snd nv) d)
                  (combine names values) dm)).
Proof.
  induction 1 as [|e v entries values Hv _ IH]; intros names dm.
  - destruct names; reflexivity.
  - destruct names as [|name names]; [reflexivity|].
    cbn [map combine fill_directory fold_left fst snd].
    destruct (g (snd e)) as [r rest]. simpl in Hv. subst r.
    apply IH.
Qed.

Lemma dict_set_fresh {V} (d : dict pystr V) k v :
  ~ In k (dict_keys d) -> dict_set k v d = d ++ [(k, v)].
Proof.
  induction d as [|[k' v'] d IH]; simpl; intros Hn; [reflexivity|].
  destruct (decide (k = k')) as [->|Hne]; [exfalso; apply Hn; left; reflexivity|].
  rewrite IH; [reflexivity|]. intros Hin. apply Hn. right. exact Hin.
Qed.

Lemma dict_set_bound {V} (pre post : dict pystr V) k v0 v :
  ~ In k (dict_keys pre) ->
  dict_set k v (pre ++ (k, v0) :: post) = pre ++ (k, v) :: post.
Proof.
  induction pre as [|[k' v'] pre IH]; simpl; intros Hn.
  - destruct (decide (k = k)); [reflexivity | contradiction].
  - destruct (decide (k = k')) as [->|Hne]; [exfalso; apply Hn; left; reflexivity|].
    rewrite IH; [reflexivity|]. intros Hin. apply Hn. right. exact Hin.
Qed.

Lemma unbound_names names :
  forall pre : dict pystr rtf_item,
    List.NoDup names -> (forall k, In k names -> ~ In k (dict_keys pre)) ->
    fold_left (fun d name => dict_set name RNone d) names pre
    = pre ++ map (fun name => (name, RNone)) names.
Proof.
  induction names as [|name names IH]; intros pre Hnd Hfresh; simpl.
  - rewrite app_nil_r. reflexivity.
  - inversion Hnd as [|? ? Hnotin Hnd']; subst.
    rewrite dict_set_fresh by (apply Hfresh; left; reflexivity).
    rewrite IH; [rewrite <- app_assoc; reflexivity | exact Hnd' |].
    intros k Hk. unfold dict_keys. rewrite map_app, in_app_iff. simpl.
    intros [Hin|[<-|[]]]; [|contradiction].
    apply (Hfresh k); [right; exact Hk | exact Hin].
Qed.

Lemma bind_names names :
  forall (values : list rtf_item) (pre : dict pystr rtf_item),
    List.NoDup names -> length names = length values ->
    (forall k, In k names -> ~ In k (dict_keys pre)) ->
    fold_left (fun d nv => dict_set (fst nv) (snd nv) d) (combine names values)
      (pre ++ map (fun name => (name, RNone)) names)
    = pre ++ combine names values.
Proof.
  induction names as [|name names IH]; intros values pre Hnd Hlen Hfresh.
  - reflexivity.
  - destruct values as [|v values]; [discriminate Hlen|].
    inversion Hnd as [|? ? Hnotin Hnd']; subst.
    cbn [map combine fold_left fst snd].
    rewrite dict_set_bound by (apply Hfresh; left; reflexivity).
    change (pre ++ (name, v) :: map (fun n => (n, RNone)) names)
      with (pre ++ [(name, v)] ++ map (fun n => (n, RNone)) names).
    rewrite app_assoc, IH.
    + rewrite <- app_assoc. reflexivity.
    + exact Hnd'.
    + simpl in Hlen. lia.
    + intros k Hk. unfold dict_keys. rewrite map_app, in_app_iff. simpl.
      intros [Hin|[<-|[]]]; [|contradiction].
      apply (Hfresh k); [right; exact Hk | exact Hin].
Qed.

Lemma directory_map_of_distinct names values :
  List.NoDup names -> length names = length values ->
  directory_map_of names values = combine names values.
Proof.
  intros Hnd Hlen. unfold directory_map_of.
  rewrite (unbound_names names []); [|exact Hnd|intros k _ []].
  apply (bind_names names values []); [exact Hnd|exact Hlen|intros k _ []].
Qed.

Lemma read_rtf_item_directory (entries : list (bytes * bytes)) names values rest :
  N.of_nat (length entries) < 2 ^ 32 ->
  Forall (fun e => len (fst e) < 2 ^ 32 /\ len (snd e) < 2 ^ 32) entries ->
  Forall2 (fun e name => utf8_decode (fst e) = Ok name) entries names ->
  Forall2 (fun e v => fst (read_rtf_item (snd e)) = Ok v) entries values ->
  read_rtf_item (directory_record entries ++ rest)
  = (Ok (RDict (directory_map_of names values)), rest).
Proof.
  intros Hcount Hlens Hnames Hvalues. apply read_rtf_item_of_body.
  unfold read_rtf_item_body, directory_record.
  rewrite <- !app_assoc, stream_read_le32.
  rewrite read_int_le32 by reflexivity. cbn [N.eqb Pos.eqb].
  rewrite stream_read_le32, (read_int_le32 _ Hcount), Nat2N.id.
  rewrite (read_names_well_formed entries names Hnames)
    by (eapply List.Forall_impl; [|exact Hlens]; intros e [He _]; exact He).
  rewrite read_sizes_well_formed
    by (eapply List.Forall_impl; [|exact Hlens]; intros e [_ He]; exact He).
  rewrite read_chunks_well_formed.
  rewrite (fill_directory_values read_rtf_item entries values Hvalues).
  reflexivity.
Qed.

Lemma len_leaf_record content : len (leaf_record content) = 8 + len content.
Proof.
  unfold len, leaf_record. rewrite !length_app, !length_le32. lia.
Qed.

Lemma extract_txt_rtf w p version content :
  length version = 4%nat ->
  len content + 8 < 2 ^ 32 -> len content <> 2147483648 ->
  fs_lookup (fs w) p
  = Some (File (rtfd_file version
                  (directory_record [(bytes_of "TXT.rtf", leaf_record content)]))) ->
  extract_rtf_content_from_rtfd p w = (Ok (RBytes content), w).
Proof.
  intros Hver Hlen Hord Hfile. unfold extract_rtf_content_from_rtfd.
  rewrite (bind_run _ _ _ _ _ (read_file_run _ _ _ Hfile)).
  unfold rtfd_file. rewrite (stream_read_app 4 rtfd_magic) by reflexivity.
  rewrite bool_decide_eq_true_2 by reflexivity. cbn [negb].
  rewrite (stream_read_app 4 version) by (rewrite Hver; reflexivity).
  rewrite <- (app_nil_r (directory_record _)).
  rewrite (read_rtf_item_directory _ [py "TXT.rtf"] [RBytes content]).
  - reflexivity.
  - reflexivity.
  - constructor; [|constructor]. cbn [fst snd]. split; [reflexivity|].
    rewrite len_leaf_record. lia.
  - constructor; [reflexivity | constructor].
  - constructor; [|constructor]. cbn [snd].
    rewrite <- (app_nil_r (leaf_record content)).
    rewrite read_rtf_item_leaf; [reflexivity | lia | exact Hord].
Qed.

(** C7: a directory record (tag 3) with [count] entries is read as the
    count, the [count] length-prefixed UTF-8 names in order, the [count]
    sizes in the same order and the raw bytes of each entry in order;
    each entry's bytes are decoded by [read_rtf_item] again and the
    result is the dictionary from the names to the decoded entries: for
    distinct names, the pairs of names and entries in stream order.  In
    particular, the extraction from an RTFD file whose record is a
    directory with the single entry [TXT.rtf] wrapping a leaf returns
    the leaf's bytes. *)
Theorem directory_records_decode
    (entries : list (bytes * bytes)) (names : list pystr)
    (values : list rtf_item) (rest : bytes) :
  N.of_nat (length entries) < 2 ^ 32 ->
  Forall (fun e => len (fst e) < 2 ^ 32 /\ len (snd e) < 2 ^ 32) entries ->
  Forall2 (fun e name => utf8_decode (fst e) = Ok name) entries names ->
  Forall2 (fun e v => fst (read_rtf_item (snd e)) = Ok v) entries values ->
  read_rtf_item (directory_record entries ++ rest)
  = (Ok (RDict (directory_map_of names values)), rest)
  /\ (List.NoDup names -> directory_map_of names values = combine names values)
  /\ (forall w p version content,
        length version = 4%nat ->
        len content + 8 < 2 ^ 32 -> len content <> 2147483648 ->
        fs_lookup (fs w) p
        = Some (File (rtfd_file version
                        (directory_record
                           [(bytes_of "TXT.rtf", leaf_record content)]))) ->
        extract_rtf_content_from_rtfd p w = (Ok (RBytes content), w)).
Proof.
  intros Hcount Hlens Hnames Hvalues. split; [|split].
  - apply read_rtf_item_directory; assumption.
  - intros Hnd. apply directory_map_of_distinct; [exact Hnd|].
    apply Forall2_length in Hnames, Hvalues. congruence.
  - intros w p version content. apply extract_txt_rtf.
Qed.

Lemma directory_records_decode_witness :
  let entries := [(bytes_of "TXT.rtf", leaf_record (bytes_of "{\rtf1 Hello}"));
                  (bytes_of "a.png", leaf_record (bytes_of "PNG"))] in
  read_rtf_item (directory_record entries ++ bytes_of "tail")
  = (Ok (RDict [(py "TXT.rtf", RBytes (bytes_of "{\rtf1 Hello}"));
                (py "a.png", RBytes (bytes_of "PNG"))]),
     bytes_of "tail").
Proof.
  intros entries.
  destruct (directory_records_decode entries [py "TXT.rtf"; py "a.png"]
              [RBytes (bytes_of "{\rtf1 Hello}"); RBytes (bytes_of "PNG")]
              (bytes_of "tail")) as (Hdecode & Hdistinct & _).
  - vm_compute. reflexivity.
  - repeat constructor.
  - repeat constructor.
  - repeat constructor.
  - rewrite Hdecode, Hdistinct; [reflexivity|].
    repeat constructor; vm_compute; intuition discriminate.
Defined.

(** ** Reads past the end of the stream *)

Lemma stream_read_past_end n data :
  (length data <= N.to_nat n)%nat -> stream_read n data = (data, []).
Proof.
  intros Hlen. unfold stream_read.
  rewrite firstn_all2, skipn_all2 by exact Hlen. reflexivity.
Qed.

Lemma utf8_decode_raise bs e : utf8_decode bs = Raise e -> e = UnicodeDecodeError.
Proof.
  unfold utf8_decode. destruct (utf8_decode_opt bs); [discriminate|].
  intros [= <-]. reflexivity.
Qed.

Lemma read_names_raise n :
  forall data e rest,
    read_names n data = (Raise e, rest) -> e = UnicodeDecodeError.
Proof.
  induction n as [|n IH]; intros data e rest; cbn [read_names]; [discriminate|].
  destruct (stream_read 4 data) as [field d1].
  destruct (stream_read (read_int field) d1) as [raw d2].
  destruct (utf8_decode raw) as [name|e'] eqn:Hname.
  - specialize (IH d2). destruct (read_names n d2) as [[names|e'] d3];
      [discriminate|].
    intros [= <- <-]. eapply IH. reflexivity.
  - intros [= <- <-]. eapply utf8_decode_raise, Hname.
Qed.

Lemma fill_directory_raise rec entries :
  forall dm e,
    fill_directory rec entries dm = Some (Raise e) ->
    exists name item rest, In (name, item) entries /\ rec item = Some (Raise e, rest).
Proof.
  induction entries as [|[name item] entries IH]; intros dm e; simpl;
    [discriminate|].
  destruct (rec item) as [[[v|e'] rest]|] eqn:Hrec.
  - intros Hfill. destruct (IH _ _ Hfill) as (n & i & r & Hin & Hr).
    exists n, i, r. split; [right; exact Hin | exact Hr].
  - intros [= <-]. exists name, item, rest. split; [left; reflexivity | exact Hrec].
  - discriminate.
Qed.

Lemma read_rtf_item_body_raise (g : bytes -> result rtf_item * bytes) data e rest :
  (forall item e' rest',
     (length item < length data)%nat -> g item = (Raise e', rest') ->
     e' = UnicodeDecodeError) ->
  read_rtf_item_body (fun item => Some (g item)) data = Some (Raise e, rest) ->
  e = UnicodeDecodeError.
Proof.
  intros Hg. unfold read_rtf_item_body.
  destruct (stream_read 4 data) as [field d1] eqn:Htag.
  destruct (read_int field =? 1).
  { destruct (stream_read 4 d1) as [f2 d2].
    destruct (read_int f2 =? 2147483648).
    - destruct (stream_read 4 d2) as [f3 d3]. destruct (stream_read 4 d3) as [f4 d4].
      destruct (stream_read (read_int f3) d4) as [pad d5].
      destruct (stream_read (read_int f4) d5) as [c d6]. discriminate.
    - destruct (stream_read (read_int f2) d2) as [c d3]. discriminate. }
  destruct (read_int field =? 3) eqn:H3; [|discriminate].
  apply N.eqb_eq in H3.
  assert (Hd1 : (length d1 < length data)%nat).
  { eapply stream_read_tag_shorter; [exact Htag | lia]. }
  pose proof (stream_read_snd_length 4 d1) as Hd2.
  destruct (stream_read 4 d1) as [field2 d2]. simpl in Hd2.
  pose proof (read_names_length (N.to_nat (read_int field2)) d2) as Hd3.
  destruct (read_names (N.to_nat (read_int field2)) d2) as [[names|e'] d3]
    eqn:Hnames.
  2:{ intros [= <- <-]. eapply read_names_raise, Hnames. }
  simpl in Hd3.
  pose proof (read_sizes_length (N.to_nat (read_int field2)) d3) as Hd4.
  destruct (read_sizes (N.to_nat (read_int field2)) d3) as [sizes d4].
  simpl in Hd4.
  pose proof (read_chunks_length sizes d4) as Hchunks.
  destruct (read_chunks sizes d4) as [chunks d5]. simpl in Hchunks.
  destruct (fill_directory _ _ _) as [[d|e']|] eqn:Hfill; try discriminate.
  intros [= <- <-].
  apply fill_directory_raise in Hfill.
  destruct Hfill as (name & item & r & Hin & Hrec).
  injection Hrec as Hrec.
  apply (Hg item e' r); [|exact Hrec].
  apply in_combine_r in Hin. specialize (Hchunks item Hin). lia.
Qed.

Lemma read_rtf_item_raise n :
  forall data e rest,
    (length data <= n)%nat ->
    read_rtf_item data = (Raise e, rest) -> e = UnicodeDecodeError.
Proof.
  induction n as [|n IH]; intros data e rest Hn Hraise.
  - destruct data; [|simpl in Hn; lia]. discriminate Hraise.
  - apply (read_rtf_item_body_raise read_rtf_item data e rest).
    + intros item e' rest' Hitem. apply IH. lia.
    + rewrite read_rtf_item_unfold, Hraise. reflexivity.
Qed.

(** C2, counterexample: a leaf that announces 10 bytes of content and
    holds 3 decodes to those 3 bytes; a stream that ends inside the tag
    field, or before it, decodes to the empty leaf or to [None].  None
    of them fails. *)
Lemma short_reads_do_not_fail :
  (len (bytes_of "abc") < 10
   /\ read_rtf_item (le32 1 ++ le32 10 ++ bytes_of "abc")
      = (Ok (RBytes (bytes_of "abc")), []))
  /\ read_rtf_item [x01] = (Ok (RBytes []), [])
  /\ read_rtf_item [] = (Ok RNone, []).
Proof. vm_compute. repeat split. Qed.

Lemma read_int_zeros (field : bytes) (k : nat) :
  read_int (field ++ repeat x00 k) = read_int field.
Proof.
  unfold read_int. induction field as [|b field IH]; cbn [app fold_right].
  - induction k as [|k IHk]; [reflexivity|].
    cbn [repeat fold_right]. rewrite IHk. reflexivity.
  - rewrite IH. reflexivity.
Qed.

(** C2, amended: a read of the decoder that the stream cannot supply in
    full does not fail.  A read past the end returns the bytes that are
    left; a 4-byte field cut short is read as if the missing bytes were
    zero; a leaf whose content is cut short decodes to the part of the
    content that is there. *)
Theorem short_reads_are_silent (data : bytes) :
  (forall n, (length data <= N.to_nat n)%nat -> stream_read n data = (data, []))
  /\ ((length data < 4)%nat ->
      read_int (fst (stream_read 4 data))
      = read_int (data ++ repeat x00 (4 - length data)))
  /\ (forall size content,
        size < 2 ^ 32 -> size <> 2147483648 -> len content <= size ->
        data = le32 1 ++ le32 size ++ content ->
        read_rtf_item data = (Ok (RBytes content), [])).
Proof.
  split; [|split].
  - intros n. apply stream_read_past_end.
  - intros Hshort.
    rewrite stream_read_past_end by (change (N.to_nat 4) with 4%nat; lia).
    cbn [fst]. symmetry. apply read_int_zeros.
  - intros size content Hsize Hord Hshort ->. apply read_rtf_item_of_body.
    unfold read_rtf_item_body.
    rewrite stream_read_le32, read_int_le32 by reflexivity. cbn [N.eqb Pos.eqb].
    rewrite stream_read_le32, (read_int_le32 _ Hsize).
    apply N.eqb_neq in Hord. rewrite Hord.
    rewrite stream_read_past_end by (unfold len in Hshort; lia).
    reflexivity.
Qed.

(** ** An undecodable RTFD page *)

(** C3, at a failing store: the store passes the checks of [open]; its
    only page starts with the RTFD magic and holds a record with the
    unrecognised tag 2, so the extraction returns [None]; [open] then
    calls [decode] on [None] and the whole load is aborted by the
    [AttributeError]. *)
Theorem open_aborts_on_undecodable_rtfd :
  store_checks_pass Sample.root Sample.bad_rtfd_store Sample.storeinfo5 (PlDict [])
  /\ extract_rtf_content_from_rtfd
       (Sample.root ++ [py "pages"; py "c"; py "c3"]) Sample.bad_rtfd_store
     = (Ok RNone, Sample.bad_rtfd_store)
  /\ open Sample.root None false Sample.bad_rtfd_store
     = (Raise AttributeError, Sample.bad_rtfd_store).
Proof.
  split; [|split].
  - eexists _, _, (PBool false), (PInt 5).
    repeat split; try (vm_compute; reflexivity).
  - vm_compute. reflexivity.
  - vm_compute. reflexivity.
Qed.

(** ** A store that [create] made *)

Lemma pos_of_bits_of_pos p : Sample.pos_of_bits (Sample.bits_of_pos p) = Some p.
Proof. induction p as [p IH|p IH|]; simpl; rewrite ?IH; reflexivity. Qed.

Lemma sample_codec_round_trip : @codec_round_trip Sample.runtime.
Proof.
  intros pl bs. simpl. unfold Sample.dumps, Sample.loads. intros [= <-].
  rewrite pos_of_bits_of_pos. simpl. rewrite decode_encode. reflexivity.
Qed.

Lemma storeinfo_ne_properties (p : Path) :
  p ++ [py "properties.plist"] <> p ++ [py "storeinfo.plist"].
Proof. intros Heq. apply app_inv_head in Heq. vm_compute in Heq. discriminate Heq. Qed.

Section created_store.
Context `{Runtime}.

(** C1, as the code has it: a store that [create] has just written is
    consistent ([validate] returns true) but cannot be opened: [create]
    writes the bundle version 6 and [open] accepts only 5, so [open]
    raises [Exception('Unsupported')]. *)
Theorem created_store_is_not_opened
    (p : Path) (pw : option pystr) (im : bool) (w : World)
    (ds : DataStore) (w' : World) :
  codec_round_trip ->
  create p w = (Ok ds, w') ->
  open p pw im w' = (Raise (PyException (py "Unsupported")), w')
  /\ validate ds w' = (Ok true, w').
Proof.
  intros Hcodec Hc. unfold create in Hc.
  cbn [path new_store set_storeinfo set_properties storeinfo properties] in Hc.
  bind_inv Hc. bind_inv Hc. bind_inv Hc. bind_inv Hc. rename a2 into su.
  bind_inv Hc. apply lift_ok in Hrun3. destruct Hrun3 as [Hu ->].
  bind_inv Hc. destruct a3 as [index_uuid ds1].
  apply add_item_ok in Hrun3.
  destruct Hrun3 as (u & c & rest & encoded & bs & _ & _ & _ & _ & _ & _ & -> & _).
  cbn [set_item_plists set_items set_properties set_storeinfo new_store
       path properties storeinfo items item_plists encrypted password in_memory]
    in Hc.
  bind_inv Hc. apply lift_ok in Hrun3. destruct Hrun3 as [_ ->].
  bind_inv Hc. apply lift_ok in Hrun3. destruct Hrun3 as [_ ->].
  bind_inv Hc. bind_inv Hc.
  apply ret_ok in Hc. destruct Hc as [-> ->].
  apply dump_plist_ok in Hrun3. destruct Hrun3 as (bsi & Hdsi & Hfs5 & _).
  apply dump_plist_ok in Hrun4. destruct Hrun4 as (bsp & _ & Hfs6 & _).
  assert (Hsi : fs_lookup (fs w6) (p ++ [py "storeinfo.plist"]) = Some (File bsi)).
  { rewrite Hfs6, fs_lookup_set_ne by apply storeinfo_ne_properties.
    rewrite Hfs5. apply fs_lookup_set_eq, snoc_not_nil. }
  assert (Hprops : fs_lookup (fs w6) (p ++ [py "properties.plist"])
                   = Some (File bsp)).
  { rewrite Hfs6. apply fs_lookup_set_eq, snoc_not_nil. }
  split.
  - unfold open, new_store.
    cbn [path encrypted storeinfo set_storeinfo set_properties].
    rewrite (bind_run _ _ _ _ _ (path_exists_run _ _)), Hsi. cbn [negb].
    rewrite (bind_run _ _ _ _ _ (path_exists_run _ _)), Hprops. cbn [negb].
    rewrite (bind_run _ _ _ _ _ (read_file_run _ _ _ Hsi)).
    rewrite (Hcodec _ _ Hdsi), (bind_run _ _ _ _ _ (lift_run _ _)).
    reflexivity.
  - unfold validate, item_uuids, item_plist.
    cbn [item_plists set_properties set_item_plists set_items set_storeinfo
         new_store dict_set dict_keys map fst for_each dict_get].
    rewrite decide_True by reflexivity.
    unfold bind, lift.
    change (getitem (metadata_record index_uuid (py "Index")
                       (py "net.daringfireball.markdown")
                       (sha1_hexdigest encoded)) (py "uuid"))
      with (@Ok pvalue (PStr index_uuid)).
    cbn [eq_str]. rewrite bool_decide_eq_true_2 by reflexivity. reflexivity.
Qed.
End created_store.

Lemma created_store_witness :
  exists ds w',
    create Sample.root (snd (os_mkdir [py "tmp"] Sample.world0)) = (Ok ds, w')
    /\ open Sample.root None false w'
       = (Raise (PyException (py "Unsupported")), w')
    /\ validate ds w' = (Ok true, w').
Proof.
  destruct (create Sample.root (snd (os_mkdir [py "tmp"] Sample.world0)))
    as [[ds|e] w'] eqn:Hrun.
  - exists ds, w'. split; [reflexivity|].
    exact (created_store_is_not_opened _ None false _ _ _
             sample_codec_round_trip Hrun).
  - vm_compute in Hrun. discriminate Hrun.
Defined.

(** ** Loading the content of an item *)

Lemma print_run line w :
  print line w = (Ok tt, mkWorld (fs w) (entropy w) (cursor w) (stdout w ++ [line])).
Proof. reflexivity. Qed.

(** The extraction reads one file and prints; its result is a function
    of the file system. *)
Lemma extract_rtf_content_run p w1 w2 :
  fs w1 = fs w2 ->
  exists r out,
    extract_rtf_content_from_rtfd p w1 = (r, printed w1 out)
    /\ extract_rtf_content_from_rtfd p w2 = (r, printed w2 out).
Proof.
  destruct w1 as [f1 e1 c1 o1], w2 as [f2 e2 c2 o2]. simpl. intros ->.
  unfold extract_rtf_content_from_rtfd, read_file, get_fs, bind, lift, raise,
    ret, print, printed. cbn [fs entropy cursor stdout].
  destruct (fs_lookup f2 p) as [[data|]|].
  - destruct (stream_read 4 data) as [magic d1].
    destruct (negb (bool_decide (magic = rtfd_magic))).
    + eexists _, [_]. split; reflexivity.
    + destruct (stream_read 4 d1) as [version d2].
      destruct (fst (read_rtf_item d2)) as [[| |d]|e];
        try (eexists _, []; rewrite !app_nil_r; split; reflexivity).
      destruct (dict_get (py "TXT.rtf") d).
      * eexists _, []. rewrite !app_nil_r. split; reflexivity.
      * eexists _, [_]. split; reflexivity.
  - eexists _, []. rewrite !app_nil_r. split; reflexivity.
  - destruct (check_parent f2 p);
      eexists _, []; rewrite !app_nil_r; split; reflexivity.
Qed.

Lemma extract_rtf_content_fs p w r w' :
  extract_rtf_content_from_rtfd p w = (r, w') -> fs w' = fs w.
Proof.
  destruct (extract_rtf_content_run p w w eq_refl) as (r0 & out & Hrun & _).
  rewrite Hrun. intros [= _ <-]. reflexivity.
Qed.

Lemma extract_rtf_content_fs_only p w1 w2 :
  fs w1 = fs w2 ->
  fst (extract_rtf_content_from_rtfd p w1) = fst (extract_rtf_content_from_rtfd p w2).
Proof.
  intros Hfs. destruct (extract_rtf_content_run p w1 w2 Hfs) as (r & out & H1 & H2).
  rewrite H1, H2. reflexivity.
Qed.

Lemma for_each_world {A S} (R : World -> World -> Prop) (body : A -> S -> M S) :
  (forall w, R w w) ->
  (forall w1 w2 w3, R w1 w2 -> R w2 w3 -> R w1 w3) ->
  (forall x acc w r w', body x acc w = (r, w') -> R w w') ->
  forall l acc w r w', for_each l body acc w = (r, w') -> R w w'.
Proof.
  intros Hrefl Htrans Hbody. induction l as [|x l IH]; intros acc w r w' Hrun.
  - inversion Hrun; subst. apply Hrefl.
  - cbn [for_each] in Hrun. apply bind_any in Hrun.
    destruct Hrun as [(e & Hx & _)|(acc1 & w1 & Hx & Hrest)].
    + eapply Hbody, Hx.
    + eapply Htrans; [eapply Hbody, Hx | eapply IH, Hrest].
Qed.

Lemma content_loaded_fs ds w1 w2 item_uuid text :
  fs w1 = fs w2 ->
  content_loaded ds w1 item_uuid text -> content_loaded ds w2 item_uuid text.
Proof.
  intros Hfs (ip & content & Hip & Hfile & Hrouted).
  exists ip, content. split; [exact Hip|]. split; [rewrite <- Hfs; exact Hfile|].
  destruct (routed_to_decoder content); [|exact Hrouted].
  destruct Hrouted as (extracted & Hex & Hdec). exists extracted.
  split; [|exact Hdec].
  rewrite <- (extract_rtf_content_fs_only ip w1 w2 Hfs). exact Hex.
Qed.

Section loading.
Context `{Runtime}.

Lemma load_item_ok ds item_uuid tbl w tbl' w' :
  load_item ds item_uuid tbl w = (Ok tbl', w') ->
  fs w' = fs w
  /\ exists pl uti,
       dict_get item_uuid (item_plists ds) = Some pl
       /\ getitem pl (py "uti") = Ok uti
       /\ if is_alias uti then tbl' = tbl
          else exists text,
                 tbl' = dict_set item_uuid text tbl
                 /\ content_loaded ds w item_uuid text.
Proof.
  unfold load_item. intros Hrun.
  run_inv Hrun as pl wa Hpl. apply lift_ok in Hpl. destruct Hpl as [Hpl ->].
  unfold item_plist in Hpl.
  destruct (dict_get item_uuid (item_plists ds)) as [pl'|] eqn:Hget;
    [|discriminate Hpl].
  injection Hpl as ->.
  run_inv Hrun as uti wb Huti. apply lift_ok in Huti. destruct Huti as [Huti ->].
  unfold is_alias.
  destruct (eq_str uti (py "com.fm.page-alias")) eqn:Hpage.
  { apply ret_ok in Hrun. destruct Hrun as [-> ->].
    split; [reflexivity|]. exists pl, uti. rewrite Hpage.
    split; [reflexivity|]. split; [exact Huti | reflexivity]. }
  run_inv Hrun as uti' wc Huti'. apply lift_ok in Huti'.
  destruct Huti' as [Huti' ->].
  rewrite Huti in Huti'. injection Huti' as <-.
  destruct (eq_str uti (py "com.fm.file-alias")) eqn:Hfile.
  { apply ret_ok in Hrun. destruct Hrun as [-> ->].
    split; [reflexivity|]. exists pl, uti. rewrite Hpage, Hfile.
    split; [reflexivity|]. split; [exact Huti | reflexivity]. }
  run_inv Hrun as ip wd Hip. apply lift_ok in Hip. destruct Hip as [Hip ->].
  rewrite (bind_run _ _ _ _ _ (path_exists_run _ _)) in Hrun.
  match type of Hrun with
  | context [fs_lookup ?f ?q] => destruct (fs_lookup f q) as [n|] eqn:Hnode
  end; cbn [negb] in Hrun; [|discriminate Hrun].
  run_inv Hrun as loaded w1 Hload.
  run_inv Hrun as text we Hdecode. apply lift_ok in Hdecode.
  destruct Hdecode as [Hdecode ->].
  apply ret_ok in Hrun. destruct Hrun as [-> ->].
  unfold load_file in Hload.
  destruct (encrypted ds); [discriminate Hload|].
  run_inv Hload as content wf Hread.
  apply read_file_ok in Hread. destruct Hread as [Hfile' ->].
  assert (Hrun1 :
    (if routed_to_decoder content
     then extract_rtf_content_from_rtfd ip
     else ret (RBytes content)) w = (Ok loaded, w1)) by exact Hload.
  clear Hload.
  assert (Hloaded : fs w1 = fs w /\
    if routed_to_decoder content
    then exists extracted,
           fst (extract_rtf_content_from_rtfd ip w) = Ok (RBytes extracted)
           /\ utf8_decode extracted = Ok text
    else utf8_decode content = Ok text).
  { destruct (routed_to_decoder content).
    - split; [eapply extract_rtf_content_fs, Hrun1|].
      rewrite Hrun1. cbn [fst].
      destruct loaded as [|extracted|d]; try discriminate Hdecode.
      exists extracted. split; [reflexivity | exact Hdecode].
    - apply ret_ok in Hrun1. destruct Hrun1 as [-> ->].
      split; [reflexivity | exact Hdecode]. }
  destruct Hloaded as [Hfs Hloaded].
  split; [exact Hfs|]. exists pl, uti. split; [reflexivity|].
  split; [exact Huti|]. rewrite Hpage, Hfile. cbn [orb].
  exists text. split; [reflexivity|].
  exists ip, content.
  split; [exact Hip|]. split; [exact Hfile' | exact Hloaded].
Qed.

Lemma load_items_ok ds l :
  forall tbl0 w tbl w',
    for_each l (load_item ds) tbl0 w = (Ok tbl, w') ->
    fs w' = fs w
    /\ forall item_uuid,
         (~ In item_uuid l -> dict_get item_uuid tbl = dict_get item_uuid tbl0)
         /\ (In item_uuid l -> List.NoDup l ->
             exists pl uti,
               dict_get item_uuid (item_plists ds) = Some pl
               /\ getitem pl (py "uti") = Ok uti
               /\ if is_alias uti
                  then dict_get item_uuid tbl = dict_get item_uuid tbl0
                  else exists text,
                         dict_get item_uuid tbl = Some text
                         /\ content_loaded ds w item_uuid text).
Proof.
  induction l as [|x l IH]; intros tbl0 w tbl w' Hrun.
  - apply ret_ok in Hrun. destruct Hrun as [-> ->].
    split; [reflexivity|]. intros id. split; [reflexivity | intros []].
  - cbn [for_each] in Hrun. run_inv Hrun as t1 w1 Hx.
    apply load_item_ok in Hx.
    destruct Hx as (Hfs1 & pl & uti & Hpl & Huti & Hstep).
    destruct (IH _ _ _ _ Hrun) as (Hfs & Hrest).
    assert (Hother : forall id, id <> x -> dict_get id t1 = dict_get id tbl0).
    { intros id Hne. destruct (is_alias uti); [subst t1; reflexivity|].
      destruct Hstep as (text & -> & _). apply dict_get_set_ne. congruence. }
    split; [congruence|]. intros id. split.
    + intros Hnotin. destruct (Hrest id) as [Hkeep _].
      rewrite Hkeep by (intros Hin; apply Hnotin; right; exact Hin).
      apply Hother. intros ->. apply Hnotin. left. reflexivity.
    + intros Hin Hnd. inversion Hnd as [|? ? Hx Hnd']; subst.
      destruct (decide (id = x)) as [->|Hne].
      * destruct (Hrest x) as [Hkeep _]. rewrite (Hkeep Hx).
        exists pl, uti. split; [exact Hpl|]. split; [exact Huti|].
        destruct (is_alias uti); [subst t1; reflexivity|].
        destruct Hstep as (text & -> & Hloaded). exists text.
        split; [apply dict_get_set_eq | exact Hloaded].
      * destruct Hin as [Heq|Hin]; [congruence|].
        destruct (Hrest id) as [_ Hthere].
        destruct (Hthere Hin Hnd') as (pl' & uti' & Hpl' & Huti' & Hres).
        exists pl', uti'. split; [exact Hpl'|]. split; [exact Huti'|].
        destruct (is_alias uti').
        -- rewrite Hres. apply Hother, Hne.
        -- destruct Hres as (text & Hget & Hloaded). exists text.
           split; [exact Hget|].
           eapply content_loaded_fs; [|exact Hloaded]. exact Hfs1.
Qed.
End loading.

(** ** Enumerating the metadata records *)

Lemma for_each_acc {A S} (I : S -> Prop) (body : A -> S -> M S) :
  (forall x acc w acc' w', I acc -> body x acc w = (Ok acc', w') -> I acc') ->
  forall l acc w acc' w',
    I acc -> for_each l body acc w = (Ok acc', w') -> I acc'.
Proof.
  intros Hbody. induction l as [|x l IH]; intros acc w acc' w' Hacc Hrun.
  - apply ret_ok in Hrun. destruct Hrun as [-> _]. exact Hacc.
  - cbn [for_each] in Hrun. run_inv Hrun as acc1 w1 Hx.
    eapply IH; [eapply Hbody; [exact Hacc | exact Hx] | exact Hrun].
Qed.

Lemma os_listdir_world p w r w' : os_listdir p w = (r, w') -> w' = w.
Proof.
  unfold os_listdir, bind, get_fs, ret, raise, lift.
  destruct (fs_lookup (fs w) p) as [[d|]|].
  - intros [= _ <-]. reflexivity.
  - intros [= _ <-]. reflexivity.
  - destruct (check_parent (fs w) p); intros [= _ <-]; reflexivity.
Qed.

Lemma read_file_world p w r w' : read_file p w = (r, w') -> w' = w.
Proof.
  unfold read_file, bind, get_fs, ret, raise, lift.
  destruct (fs_lookup (fs w) p) as [[d|]|].
  - intros [= _ <-]. reflexivity.
  - intros [= _ <-]. reflexivity.
  - destruct (check_parent (fs w) p); intros [= _ <-]; reflexivity.
Qed.

Section enumeration.
Context `{Runtime}.

Lemma get_plists_world dir w r w' : get_plists dir w = (r, w') -> w' = w.
Proof.
  unfold get_plists. intros Hrun. apply bind_any in Hrun.
  destruct Hrun as [(e & Hl & _)|(subdirs & w1 & Hl & Hrun)].
  - eapply os_listdir_world, Hl.
  - apply os_listdir_world in Hl. subst w1.
    revert Hrun.
    apply (for_each_world (fun w w' => w' = w)); [reflexivity | congruence |].
    intros s acc w0 r0 w0'. rewrite (bind_run _ _ _ _ _ (is_dir_run _ _)).
    destruct (negb _); [intros [= _ <-]; reflexivity|].
    intros Hb. apply bind_any in Hb.
    destruct Hb as [(e & Hl & _)|(entries & w2 & Hl & Hb)].
    + eapply os_listdir_world, Hl.
    + apply os_listdir_world in Hl. subst w2.
      inversion Hb; subst. reflexivity.
Qed.

Lemma load_plist_world ds p w r w' : load_plist ds p w = (r, w') -> w' = w.
Proof.
  unfold load_plist, enc_ctx_call. destruct (encrypted ds).
  - intros [= _ <-]. reflexivity.
  - intros Hrun. apply bind_any in Hrun.
    destruct Hrun as [(e & Hr & _)|(data & w1 & Hr & Hrun)].
    + eapply read_file_world, Hr.
    + apply read_file_world in Hr. subst w1. inversion Hrun; subst. reflexivity.
Qed.

Lemma load_item_plists_fs ds paths w r w' :
  load_item_plists ds paths w = (r, w') -> fs w' = fs w.
Proof.
  unfold load_item_plists.
  apply (for_each_world (fun w w' => fs w' = fs w)); [reflexivity | congruence |].
  intros p acc w0 r0 w0' Hb. unfold load_item_plist in Hb.
  apply try_except_any in Hb.
  destruct Hb as [Hb|(e & w1 & Hb & Hh)].
  - apply bind_any in Hb. destruct Hb as [(e & Hl & _)|(pl & w1 & Hl & Hb)].
    + apply load_plist_world in Hl. congruence.
    + apply load_plist_world in Hl. subst w1. inversion Hb; subst. reflexivity.
  - apply bind_any in Hb. destruct Hb as [(e' & Hl & _)|(pl & w2 & Hl & Hb)].
    + apply load_plist_world in Hl. subst w1.
      rewrite (bind_run _ _ _ _ _ (print_run _ _)) in Hh.
      inversion Hh; subst. reflexivity.
    + inversion Hb.
Qed.

Lemma load_item_plists_nodup ds paths w tbl w' :
  load_item_plists ds paths w = (Ok tbl, w') -> List.NoDup (dict_keys tbl).
Proof.
  unfold load_item_plists.
  apply (for_each_acc (fun acc => List.NoDup (dict_keys acc))); [|constructor].
  intros p acc w0 acc' w0' Hnd Hb. unfold load_item_plist in Hb.
  apply try_except_any in Hb.
  destruct Hb as [Hb|(e & w1 & Hb & Hh)].
  - run_inv Hb as pl w1 Hl. apply ret_ok in Hb. destruct Hb as [-> _].
    apply dict_keys_set_nodup, Hnd.
  - rewrite (bind_run _ _ _ _ _ (print_run _ _)) in Hh.
    apply ret_ok in Hh. destruct Hh as [-> _]. exact Hnd.
Qed.

(** The item loop of [open] on a record that is not an alias and whose
    content file is there: the file is read, routed by the test of
    [load_file], and the result decoded. *)
Lemma load_item_file_run ds item_uuid pl uti q content tbl w :
  encrypted ds = false ->
  dict_get item_uuid (item_plists ds) = Some pl ->
  getitem pl (py "uti") = Ok uti ->
  is_alias uti = false ->
  item_path ds item_uuid = Ok q ->
  fs_lookup (fs w) q = Some (File content) ->
  load_item ds item_uuid tbl w
  = (loaded <- (if (4 <? length content)%nat
                   && bool_decide (firstn 4 content = rtfd_magic)
                then extract_rtf_content_from_rtfd q
                else ret (RBytes content));
     text <- lift (decode_method loaded);
     ret (dict_set item_uuid text tbl)) w.
Proof.
  intros Hplain Hget Huti Halias Hq Hfile.
  unfold is_alias in Halias. apply orb_false_iff in Halias.
  destruct Halias as [Hpage Halias].
  unfold load_item, item_plist. rewrite Hget.
  rewrite (bind_run _ _ _ _ _ (lift_run _ _)).
  rewrite Huti, (bind_run _ _ _ _ _ (lift_run _ _)), Hpage.
  rewrite (bind_run _ _ _ _ _ (lift_run _ _)), Halias.
  rewrite Hq, (bind_run _ _ _ _ _ (lift_run _ _)).
  rewrite (bind_run _ _ _ _ _ (path_exists_run _ _)), Hfile. cbn [negb].
  apply bind_congr. unfold load_file. rewrite Hplain.
  rewrite (bind_run _ _ _ _ _ (read_file_run _ _ _ Hfile)). reflexivity.
Qed.

(** C9: after a successful [open], every metadata record has a type
    tag; the alias records have no entry in the content table, and the
    text of every other item comes from the file at the item's content
    path: when the bytes have more than four bytes and start with the
    RTFD magic they go through the decoder and the text is the UTF-8
    decoding of the extracted [TXT.rtf] stream, otherwise the text is
    the UTF-8 decoding of the bytes themselves.  The item loop of
    [open] does so on every content: on a record that is not an alias
    and with the content file in place, content that is exactly the
    four magic bytes is decoded as it is and gives the text [rtfd];
    content that does not start with the magic, or has at most four
    bytes, is decoded as it is; content that starts with the magic and
    goes on is handed to [extract_rtf_content_from_rtfd]. *)
Theorem item_content_routing
    (p : Path) (pw : option pystr) (im : bool) (w : World)
    (ds : DataStore) (w' : World) :
  open p pw im w = (Ok ds, w') ->
  (forall item_uuid item_plist,
     dict_get item_uuid (item_plists ds) = Some item_plist ->
     exists uti,
       getitem item_plist (py "uti") = Ok uti
       /\ if is_alias uti then dict_get item_uuid (items ds) = None
          else exists text,
                 dict_get item_uuid (items ds) = Some text
                 /\ content_loaded ds w item_uuid text)
  /\ (forall item_uuid item_plist uti content_path content tbl w0,
        dict_get item_uuid (item_plists ds) = Some item_plist ->
        getitem item_plist (py "uti") = Ok uti ->
        is_alias uti = false ->
        item_path ds item_uuid = Ok content_path ->
        fs_lookup (fs w0) content_path = Some (File content) ->
        (content = rtfd_magic ->
         load_item ds item_uuid tbl w0
         = (Ok (dict_set item_uuid (py "rtfd") tbl), w0))
        /\ (firstn 4 content <> rtfd_magic \/ (length content <= 4)%nat ->
            load_item ds item_uuid tbl w0
            = (text <- lift (utf8_decode content);
               ret (dict_set item_uuid text tbl)) w0)
        /\ (firstn 4 content = rtfd_magic -> (4 < length content)%nat ->
            load_item ds item_uuid tbl w0
            = (extracted <- extract_rtf_content_from_rtfd content_path;
               text <- lift (decode_method extracted);
               ret (dict_set item_uuid text tbl)) w0)).
Proof.
  intros Hopen.
  apply open_ok_checks in Hopen.
  destruct Hopen as (si & props & _ & _ & Hpages).
  unfold open_pages in Hpages.
  run_inv Hpages as paths w1 Hpaths. apply get_plists_world in Hpaths. subst w1.
  run_inv Hpages as tbl w2 Htbl.
  pose proof (load_item_plists_fs _ _ _ _ _ Htbl) as Hfs2.
  apply load_item_plists_nodup in Htbl.
  run_inv Hpages as contents w3 Hitems.
  apply ret_ok in Hpages. destruct Hpages as [-> ->].
  apply load_items_ok in Hitems. destruct Hitems as [_ Hitems].
  split.
  - cbn [item_plists items set_items set_item_plists] in *.
    intros item_uuid item_plist Hget.
    destruct (Hitems item_uuid) as [_ Hthere].
    destruct (Hthere (dict_get_some_keys _ _ _ Hget) Htbl)
      as (pl & uti & Hpl & Huti & Hres).
    rewrite Hget in Hpl. injection Hpl as <-.
    exists uti. split; [exact Huti|].
    destruct (is_alias uti); [exact Hres|].
    destruct Hres as (text & Htext & Hloaded). exists text. split; [exact Htext|].
    apply (content_loaded_fs _ _ w _ _ Hfs2) in Hloaded.
    exact Hloaded.
  - intros item_uuid item_plist uti q content tbl0 w0 Hget Huti Halias Hq Hfile.
    pose proof (load_item_file_run
                  (set_items
                     (set_item_plists (checked_store p pw im si props) tbl)
                     contents)
                  item_uuid item_plist uti q content tbl0 w0
                  (eq_refl false) Hget Huti Halias Hq Hfile) as Hrun.
    split; [|split].
    + intros ->. rewrite Hrun. reflexivity.
    + intros Hcase. rewrite Hrun.
      assert (Htest : (4 <? length content)%nat
                      && bool_decide (firstn 4 content = rtfd_magic) = false).
      { destruct Hcase as [Hne|Hlen].
        - rewrite (bool_decide_eq_false_2 _ Hne). apply andb_false_r.
        - replace (4 <? length content)%nat with false
            by (symmetry; apply Nat.ltb_ge; lia).
          reflexivity. }
      rewrite Htest. reflexivity.
    + intros Hmagic Hlen. rewrite Hrun.
      rewrite (bool_decide_eq_true_2 _ Hmagic).
      replace (4 <? length content)%nat with true
        by (symmetry; apply Nat.ltb_lt; lia).
      reflexivity.
Qed.
End enumeration.

(** ** Listing a directory with and without one file *)

Lemma split_last_snoc (d : Path) (n : pystr) : split_last (d ++ [n]) = Some (d, n).
Proof.
  unfold split_last. rewrite rev_app_distr. simpl. rewrite rev_involutive.
  reflexivity.
Qed.

Lemma split_last_some (k d : Path) (n : pystr) :
  split_last k = Some (d, n) -> k = d ++ [n].
Proof.
  unfold split_last. destruct (rev k) as [|x rd] eqn:Hrev; [discriminate|].
  intros [= <- <-]. rewrite <- (rev_involutive k), Hrev. reflexivity.
Qed.

Lemma fs_children_remove f (bd d : Path) (bn : pystr) :
  fs_children (dict_remove (bd ++ [bn]) f) d
  = if decide (bd = d)
    then filter (fun n => n <> bn) (fs_children f d)
    else fs_children f d.
Proof.
  induction f as [|[k v] f IH]; simpl.
  - destruct (decide (bd = d)); reflexivity.
  - destruct (decide (bd ++ [bn] = k)) as [<-|Hk].
    + rewrite IH. unfold fs_children at 2 3. cbn [omap list_omap fst].
      rewrite split_last_snoc. fold (fs_children f d).
      destruct (decide (bd = d)) as [->|Hd]; [|reflexivity].
      rewrite filter_cons_False by (intros Hn; apply Hn; reflexivity).
      reflexivity.
    + unfold fs_children at 1 2 3. cbn [omap list_omap fst].
      fold (fs_children (dict_remove (bd ++ [bn]) f) d). fold (fs_children f d).
      rewrite IH.
      destruct (split_last k) as [[d' n]|] eqn:Hsplit; [|reflexivity].
      destruct (decide (d' = d)) as [->|Hd']; [|reflexivity].
      destruct (decide (bd = d)) as [->|Hd]; [|reflexivity].
      rewrite filter_cons_True; [reflexivity|].
      intros ->. apply Hk. symmetry. apply split_last_some, Hsplit.
Qed.

Lemma fs_children_in f (d : Path) (n : pystr) v :
  dict_get (d ++ [n]) f = Some v -> In n (fs_children f d).
Proof.
  induction f as [|[k v'] f IH]; simpl; [discriminate|].
  unfold fs_children. cbn [omap list_omap fst]. fold (fs_children f d).
  destruct (decide (d ++ [n] = k)) as [<-|Hk].
  - intros _. rewrite split_last_snoc, decide_True by reflexivity.
    left. reflexivity.
  - intros Hget. specialize (IH Hget).
    destruct (split_last k) as [[d' n']|]; [|exact IH].
    destruct (decide (d' = d)); [right; exact IH | exact IH].
Qed.

Lemma fs_lookup_remove_some f (bad q : Path) n :
  fs_lookup (dict_remove bad f) q = Some n -> fs_lookup f q = Some n.
Proof.
  destruct (decide (bad = q)) as [->|Hne].
  - destruct q as [|c q]; [intros Hq; exact Hq|].
    simpl. rewrite dict_get_remove_eq. discriminate.
  - rewrite fs_lookup_remove_ne by exact Hne. intros Hq; exact Hq.
Qed.

Lemma snoc_ne_snoc2 (d : Path) (a b c : pystr) : d ++ [a] <> d ++ [b; c].
Proof. intros Heq. apply app_inv_head in Heq. discriminate Heq. Qed.

Lemma snoc2_ne (d : Path) (b c : pystr) : d ++ [b; c] <> d.
Proof.
  intros Heq. apply (f_equal (@length pystr)) in Heq.
  rewrite length_app in Heq. simpl in Heq. lia.
Qed.

Lemma plists_in_mono f dir subdirs :
  forall acc x, In x acc -> In x (plists_in f dir subdirs acc).
Proof.
  induction subdirs as [|s subdirs IH]; intros acc x Hin; [exact Hin|].
  cbn [plists_in fold_left]. apply IH.
  destruct (fs_lookup f (dir ++ [s])) as [[d|]|]; try exact Hin.
  apply in_or_app. left. exact Hin.
Qed.

Lemma plists_in_listed f dir subdirs (s e : pystr) :
  In s subdirs ->
  fs_lookup f (dir ++ [s]) = Some Dir ->
  In e (fs_children f (dir ++ [s])) ->
  endswith e (py ".plist") = true ->
  forall acc, In (dir ++ [s; e]) (plists_in f dir subdirs acc).
Proof.
  intros Hs Hdir He Hext.
  induction subdirs as [|s' subdirs IH]; intros acc; [destruct Hs|].
  cbn [plists_in fold_left].
  destruct Hs as [->|Hs]; [|apply IH, Hs].
  apply plists_in_mono. rewrite Hdir. apply in_or_app. right.
  replace (dir ++ [s; e]) with ((dir ++ [s]) ++ [e])
    by (rewrite <- app_assoc; reflexivity).
  apply (in_map (fun e0 : pystr => (dir ++ [s]) ++ [e0])).
  apply list_elem_of_In, list_elem_of_filter.
  split; [exact Hext | apply list_elem_of_In, He].
Qed.

Lemma plists_in_cons f dir s subdirs acc :
  plists_in f dir (s :: subdirs) acc
  = plists_in f dir subdirs
      match fs_lookup f (dir ++ [s]) with
      | Some Dir =>
        acc ++ map (fun e => (dir ++ [s]) ++ [e])
                 (filter (fun e => endswith e (py ".plist") = true)
                    (fs_children f (dir ++ [s])))
      | _ => acc
      end.
Proof. reflexivity. Qed.

Lemma plists_filter_removed (d : Path) (e : pystr) (l : list pystr) :
  map (fun x => d ++ [x])
    (filter (fun x => endswith x (py ".plist") = true)
       (filter (fun n => n <> e) l))
  = filter (fun q => q <> d ++ [e])
      (map (fun x => d ++ [x])
         (filter (fun x => endswith x (py ".plist") = true) l)).
Proof.
  set (ext := fun x : pystr => endswith x (py ".plist") = true).
  induction l as [|x l IHl]; [reflexivity|].
  destruct (decide (x = e)) as [->|Hx].
  - rewrite (filter_cons_False (fun n => n <> e))
      by (intros Hn; apply Hn; reflexivity).
    rewrite IHl.
    destruct (decide (ext e)) as [Hext|Hext].
    + rewrite (filter_cons_True ext e l Hext). cbn [map].
      rewrite filter_cons_False by (intros Hn; apply Hn; reflexivity).
      reflexivity.
    + rewrite (filter_cons_False ext e l Hext). reflexivity.
  - rewrite (filter_cons_True (fun n => n <> e)) by exact Hx.
    destruct (decide (ext x)) as [Hext|Hext].
    + rewrite !(filter_cons_True ext x _ Hext). cbn [map].
      rewrite filter_cons_True
        by (intros Heq'; apply app_inv_head in Heq'; congruence).
      rewrite IHl. reflexivity.
    + rewrite !(filter_cons_False ext x _ Hext). exact IHl.
Qed.

Lemma plists_filter_other (d d' : Path) (e : pystr) (l : list pystr) :
  d <> d' ->
  filter (fun q => q <> d ++ [e]) (map (fun x => d' ++ [x]) l)
  = map (fun x => d' ++ [x]) l.
Proof.
  intros Hne. induction l as [|x l IHl]; [reflexivity|].
  cbn [map]. rewrite filter_cons_True; [rewrite IHl; reflexivity|].
  intros Heq. apply Hne. apply app_inj_tail in Heq. destruct Heq as [-> _].
  reflexivity.
Qed.

(** Without the file [dir/s/e], the same paths are collected but for
    that one. *)
Lemma plists_in_remove f dir (s e : pystr) subdirs :
  forall acc,
    plists_in (dict_remove (dir ++ [s; e]) f) dir subdirs
      (filter (fun q => q <> dir ++ [s; e]) acc)
    = filter (fun q => q <> dir ++ [s; e]) (plists_in f dir subdirs acc).
Proof.
  induction subdirs as [|s' subdirs IH]; intros acc; [reflexivity|].
  rewrite !plists_in_cons.
  rewrite fs_lookup_remove_ne by (apply not_eq_sym, snoc_ne_snoc2).
  destruct (fs_lookup f (dir ++ [s'])) as [[d|]|]; try apply IH.
  rewrite <- IH. f_equal. rewrite list.filter_app. f_equal.
  replace (dir ++ [s; e]) with ((dir ++ [s]) ++ [e])
    by (rewrite <- app_assoc; reflexivity).
  rewrite fs_children_remove.
  match goal with
  | |- context [@decide ?P ?dec] => destruct (@decide P dec) as [Heq|Hne]
  end.
  - rewrite <- Heq. apply plists_filter_removed.
  - symmetry. apply plists_filter_other. exact Hne.
Qed.

(** ** Opening a store with and without a malformed record *)

Lemma extract_rtf_content_same_file p data w1 w2 :
  fs_lookup (fs w1) p = Some (File data) ->
  fs_lookup (fs w2) p = Some (File data) ->
  exists r out,
    extract_rtf_content_from_rtfd p w1 = (r, printed w1 out)
    /\ extract_rtf_content_from_rtfd p w2 = (r, printed w2 out).
Proof.
  intros H1 H2.
  assert (Hsame : forall w0, w0 = printed w0 []).
  { intros [f e c o]. unfold printed. simpl. rewrite app_nil_r. reflexivity. }
  unfold extract_rtf_content_from_rtfd.
  rewrite (bind_run _ _ _ _ _ (read_file_run _ _ _ H1)).
  rewrite (bind_run _ _ _ _ _ (read_file_run _ _ _ H2)).
  destruct (stream_read 4 data) as [magic d1].
  destruct (negb (bool_decide (magic = rtfd_magic))).
  - eexists _, [_]. split; reflexivity.
  - destruct (stream_read 4 d1) as [version d2].
    unfold bind, lift, ret.
    destruct (fst (read_rtf_item d2)) as [[| |d]|e];
      try (eexists _, []; split; apply (f_equal (pair _)), Hsame).
    destruct (dict_get (py "TXT.rtf") d).
    + eexists _, []. split; apply (f_equal (pair _)), Hsame.
    + eexists _, [_]. split; reflexivity.
Qed.

Section skipping.
Context `{Runtime}.

Lemma get_plists_loop dir w subdirs :
  forall acc,
    for_each subdirs
      (fun s plists =>
         let p := dir ++ [s] in
         isd <- is_dir p;
         if negb isd then ret plists
         else
           entries <- os_listdir p;
           ret (plists ++ map (fun e => p ++ [e])
                            (filter (fun e => endswith e (py ".plist") = true)
                               entries)))
      acc w
    = (Ok (plists_in (fs w) dir subdirs acc), w).
Proof.
  induction subdirs as [|s subdirs IH]; intros acc; [reflexivity|].
  rewrite plists_in_cons. cbn [for_each].
  erewrite bind_run; [apply IH|]. cbn zeta.
  rewrite (bind_run _ _ _ _ _ (is_dir_run _ _)).
  destruct (fs_lookup (fs w) (dir ++ [s])) as [[d|]|] eqn:Hs; cbn [negb];
    try reflexivity.
  assert (Hl : os_listdir (dir ++ [s]) w
               = (Ok (fs_children (fs w) (dir ++ [s])), w)).
  { unfold os_listdir, bind, get_fs. rewrite Hs. reflexivity. }
  rewrite (bind_run _ _ _ _ _ Hl). reflexivity.
Qed.

Lemma get_plists_run dir w :
  fs_lookup (fs w) dir = Some Dir ->
  get_plists dir w
  = (Ok (plists_in (fs w) dir (fs_children (fs w) dir) []), w).
Proof.
  intros Hdir. unfold get_plists.
  assert (Hlist : os_listdir dir w = (Ok (fs_children (fs w) dir), w)).
  { unfold os_listdir, bind, get_fs. rewrite Hdir. reflexivity. }
  rewrite (bind_run _ _ _ _ _ Hlist). apply get_plists_loop.
Qed.

(** [load_plist] either parses a file that is there or fails with an
    error of the file system. *)
Lemma load_plist_inv ds q w r w' :
  encrypted ds = false ->
  load_plist ds q w = (r, w') ->
  w' = w
  /\ ((exists data, fs_lookup (fs w) q = Some (File data) /\ r = plist_loads data)
      \/ (exists e, r = Raise e /\ e <> ExpatError)).
Proof.
  intros Hplain. unfold load_plist. rewrite Hplain.
  unfold read_file, bind, get_fs, lift, raise, ret.
  destruct (fs_lookup (fs w) q) as [[data|]|].
  - intros [= <- <-]. split; [reflexivity|]. left. exists data. auto.
  - intros [= <- <-]. split; [reflexivity|]. right. eexists. split; [reflexivity|].
    discriminate.
  - unfold check_parent.
    destruct (fs_lookup (fs w) (dirname q)) as [[d|]|]; intros [= <- <-];
      (split; [reflexivity|]); right; eexists; (split; [reflexivity|]);
      discriminate.
Qed.

Lemma load_item_plist_skips ds bad data tbl w :
  encrypted ds = false ->
  fs_lookup (fs w) bad = Some (File data) ->
  plist_loads data = Raise ExpatError ->
  load_item_plist ds bad tbl w
  = (Ok tbl,
     printed w [py "Skipping " ++ stem bad ++ py " due to invalid plist"]).
Proof.
  intros Hplain Hfile Hbad. unfold load_item_plist, try_except.
  erewrite bind_raise;
    [|rewrite (load_plist_run _ _ _ data Hplain Hfile), Hbad; reflexivity].
  reflexivity.
Qed.

Lemma load_item_plist_sim ds bad q tbl w wr tbl' wr' :
  encrypted ds = false ->
  fs wr = dict_remove bad (fs w) ->
  load_item_plist ds q tbl wr = (Ok tbl', wr') ->
  exists out,
    load_item_plist ds q tbl w = (Ok tbl', printed w out)
    /\ wr' = printed wr out.
Proof.
  intros Hplain Hfs Hrun. unfold load_item_plist, try_except in *.
  unfold bind in *.
  destruct (load_plist ds q wr) as [r wr1] eqn:Hr.
  destruct (load_plist_inv _ _ _ _ _ Hplain Hr) as [-> Hcases].
  destruct Hcases as [(data & Hfile & ->)|(e & -> & Hne)].
  - rewrite Hfs in Hfile. apply fs_lookup_remove_some in Hfile.
    rewrite (load_plist_run _ _ _ data Hplain Hfile).
    destruct (plist_loads data) as [pl|e].
    + unfold ret in *. injection Hrun as <- <-. exists [].
      destruct w, wr; unfold printed; simpl; rewrite !app_nil_r. auto.
    + destruct e; try discriminate Hrun.
      unfold bind, print, ret in *. injection Hrun as <- <-.
      eexists [_]. split; reflexivity.
  - destruct e; try discriminate Hrun. contradiction Hne. reflexivity.
Qed.

Lemma load_item_plists_sim ds bad data :
  encrypted ds = false ->
  plist_loads data = Raise ExpatError ->
  forall paths tbl0 w wr tbl wr',
    fs_lookup (fs w) bad = Some (File data) ->
    fs wr = dict_remove bad (fs w) ->
    for_each (filter (fun q => q <> bad) paths) (load_item_plist ds) tbl0 wr
    = (Ok tbl, wr') ->
    exists w',
      for_each paths (load_item_plist ds) tbl0 w = (Ok tbl, w')
      /\ fs w' = fs w /\ fs wr' = fs wr
      /\ (forall line, In line (stdout w) -> In line (stdout w'))
      /\ (In bad paths ->
          In (py "Skipping " ++ stem bad ++ py " due to invalid plist") (stdout w')).
Proof.
  intros Hplain Hbad.
  induction paths as [|q paths IH]; intros tbl0 w wr tbl wr' Hfile Hfs Hrun.
  - apply ret_ok in Hrun. destruct Hrun as [-> ->].
    exists w. repeat split; auto. intros [].
  - destruct (decide (q = bad)) as [->|Hq].
    + rewrite filter_cons_False in Hrun by (intros Hn; apply Hn; reflexivity).
      cbn [for_each].
      rewrite (bind_run _ _ _ _ _
                 (load_item_plist_skips _ _ _ tbl0 _ Hplain Hfile Hbad)).
      destruct (IH tbl0 (printed w [py "Skipping " ++ stem bad
                                    ++ py " due to invalid plist"])
                  wr tbl wr' Hfile Hfs Hrun)
        as (w' & Hw & Hfs' & Hfsr & Hout & _).
      exists w'. split; [exact Hw|]. split; [exact Hfs'|]. split; [exact Hfsr|].
      split.
      * intros line Hin. apply Hout. simpl. apply in_or_app. left. exact Hin.
      * intros _. apply Hout. simpl. apply in_or_app. right. left. reflexivity.
    + rewrite filter_cons_True in Hrun by exact Hq.
      cbn [for_each] in Hrun. run_inv Hrun as tbl1 wr1 Hstep.
      destruct (load_item_plist_sim _ _ _ _ _ _ _ _ Hplain Hfs Hstep)
        as (out & Hw1 & ->).
      cbn [for_each]. rewrite (bind_run _ _ _ _ _ Hw1).
      destruct (IH tbl1 (printed w out) (printed wr out) tbl wr' Hfile Hfs Hrun)
        as (w' & Hw & Hfs' & Hfsr & Hout & Hskip).
      exists w'. split; [exact Hw|]. split; [exact Hfs'|]. split; [exact Hfsr|].
      split.
      * intros line Hin. apply Hout. simpl. apply in_or_app. left. exact Hin.
      * intros [Heq|Hin]; [congruence | apply Hskip, Hin].
Qed.
End skipping.

Lemma bind_lift {A B} (r : result A) (k : A -> M B) w :
  bind (lift r) k w = match r with Ok a => k a w | Raise e => (Raise e, w) end.
Proof. unfold bind, lift. destruct r; reflexivity. Qed.

Lemma printed_nil w : printed w [] = w.
Proof. destruct w. unfold printed. simpl. rewrite app_nil_r. reflexivity. Qed.

Section skipping_items.
Context `{Runtime}.

Lemma load_file_sim ds bad ip w wr loaded wr1 :
  fs wr = dict_remove bad (fs w) ->
  load_file ds ip wr = (Ok loaded, wr1) ->
  exists out,
    load_file ds ip w = (Ok loaded, printed w out) /\ wr1 = printed wr out.
Proof.
  intros Hfs Hrun. unfold load_file in *.
  destruct (encrypted ds); [discriminate Hrun|].
  run_inv Hrun as content wr0 Hread.
  apply read_file_ok in Hread. destruct Hread as [Hfile ->].
  pose proof Hfile as Hfile'. rewrite Hfs in Hfile'.
  apply fs_lookup_remove_some in Hfile'.
  rewrite (bind_run _ _ _ _ _ (read_file_run _ _ _ Hfile')).
  destruct ((4 <? length content)%nat
            && bool_decide (firstn 4 content = rtfd_magic)).
  - destruct (extract_rtf_content_same_file ip content wr w Hfile Hfile')
      as (r & out & Hr & Hw).
    rewrite Hr in Hrun. injection Hrun as -> <-.
    exists out. split; [exact Hw | reflexivity].
  - apply ret_ok in Hrun. destruct Hrun as [-> ->].
    exists []. rewrite !printed_nil. split; reflexivity.
Qed.

Lemma load_item_sim ds bad item_uuid tbl w wr tbl' wr' :
  fs wr = dict_remove bad (fs w) ->
  load_item ds item_uuid tbl wr = (Ok tbl', wr') ->
  exists out,
    load_item ds item_uuid tbl w = (Ok tbl', printed w out)
    /\ wr' = printed wr out.
Proof.
  intros Hfs Hrun. unfold load_item in *.
  rewrite bind_lift in Hrun |- *.
  destruct (item_plist ds item_uuid) as [pl|e]; [|discriminate Hrun].
  rewrite bind_lift in Hrun |- *.
  destruct (getitem pl (py "uti")) as [uti|e]; [|discriminate Hrun].
  destruct (eq_str uti (py "com.fm.page-alias")).
  { apply ret_ok in Hrun. destruct Hrun as [-> ->].
    exists []. rewrite !printed_nil. split; reflexivity. }
  rewrite bind_lift in Hrun |- *.
  destruct (eq_str uti (py "com.fm.file-alias")).
  { apply ret_ok in Hrun. destruct Hrun as [-> ->].
    exists []. rewrite !printed_nil. split; reflexivity. }
  rewrite bind_lift in Hrun |- *.
  destruct (item_path ds item_uuid) as [ip|e]; [|discriminate Hrun].
  rewrite (bind_run _ _ _ _ _ (path_exists_run _ _)) in Hrun.
  rewrite (bind_run _ _ _ _ _ (path_exists_run _ _)).
  destruct (fs_lookup (fs wr) ip) as [n|] eqn:Hnode; cbn [negb] in Hrun;
    [|discriminate Hrun].
  rewrite Hfs in Hnode. apply fs_lookup_remove_some in Hnode.
  rewrite Hnode. cbn [negb].
  run_inv Hrun as loaded wr1 Hload.
  destruct (load_file_sim _ _ _ _ _ _ _ Hfs Hload) as (out & Hw & ->).
  rewrite (bind_run _ _ _ _ _ Hw).
  rewrite bind_lift in Hrun |- *.
  destruct (decode_method loaded) as [text|e]; [|discriminate Hrun].
  apply ret_ok in Hrun. destruct Hrun as [-> ->].
  exists out. split; reflexivity.
Qed.

Lemma load_items_sim ds bad l :
  forall tbl0 w wr tbl wr',
    fs wr = dict_remove bad (fs w) ->
    for_each l (load_item ds) tbl0 wr = (Ok tbl, wr') ->
    exists w',
      for_each l (load_item ds) tbl0 w = (Ok tbl, w')
      /\ fs w' = fs w
      /\ (forall line, In line (stdout w) -> In line (stdout w')).
Proof.
  induction l as [|x l IH]; intros tbl0 w wr tbl wr' Hfs Hrun.
  - apply ret_ok in Hrun. destruct Hrun as [-> ->].
    exists w. repeat split; auto.
  - cbn [for_each] in Hrun |- *. run_inv Hrun as tbl1 wr1 Hstep.
    destruct (load_item_sim _ _ _ _ _ _ _ _ Hfs Hstep) as (out & Hw1 & ->).
    rewrite (bind_run _ _ _ _ _ Hw1).
    destruct (IH tbl1 (printed w out) (printed wr out) tbl wr' Hfs Hrun)
      as (w' & Hw & Hfs' & Hout).
    exists w'. split; [exact Hw|]. split; [exact Hfs'|].
    intros line Hin. apply Hout. simpl. apply in_or_app. left. exact Hin.
Qed.

(** C8: take a store in which [pages/s/e] is a metadata-record file
    on which the XML parser raises [ExpatError], as it does on markup
    that is not well formed.  If the store without that file opens,
    then the store with it opens too, to the same store object: every
    other record and item is loaded, the malformed record is left out
    of the tables, and the diagnostic naming it is printed. *)
Theorem malformed_record_is_skipped
    (p : Path) (pw : option pystr) (im : bool) (w : World)
    (s e : pystr) (data : bytes) (ds : DataStore) (wr' : World) :
  let bad := p ++ [py "pages"; s; e] in
  endswith e (py ".plist") = true ->
  fs_lookup (fs w) (p ++ [py "pages"; s]) = Some Dir ->
  fs_lookup (fs w) bad = Some (File data) ->
  plist_loads data = Raise ExpatError ->
  open p pw im (remove_file bad w) = (Ok ds, wr') ->
  exists w',
    open p pw im w = (Ok ds, w')
    /\ fs w' = fs w
    /\ In (py "Skipping " ++ stem bad ++ py " due to invalid plist") (stdout w').
Proof.
  intros bad Hext Hshard Hfile Hbad Hopen.
  set (dir := p ++ [py "pages"]).
  assert (Hbad_dir : bad = dir ++ [s; e]).
  { unfold bad, dir. rewrite <- app_assoc. reflexivity. }
  assert (Hshard_dir : p ++ [py "pages"; s] = dir ++ [s]).
  { unfold dir. rewrite <- app_assoc. reflexivity. }
  apply open_ok_checks in Hopen.
  destruct Hopen as (si & props & Hchecks & Hpages & Hrun).
  cbn [remove_file fs] in Hpages.
  apply fs_lookup_remove_some in Hpages. fold dir in Hpages.
  assert (Hchecks' : store_checks_pass p w si props).
  { destruct Hchecks as (sdata & pdata & enc & ver & Hs & Hp & Hrest).
    exists sdata, pdata, enc, ver.
    split; [eapply fs_lookup_remove_some, Hs|].
    split; [eapply fs_lookup_remove_some, Hp | exact Hrest]. }
  rewrite (open_checked _ _ _ _ _ _ Hchecks').
  rewrite (bind_run _ _ _ _ _ (is_dir_run _ _)). fold dir. rewrite Hpages.
  cbn [negb]. unfold open_pages in Hrun |- *.
  change (path (checked_store p pw im si props) ++ [py "pages"]) with dir
    in Hrun |- *.
  assert (Hpages_r : fs_lookup (fs (remove_file bad w)) dir = Some Dir).
  { cbn [remove_file fs]. rewrite fs_lookup_remove_ne; [exact Hpages|].
    rewrite Hbad_dir. apply snoc2_ne. }
  rewrite (bind_run _ _ _ _ _ (get_plists_run dir _ Hpages_r)) in Hrun.
  rewrite (bind_run _ _ _ _ _ (get_plists_run dir w Hpages)).
  cbn [remove_file fs] in Hrun.
  assert (Hchildren : fs_children (dict_remove bad (fs w)) dir
                      = fs_children (fs w) dir).
  { rewrite Hbad_dir.
    replace (dir ++ [s; e]) with ((dir ++ [s]) ++ [e])
      by (rewrite <- app_assoc; reflexivity).
    rewrite fs_children_remove.
    match goal with
    | |- context [@decide ?P ?dec] => destruct (@decide P dec) as [Heq|Hne]
    end; [|reflexivity].
    exfalso. apply (f_equal (@length pystr)) in Heq.
    rewrite length_app in Heq. simpl in Heq. lia. }
  rewrite Hchildren in Hrun.
  replace (plists_in (dict_remove bad (fs w)) dir (fs_children (fs w) dir) [])
    with (filter (fun q => q <> bad)
            (plists_in (fs w) dir (fs_children (fs w) dir) [])) in Hrun
    by (rewrite Hbad_dir; symmetry; apply (plists_in_remove _ _ _ _ _ [])).
  run_inv Hrun as tbl wr2 Htbl. unfold load_item_plists in Htbl |- *.
  destruct (load_item_plists_sim (checked_store p pw im si props) bad data
              eq_refl Hbad _ _ w (remove_file bad w) _ _ Hfile eq_refl Htbl)
    as (w2 & Hw2 & Hfs2 & Hfsr2 & _ & Hskip).
  rewrite (bind_run _ _ _ _ _ Hw2).
  run_inv Hrun as contents wr3 Hitems.
  apply ret_ok in Hrun. destruct Hrun as [-> ->].
  assert (Hrel : fs wr2 = dict_remove bad (fs w2)).
  { rewrite Hfsr2, Hfs2. reflexivity. }
  destruct (load_items_sim _ _ _ _ _ _ _ _ Hrel Hitems) as (w3 & Hw3 & Hfs3 & Hout).
  rewrite (bind_run _ _ _ _ _ Hw3).
  exists w3. split; [reflexivity|]. split; [congruence|].
  apply Hout, Hskip. rewrite Hbad_dir.
  apply plists_in_listed.
  - eapply fs_children_in. rewrite <- fs_lookup_nonempty by apply snoc_not_nil.
    rewrite <- Hshard_dir. exact Hshard.
  - rewrite <- Hshard_dir. exact Hshard.
  - eapply fs_children_in.
    rewrite <- fs_lookup_nonempty by apply snoc_not_nil.
    rewrite <- app_assoc. cbn [app]. rewrite <- Hbad_dir. exact Hfile.
  - exact Hext.
Qed.
End skipping_items.

Lemma malformed_record_witness :
  exists ds w',
    open Sample.root None false Sample.bad_record_store = (Ok ds, w')
    /\ fs w' = fs Sample.bad_record_store
    /\ In (py "Skipping "
           ++ stem (Sample.root ++ [py "pages"; py "d"; py "d4.plist"])
           ++ py " due to invalid plist") (stdout w').
Proof.
  destruct (open Sample.root None false
              (remove_file (Sample.root ++ [py "pages"; py "d"; py "d4.plist"])
                 Sample.bad_record_store))
    as [[ds|e] wr'] eqn:Hrun.
  - destruct (malformed_record_is_skipped Sample.root None false
                Sample.bad_record_store (py "d") (py "d4.plist")
                (bytes_of "<plist") ds wr') as (w' & Hopen & Hfs & Hout).
    + vm_compute. reflexivity.
    + vm_compute. reflexivity.
    + vm_compute. reflexivity.
    + vm_compute. reflexivity.
    + exact Hrun.
    + exists ds, w'. split; [exact Hopen|]. split; [exact Hfs | exact Hout].
  - vm_compute in Hrun. discriminate Hrun.
Defined.

(** C8, where [open] does not go on: the reader fails with [ValueError]
    on a record that is well-formed markup but no property list, the
    loop catches [ExpatError] only, and [open] is aborted.  The store
    passes the checks and opens without that record. *)
Lemma unparsed_record_aborts_open :
  @plist_loads Plistlib.runtime [x01] = Raise ValueError
  /\ @store_checks_pass Plistlib.runtime Sample.root
       Plistlib.unparsed_record_store Sample.storeinfo5 (PlDict [])
  /\ fs_lookup (fs Plistlib.unparsed_record_store)
       (Sample.root ++ [py "pages"; py "d"; py "d5.plist"])
     = Some (File [x01])
  /\ @open Plistlib.runtime Sample.root None false
       Plistlib.unparsed_record_store
     = (Raise ValueError, Plistlib.unparsed_record_store)
  /\ exists ds w',
       @open Plistlib.runtime Sample.root None false
         (remove_file (Sample.root ++ [py "pages"; py "d"; py "d5.plist"])
            Plistlib.unparsed_record_store)
       = (Ok ds, w')
       /\ item ds (py "a1") = Ok (py "# Notes").
Proof.
  split; [vm_compute; reflexivity|].
  split.
  { eexists _, _, (PBool false), (PInt 5).
    repeat split; try (vm_compute; reflexivity). }
  split; [vm_compute; reflexivity|].
  split; [vm_compute; reflexivity|].
  eexists _, _. split; vm_compute; reflexivity.
Qed.

Lemma item_content_routing_witness :
  exists ds w',
    open Sample.root None false Sample.magic_page_store = (Ok ds, w')
    /\ item ds (py "e5") = Ok (py "rtfd")
    /\ item ds (py "f6") = Ok (py "rtf")
    /\ item ds (py "b2") = Ok (py "{\rtf1 Hello}")
    /\ forall tbl,
         load_item ds (py "e5") tbl Sample.magic_page_store
         = (Ok (dict_set (py "e5") (py "rtfd") tbl), Sample.magic_page_store).
Proof.
  destruct (open Sample.root None false Sample.magic_page_store)
    as [[ds|e] w'] eqn:Hrun; [|vm_compute in Hrun; discriminate Hrun].
  exists ds, w'. split; [reflexivity|].
  destruct (item_content_routing _ _ _ _ _ _ Hrun) as [_ Hroute].
  vm_compute in Hrun. injection Hrun as <- <-.
  split; [vm_compute; reflexivity|].
  split; [vm_compute; reflexivity|].
  split; [vm_compute; reflexivity|].
  intros tbl.
  refine (proj1 (Hroute (py "e5") _ _ _ rtfd_magic tbl Sample.magic_page_store
                   _ _ _ _ _) eq_refl); vm_compute; reflexivity.
Defined.

(** ** UTF-8: encoding and decoding are inverse *)

Ltac div_lia := zify; Z.to_euclidean_division_equations; lia.

Lemma byte_of_N_to_N b : byte_of_N (Byte.to_N b) = b.
Proof. unfold byte_of_N. rewrite Byte.of_to_N. reflexivity. Qed.

Lemma to_N_lt_256 b : Byte.to_N b < 256.
Proof. pose proof (Byte.to_N_bounded b). lia. Qed.

(** The digits of a code point in base 64. *)
Lemma digits2 a d :
  d < 64 -> (64 * a + d) / 64 = a /\ (64 * a + d) mod 64 = d.
Proof. intros Hd. div_lia. Qed.

Lemma digits3 a b d :
  b < 64 -> d < 64 ->
  (4096 * a + 64 * b + d) / 4096 = a
  /\ ((4096 * a + 64 * b + d) / 64) mod 64 = b
  /\ (4096 * a + 64 * b + d) mod 64 = d.
Proof. intros Hb Hd. div_lia. Qed.

Lemma digits4 a b c d :
  b < 64 -> c < 64 -> d < 64 ->
  (262144 * a + 4096 * b + 64 * c + d) / 262144 = a
  /\ ((262144 * a + 4096 * b + 64 * c + d) / 4096) mod 64 = b
  /\ ((262144 * a + 4096 * b + 64 * c + d) / 64) mod 64 = c
  /\ (262144 * a + 4096 * b + 64 * c + d) mod 64 = d.
Proof. intros Hb Hc Hd. div_lia. Qed.

Lemma base64_2 c : exists a d, c = 64 * a + d /\ d < 64.
Proof.
  exists (c / 64), (c mod 64).
  split; [apply N.div_mod; discriminate | apply N.mod_lt; discriminate].
Qed.

Lemma base64_3 c : exists a b d, c = 4096 * a + 64 * b + d /\ b < 64 /\ d < 64.
Proof.
  destruct (base64_2 c) as (q & d & -> & Hd).
  destruct (base64_2 q) as (a & b & -> & Hb).
  exists a, b, d. split; [lia | auto].
Qed.

Lemma base64_4 c :
  exists a b c' d,
    c = 262144 * a + 4096 * b + 64 * c' + d /\ b < 64 /\ c' < 64 /\ d < 64.
Proof.
  destruct (base64_3 c) as (q & c' & d & -> & Hc & Hd).
  destruct (base64_2 q) as (a & b & -> & Hb).
  exists a, b, c', d. split; [lia | auto].
Qed.

Lemma cont_mod x : x < 64 -> (128 + x) mod 64 = x.
Proof. intros Hx. div_lia. Qed.

Ltac tests :=
  repeat match goal with
  | |- context [?a <? ?b] =>
    first [rewrite (proj2 (N.ltb_lt a b)) by lia
          | rewrite (proj2 (N.ltb_ge a b)) by lia]
  | |- context [?a <=? ?b] =>
    first [rewrite (proj2 (N.leb_le a b)) by lia
          | rewrite (proj2 (N.leb_gt a b)) by lia]
  | |- context [?a =? ?b] =>
    first [rewrite (proj2 (N.eqb_eq a b)) by lia
          | rewrite (proj2 (N.eqb_neq a b)) by lia]
  end.

Lemma utf8_decode_encoded_char c bs rest :
  utf8_encode_char c = Some bs ->
  utf8_decode_opt (bs ++ rest) = cons c <$> utf8_decode_opt rest.
Proof.
  unfold utf8_encode_char, is_surrogate.
  destruct (N.ltb_spec c 0x80) as [H1|H1].
  { intros [= <-]. cbn [app utf8_decode_opt].
    rewrite to_N_byte_of_N by lia. tests. reflexivity. }
  destruct (N.ltb_spec c 0x800) as [H2|H2].
  { destruct (base64_2 c) as (a & d & -> & Hd).
    destruct (digits2 a d Hd) as [-> ->].
    intros [= <-]. cbn [app utf8_decode_opt]. unfold in_range, cont_bits.
    rewrite !to_N_byte_of_N, !cont_mod by lia. tests. cbn [andb].
    do 2 f_equal. lia. }
  destruct (N.ltb_spec c 0x10000) as [H3|H3].
  { destruct (base64_3 c) as (a & b & d & -> & Hb & Hd).
    destruct (digits3 a b d Hb Hd) as (-> & -> & ->).
    destruct (N.leb_spec 0xD800 (4096 * a + 64 * b + d)) as [H4|H4];
      [destruct (N.leb_spec (4096 * a + 64 * b + d) 0xDFFF) as [H5|H5]|];
      cbn [andb]; try discriminate; intros [= <-]; cbn [app utf8_decode_opt];
      unfold in_range, cont_bits;
      rewrite !to_N_byte_of_N, !cont_mod by lia;
      destruct (N.eqb_spec (0xE0 + a) 0xE0); destruct (N.eqb_spec (0xE0 + a) 0xED);
      tests; cbn [andb]; do 2 f_equal; lia. }
  destruct (N.ltb_spec c 0x110000) as [H4|H4]; [|discriminate].
  destruct (base64_4 c) as (a & b & c' & d & -> & Hb & Hc & Hd).
  destruct (digits4 a b c' d Hb Hc Hd) as (-> & -> & -> & ->).
  intros [= <-]. cbn [app utf8_decode_opt]. unfold in_range, cont_bits.
  rewrite !to_N_byte_of_N, !cont_mod by lia.
  destruct (N.eqb_spec (0xF0 + a) 0xF0); destruct (N.eqb_spec (0xF0 + a) 0xF4);
    tests; cbn [andb]; do 2 f_equal; lia.
Qed.

Lemma utf8_decode_encode_opt s :
  forall bs, utf8_encode_opt s = Some bs -> utf8_decode_opt bs = Some s.
Proof.
  induction s as [|c s IH]; intros bs; cbn [utf8_encode_opt].
  - intros [= <-]. reflexivity.
  - destruct (utf8_encode_char c) as [b|] eqn:Hc; [|discriminate].
    destruct (utf8_encode_opt s) as [r|]; [|discriminate].
    intros [= <-]. rewrite (utf8_decode_encoded_char _ _ _ Hc), (IH r eq_refl).
    reflexivity.
Qed.

Lemma utf8_round_trip s bs : utf8_encode s = Ok bs -> utf8_decode bs = Ok s.
Proof.
  unfold utf8_encode, utf8_decode.
  destruct (utf8_encode_opt s) as [b|] eqn:He; [|discriminate].
  intros [= <-]. rewrite (utf8_decode_encode_opt _ _ He). reflexivity.
Qed.

Lemma in_range_spec lo hi b :
  in_range lo hi b = true -> lo <= Byte.to_N b /\ Byte.to_N b <= hi.
Proof.
  unfold in_range. intros Hr. apply andb_true_iff in Hr.
  destruct Hr as [Hlo Hhi]. apply N.leb_le in Hlo, Hhi. auto.
Qed.

Lemma fmap_cons_some (x : N) (o : option (list N)) s :
  cons x <$> o = Some s -> exists s', o = Some s' /\ s = x :: s'.
Proof. destruct o as [s'|]; simpl; [|discriminate]. intros [= <-]. eauto. Qed.

(** A continuation byte and its six payload bits. *)
Lemma cont_byte b :
  128 <= Byte.to_N b <= 191 ->
  exists x, x < 64 /\ cont_bits b = x /\ b = byte_of_N (128 + x).
Proof.
  intros Hb. exists (Byte.to_N b - 128). split; [lia|]. split.
  - unfold cont_bits. div_lia.
  - replace (128 + (Byte.to_N b - 128)) with (Byte.to_N b) by lia.
    symmetry. apply byte_of_N_to_N.
Qed.

Lemma lead_byte b base :
  base <= Byte.to_N b ->
  exists a, Byte.to_N b - base = a /\ b = byte_of_N (base + a)
            /\ Byte.to_N b = base + a.
Proof.
  intros Hb. exists (Byte.to_N b - base). split; [reflexivity|].
  replace (base + (Byte.to_N b - base)) with (Byte.to_N b) by lia.
  split; [symmetry; apply byte_of_N_to_N | reflexivity].
Qed.

Lemma utf8_encode_decoded n :
  forall bs s, (length bs <= n)%nat ->
    utf8_decode_opt bs = Some s -> utf8_encode_opt s = Some bs.
Proof.
  induction n as [|n IH]; intros bs s Hlen.
  { destruct bs; [|simpl in Hlen; lia]. intros [= <-]. reflexivity. }
  destruct bs as [|b0 r0]; [intros [= <-]; reflexivity|].
  cbn [utf8_decode_opt]. cbn [length] in Hlen.
  pose proof (to_N_lt_256 b0) as Hb0.
  destruct (N.ltb_spec (Byte.to_N b0) 0x80) as [H1|H1].
  { intros Hd. apply fmap_cons_some in Hd. destruct Hd as (s' & Hd & ->).
    cbn [utf8_encode_opt]. rewrite (IH r0 s') by (assumption || lia).
    unfold utf8_encode_char. tests.
    rewrite byte_of_N_to_N. reflexivity. }
  destruct (in_range 0xC2 0xDF b0) eqn:R2.
  { destruct r0 as [|b1 r1]; [discriminate|].
    destruct (in_range 0x80 0xBF b1) eqn:R21; [|discriminate].
    apply in_range_spec in R2, R21.
    destruct (lead_byte b0 0xC0 ltac:(lia)) as (a & -> & -> & Ha).
    destruct (cont_byte b1 R21) as (d & Hd & -> & ->).
    intros Hdec. apply fmap_cons_some in Hdec. destruct Hdec as (s' & Hdec & ->).
    cbn [utf8_encode_opt]. cbn [length] in Hlen.
    rewrite (IH r1 s') by (assumption || lia).
    unfold utf8_encode_char. replace (a * 64 + d) with (64 * a + d) by lia.
    destruct (digits2 a d Hd) as [-> ->]. tests. reflexivity. }
  destruct (in_range 0xE0 0xEF b0) eqn:R3.
  { destruct r0 as [|b1 [|b2 r2]]; try discriminate.
    destruct (in_range _ _ b1) eqn:R31; [|discriminate].
    destruct (in_range 0x80 0xBF b2) eqn:R32; [|discriminate].
    cbn [andb]. apply in_range_spec in R3, R31, R32.
    destruct (lead_byte b0 0xE0 ltac:(lia)) as (a & -> & -> & Ha).
    assert (R31' : 128 <= Byte.to_N b1 <= 191
                   /\ (a = 0 -> 0xA0 <= Byte.to_N b1)
                   /\ (a = 13 -> Byte.to_N b1 <= 0x9F)).
    { rewrite Ha in R31.
      destruct (N.eqb_spec (224 + a) 224); destruct (N.eqb_spec (224 + a) 237);
        lia. }
    clear R31. destruct R31' as (R31 & Hlow & Hhigh).
    destruct (cont_byte b1 R31) as (b & Hb & -> & ->).
    destruct (cont_byte b2 R32) as (d & Hd & -> & ->).
    rewrite to_N_byte_of_N in Hlow, Hhigh by lia.
    intros Hdec. apply fmap_cons_some in Hdec. destruct Hdec as (s' & Hdec & ->).
    cbn [utf8_encode_opt]. cbn [length] in Hlen.
    rewrite (IH r2 s') by (assumption || lia).
    unfold utf8_encode_char, is_surrogate.
    replace (a * 4096 + b * 64 + d) with (4096 * a + 64 * b + d) by lia.
    destruct (digits3 a b d Hb Hd) as (-> & -> & ->).
    replace (4096 * a + 64 * b + d <? 128) with false
      by (symmetry; apply N.ltb_ge; lia).
    replace (4096 * a + 64 * b + d <? 2048) with false
      by (symmetry; apply N.ltb_ge; lia).
    replace (4096 * a + 64 * b + d <? 65536) with true
      by (symmetry; apply N.ltb_lt; lia).
    replace ((55296 <=? 4096 * a + 64 * b + d) && (4096 * a + 64 * b + d <=? 57343))
      with false; [reflexivity|].
    symmetry. apply andb_false_iff.
    destruct (N.lt_ge_cases (4096 * a + 64 * b + d) 55296);
      [left; apply N.leb_gt | right; apply N.leb_gt]; lia. }
  destruct (in_range 0xF0 0xF4 b0) eqn:R4; [|discriminate].
  destruct r0 as [|b1 [|b2 [|b3 r3]]]; try discriminate.
  destruct (in_range _ _ b1) eqn:R41; [|discriminate].
  destruct (in_range 0x80 0xBF b2) eqn:R42; [|discriminate].
  destruct (in_range 0x80 0xBF b3) eqn:R43; [|discriminate].
  cbn [andb]. apply in_range_spec in R4, R41, R42, R43.
  destruct (lead_byte b0 0xF0 ltac:(lia)) as (a & -> & -> & Ha).
  assert (R41' : 128 <= Byte.to_N b1 <= 191
                 /\ (a = 0 -> 0x90 <= Byte.to_N b1)
                 /\ (a = 4 -> Byte.to_N b1 <= 0x8F)).
  { rewrite Ha in R41.
    destruct (N.eqb_spec (240 + a) 240); destruct (N.eqb_spec (240 + a) 244);
      lia. }
  clear R41. destruct R41' as (R41 & Hlow & Hhigh).
  destruct (cont_byte b1 R41) as (b & Hb & -> & ->).
  destruct (cont_byte b2 R42) as (c & Hc & -> & ->).
  destruct (cont_byte b3 R43) as (d & Hd & -> & ->).
  rewrite to_N_byte_of_N in Hlow, Hhigh by lia.
  intros Hdec. apply fmap_cons_some in Hdec. destruct Hdec as (s' & Hdec & ->).
  cbn [utf8_encode_opt]. cbn [length] in Hlen.
  rewrite (IH r3 s') by (assumption || lia).
  unfold utf8_encode_char.
  replace (a * 262144 + b * 4096 + c * 64 + d)
    with (262144 * a + 4096 * b + 64 * c + d) by lia.
  destruct (digits4 a b c d Hb Hc Hd) as (-> & -> & -> & ->).
  tests. reflexivity.
Qed.

Lemma utf8_decode_inj a b s :
  utf8_decode a = Ok s -> utf8_decode b = Ok s -> a = b.
Proof.
  unfold utf8_decode.
  destruct (utf8_decode_opt a) as [sa|] eqn:Ha; [|discriminate].
  destruct (utf8_decode_opt b) as [sb|] eqn:Hb; [|discriminate].
  intros [= ->] [= ->].
  apply (utf8_encode_decoded (length a) a s (Nat.le_refl _)) in Ha.
  apply (utf8_encode_decoded (length b) b s (Nat.le_refl _)) in Hb.
  congruence.
Qed.

(** ** Four-byte fields *)

Lemma read_int_cons b bs : read_int (b :: bs) = Byte.to_N b + 256 * read_int bs.
Proof. reflexivity. Qed.

Lemma read_int_bound bs : read_int bs < 256 ^ N.of_nat (length bs).
Proof.
  induction bs as [|b bs IH]; [reflexivity|].
  rewrite read_int_cons. cbn [length].
  rewrite Nat2N.inj_succ, N.pow_succ_r'.
  pose proof (to_N_lt_256 b). nia.
Qed.

Lemma le32_read_int bs : length bs = 4%nat -> le32 (read_int bs) = bs.
Proof.
  destruct bs as [|a [|b [|c [|d [|]]]]]; try discriminate. intros _.
  unfold le32, read_int. cbn [map fold_right].
  change (256 ^ 0) with 1. change (256 ^ 1) with 256.
  change (256 ^ 2) with 65536. change (256 ^ 3) with 16777216.
  pose proof (to_N_lt_256 a). pose proof (to_N_lt_256 b).
  pose proof (to_N_lt_256 c). pose proof (to_N_lt_256 d).
  assert (E : forall x y, x = Byte.to_N y -> byte_of_N x = y)
    by (intros x y ->; apply byte_of_N_to_N).
  f_equal; [|f_equal; [|f_equal; [|f_equal]]]; apply E; div_lia.
Qed.

(** X1: on a field of exactly four bytes [read_int] is below [2^32] and
    the four-byte little-endian encoding of the number read is the
    field again: two different four-byte fields never read as the same
    number. *)
Theorem read_int_inverts_le32 (four_bytes : bytes) :
  length four_bytes = 4%nat ->
  read_int four_bytes < 2 ^ 32 /\ le32 (read_int four_bytes) = four_bytes.
Proof.
  intros Hlen. split; [|apply le32_read_int, Hlen].
  pose proof (read_int_bound four_bytes) as Hb. rewrite Hlen in Hb. exact Hb.
Qed.

(** X2: a field that the end of the stream cut short reads as if it
    were padded with zero bytes, and the empty field reads as 0. *)
Theorem short_field_reads_as_zero_padded (field : bytes) (k : nat) :
  read_int (field ++ repeat x00 k) = read_int field /\ read_int [] = 0.
Proof.
  split; [|reflexivity].
  induction field as [|b field IH]; cbn [app].
  - induction k as [|k IHk]; [reflexivity|].
    cbn [repeat]. rewrite read_int_cons, IHk. reflexivity.
  - rewrite !read_int_cons, IH. reflexivity.
Qed.

(** X3: when the tag of a record is neither 1 nor 3, [read_rtf_item]
    returns [None] and has consumed the tag field only, whatever
    follows; this covers the empty stream, whose tag reads as 0. *)
Theorem unknown_tags_decode_to_none (data : bytes) :
  read_int (firstn 4 data) <> 1 -> read_int (firstn 4 data) <> 3 ->
  read_rtf_item data = (Ok RNone, skipn 4 data).
Proof.
  intros H1 H3. apply read_rtf_item_of_body.
  unfold read_rtf_item_body, stream_read.
  change (N.to_nat 4) with 4%nat.
  apply N.eqb_neq in H1, H3. rewrite H1, H3. reflexivity.
Qed.

Lemma unknown_tags_witness :
  read_rtf_item (le32 2 ++ bytes_of "abc") = (Ok RNone, bytes_of "abc").
Proof.
  apply (unknown_tags_decode_to_none (le32 2 ++ bytes_of "abc"));
    vm_compute; discriminate.
Defined.

Section dict_folds.
Context {V : Type}.
Implicit Types (d : dict pystr V) (k : pystr).

Lemma dict_get_app d1 d2 k :
  dict_get k (d1 ++ d2)
  = match dict_get k d1 with Some v => Some v | None => dict_get k d2 end.
Proof.
  induction d1 as [|[k' v'] d1 IH]; simpl; [reflexivity|].
  destruct (decide (k = k')); [reflexivity | exact IH].
Qed.

Lemma dict_get_fold_set (kvs : list (pystr * V)) :
  forall d k,
    dict_get k (fold_left (fun d nv => dict_set (fst nv) (snd nv) d) kvs d)
    = match dict_get k (rev kvs) with
      | Some v => Some v
      | None => dict_get k d
      end.
Proof.
  induction kvs as [|[k0 v0] kvs IH]; intros d k; [reflexivity|].
  cbn [fold_left rev fst snd]. rewrite IH, dict_get_app.
  destruct (dict_get k (rev kvs)); [reflexivity|]. simpl.
  destruct (decide (k = k0)) as [->|Hne].
  - apply dict_get_set_eq.
  - apply dict_get_set_ne. congruence.
Qed.

Lemma dict_keys_fold_set {A} (f : A -> pystr) (g : A -> V) (l : list A) :
  forall d,
    (List.NoDup (dict_keys d) ->
     List.NoDup (dict_keys (fold_left (fun d x => dict_set (f x) (g x) d) l d)))
    /\ forall k,
         In k (dict_keys (fold_left (fun d x => dict_set (f x) (g x) d) l d))
         <-> In k (map f l) \/ In k (dict_keys d).
Proof.
  induction l as [|x l IH]; intros d; cbn [fold_left map].
  - split; [auto|]. intros k. simpl. tauto.
  - destruct (IH (dict_set (f x) (g x) d)) as [Hnd Hin]. split.
    + intros Hd. apply Hnd, dict_keys_set_nodup, Hd.
    + intros k. rewrite Hin, dict_keys_set_in. simpl. split.
      * intros [H|[H|H]]; auto.
      * intros [[H|H]|H]; auto.
Qed.
End dict_folds.

Lemma in_fst_combine {V} (names : list pystr) k :
  forall values : list V,
    length names = length values -> In k names ->
    In k (map fst (combine names values)).
Proof.
  induction names as [|n names IH]; intros values Hlen Hin; [destruct Hin|].
  destruct values as [|v values]; [discriminate Hlen|]. simpl.
  destruct Hin as [->|Hin]; [left; reflexivity|].
  right. apply IH; [|exact Hin]. simpl in Hlen. lia.
Qed.

Lemma dict_get_rev_combine_none {V} (names : list pystr) (values : list V) k :
  length names = length values ->
  dict_get k (rev (combine names values)) = None -> ~ In k names.
Proof.
  intros Hlen Hget Hin. apply dict_get_none_keys in Hget. apply Hget.
  unfold dict_keys. rewrite map_rev. apply in_rev. rewrite rev_involutive.
  apply in_fst_combine; assumption.
Qed.

Lemma directory_map_of_lookup names values :
  length names = length values ->
  List.NoDup (dict_keys (directory_map_of names values))
  /\ (forall name, In name (dict_keys (directory_map_of names values))
                   <-> In name names)
  /\ (forall name, dict_get name (directory_map_of names values)
                   = dict_get name (rev (combine names values))).
Proof.
  intros Hlen. unfold directory_map_of.
  set (dm := fold_left (fun d name => dict_set name RNone d) names []).
  destruct (dict_keys_fold_set (fun n : pystr => n) (fun _ => RNone) names [])
    as [Hnd0 Hin0].
  fold dm in Hnd0, Hin0.
  destruct (dict_keys_fold_set fst snd (combine names values) dm) as [Hnd Hin].
  split; [apply Hnd, Hnd0; constructor|]. split.
  - intros name. rewrite Hin, Hin0, map_id. simpl. split.
    + intros [H|[H|[]]]; [|exact H].
      apply in_map_iff in H. destruct H as ([n v] & <- & H).
      eapply in_combine_l, H.
    + intros H. right. left. exact H.
  - intros name. rewrite dict_get_fold_set.
    destruct (dict_get name (rev (combine names values))) eqn:Hget;
      [reflexivity|].
    apply dict_get_rev_combine_none in Hget; [|exact Hlen].
    apply dict_get_none_keys. rewrite Hin0, map_id. simpl. tauto.
Qed.

(** X4: a well-formed directory record, with names that may repeat,
    decodes to a dictionary with one key for each distinct name, and the
    value under a name is the decoding of the last entry with that
    name: a later entry replaces an earlier one of the same name. *)
Theorem directory_duplicate_names
    (entries : list (bytes * bytes)) (names : list pystr)
    (values : list rtf_item) (rest : bytes) :
  N.of_nat (length entries) < 2 ^ 32 ->
  Forall (fun e => len (fst e) < 2 ^ 32 /\ len (snd e) < 2 ^ 32) entries ->
  Forall2 (fun e name => utf8_decode (fst e) = Ok name) entries names ->
  Forall2 (fun e v => fst (read_rtf_item (snd e)) = Ok v) entries values ->
  exists d,
    read_rtf_item (directory_record entries ++ rest) = (Ok (RDict d), rest)
    /\ List.NoDup (dict_keys d)
    /\ (forall name, In name (dict_keys d) <-> In name names)
    /\ (forall name, dict_get name d = dict_get name (rev (combine names values))).
Proof.
  intros Hcount Hlens Hnames Hvalues.
  exists (directory_map_of names values).
  split; [apply read_rtf_item_directory; assumption|].
  apply directory_map_of_lookup.
  apply Forall2_length in Hnames, Hvalues. congruence.
Qed.

Lemma directory_duplicate_names_witness :
  let entries := [(bytes_of "a", leaf_record (bytes_of "x"));
                  (bytes_of "b", leaf_record (bytes_of "y"));
                  (bytes_of "a", leaf_record (bytes_of "z"))] in
  exists d,
    read_rtf_item (directory_record entries) = (Ok (RDict d), [])
    /\ dict_get (py "a") d = Some (RBytes (bytes_of "z")).
Proof.
  intros entries.
  destruct (directory_duplicate_names entries [py "a"; py "b"; py "a"]
              [RBytes (bytes_of "x"); RBytes (bytes_of "y"); RBytes (bytes_of "z")]
              []) as (d & Hdecode & _ & _ & Hget).
  - vm_compute. reflexivity.
  - repeat constructor.
  - repeat constructor.
  - repeat constructor.
  - exists d. rewrite app_nil_r in Hdecode. split; [exact Hdecode|].
    rewrite Hget. vm_compute. reflexivity.
Defined.

Lemma stream_read_nil n : stream_read n [] = ([], []).
Proof. unfold stream_read. rewrite firstn_nil, skipn_nil. reflexivity. Qed.

Lemma read_names_nil n : read_names n [] = (Ok (repeat [] n), []).
Proof.
  induction n as [|n IH]; [reflexivity|].
  cbn [read_names]. rewrite stream_read_nil, stream_read_nil.
  change (utf8_decode []) with (@Ok (list N) []). rewrite IH. reflexivity.
Qed.

Lemma read_sizes_nil n : read_sizes n [] = (repeat 0 n, []).
Proof.
  induction n as [|n IH]; [reflexivity|].
  cbn [read_sizes]. rewrite stream_read_nil, IH. reflexivity.
Qed.

Lemma read_chunks_nil sizes : read_chunks sizes [] = (map (fun _ => []) sizes, []).
Proof.
  induction sizes as [|s sizes IH]; [reflexivity|].
  cbn [read_chunks]. rewrite stream_read_nil, IH. reflexivity.
Qed.

Lemma fill_directory_empty_entries (rec : bytes -> option (result rtf_item * bytes)) n :
  rec [] = Some (Ok RNone, []) ->
  fill_directory rec (repeat ([], []) n) [([], RNone)] = Some (Ok [([], RNone)]).
Proof.
  intros Hrec. induction n as [|n IH]; [reflexivity|].
  cbn [repeat fill_directory]. rewrite Hrec. exact IH.
Qed.

(** X5: a directory record whose stream ends right after the count [n]
    does not fail: the [n] names, sizes and entries all read as empty,
    and the result is the dictionary with the single empty name bound
    to [None]. *)
Theorem truncated_directory_has_one_empty_name (n : N) :
  0 < n -> n < 2 ^ 32 ->
  read_rtf_item (le32 3 ++ le32 n) = (Ok (RDict [([], RNone)]), []).
Proof.
  intros Hpos Hn. apply read_rtf_item_of_body. unfold read_rtf_item_body.
  rewrite stream_read_le32, read_int_le32 by reflexivity. cbn [N.eqb Pos.eqb].
  rewrite <- (app_nil_r (le32 n)), stream_read_le32, (read_int_le32 _ Hn).
  rewrite read_names_nil, read_sizes_nil, read_chunks_nil.
  destruct (N.to_nat n) as [|k] eqn:Hk; [lia|].
  assert (Hinit : fold_left (fun d name => dict_set name RNone d)
                    (repeat ([] : list N) (S k)) ([] : dict (list N) rtf_item)
                  = [([], RNone)]).
  { cbn [repeat fold_left dict_set]. clear.
    induction k as [|k IH]; [reflexivity|]. exact IH. }
  rewrite Hinit.
  assert (Hpairs : combine (repeat ([] : list N) (S k))
                     (map (fun _ : N => ([] : list byte)) (repeat 0 (S k)))
                   = repeat ([], []) (S k)).
  { clear. induction (S k) as [|m IH]; [reflexivity|].
    cbn [repeat map combine]. rewrite IH. reflexivity. }
  rewrite Hpairs, fill_directory_empty_entries; [reflexivity|].
  reflexivity.
Qed.

Lemma truncated_directory_witness :
  read_rtf_item (le32 3 ++ le32 5) = (Ok (RDict [([], RNone)]), []).
Proof. apply (truncated_directory_has_one_empty_name 5); reflexivity. Defined.

(** ** The size of what the decoder returns *)

Lemma fill_directory_leaves (rec : bytes -> option (result rtf_item * bytes)) n :
  forall entries dm d,
    (forall name item v rest, In (name, item) entries ->
       rec item = Some (Ok v, rest) -> leaves_within n v) ->
    (forall name content, dict_get name dm = Some (RBytes content) ->
       (length content <= n)%nat) ->
    fill_directory rec entries dm = Some (Ok d) ->
    forall name content, dict_get name d = Some (RBytes content) ->
      (length content <= n)%nat.
Proof.
  induction entries as [|[name0 item] entries IH]; intros dm d Hrec Hdm.
  - intros [= <-]. exact Hdm.
  - cbn [fill_directory].
    destruct (rec item) as [[[v|e] rest]|] eqn:Hitem; try discriminate.
    apply IH.
    + intros name i v' rest' Hin. apply (Hrec name i v' rest'). right. exact Hin.
    + intros name content.
      destruct (decide (name0 = name)) as [->|Hne].
      * rewrite dict_get_set_eq. intros [= ->].
        exact (Hrec name item _ rest (or_introl eq_refl) Hitem).
      * rewrite dict_get_set_ne by exact Hne. apply Hdm.
Qed.

Lemma unbound_names_get (names : list pystr) :
  forall (dm : dict pystr rtf_item) (name : pystr) content,
    (forall k c, dict_get k dm = Some (RBytes c) -> False) ->
    dict_get name (fold_left (fun d k => dict_set k RNone d) names dm)
    = Some (RBytes content) -> False.
Proof.
  induction names as [|k names IH]; intros dm name content Hdm; cbn [fold_left].
  - apply Hdm.
  - apply IH. intros k' c.
    destruct (decide (k = k')) as [->|Hne].
    + rewrite dict_get_set_eq. discriminate.
    + rewrite dict_get_set_ne by exact Hne. apply Hdm.
Qed.

Lemma read_rtf_item_leaves n :
  forall data v rest,
    (length data <= n)%nat ->
    read_rtf_item data = (Ok v, rest) -> leaves_within (length data) v.
Proof.
  induction n as [|n IH]; intros data v rest Hn Hread.
  { destruct data; [|simpl in Hn; lia].
    vm_compute in Hread. injection Hread as <- _. exact I. }
  pose proof (read_rtf_item_unfold data) as Hbody. rewrite Hread in Hbody.
  unfold read_rtf_item_body in Hbody.
  destruct (stream_read 4 data) as [field d1] eqn:Htag.
  pose proof (stream_read_snd_length 4 data) as Hd1. rewrite Htag in Hd1.
  simpl in Hd1.
  destruct (read_int field =? 1).
  { pose proof (stream_read_snd_length 4 d1) as Hd2.
    destruct (stream_read 4 d1) as [f2 d2]. simpl in Hd2.
    destruct (read_int f2 =? 2147483648).
    - pose proof (stream_read_snd_length 4 d2) as Hd3.
      destruct (stream_read 4 d2) as [f3 d3]. simpl in Hd3.
      pose proof (stream_read_snd_length 4 d3) as Hd4.
      destruct (stream_read 4 d3) as [f4 d4]. simpl in Hd4.
      pose proof (stream_read_snd_length (read_int f3) d4) as Hd5.
      destruct (stream_read (read_int f3) d4) as [pad d5]. simpl in Hd5.
      pose proof (stream_read_fst_length (read_int f4) d5) as Hc.
      destruct (stream_read (read_int f4) d5) as [c d6]. simpl in Hc.
      injection Hbody as <- _. simpl. lia.
    - pose proof (stream_read_fst_length (read_int f2) d2) as Hc.
      destruct (stream_read (read_int f2) d2) as [c d3]. simpl in Hc.
      injection Hbody as <- _. simpl. lia. }
  destruct (read_int field =? 3) eqn:H3;
    [|injection Hbody as <- _; exact I].
  apply N.eqb_eq in H3.
  assert (Hshort : (length d1 < length data)%nat).
  { eapply stream_read_tag_shorter; [exact Htag | lia]. }
  pose proof (stream_read_snd_length 4 d1) as Hd2.
  destruct (stream_read 4 d1) as [field2 d2]. simpl in Hd2.
  pose proof (read_names_length (N.to_nat (read_int field2)) d2) as Hd3.
  destruct (read_names (N.to_nat (read_int field2)) d2) as [[names|e] d3];
    [|discriminate Hbody].
  simpl in Hd3.
  pose proof (read_sizes_length (N.to_nat (read_int field2)) d3) as Hd4.
  destruct (read_sizes (N.to_nat (read_int field2)) d3) as [sizes d4].
  simpl in Hd4.
  pose proof (read_chunks_length sizes d4) as Hchunks.
  destruct (read_chunks sizes d4) as [chunks d5]. simpl in Hchunks.
  destruct (fill_directory _ _ _) as [[d|e]|] eqn:Hfill; try discriminate Hbody.
  injection Hbody as <- _. cbn [leaves_within].
  eapply fill_directory_leaves; [| |exact Hfill].
  - intros name item v' rest' Hin [= Hitem].
    apply in_combine_r in Hin. specialize (Hchunks item Hin).
    assert (Hv : leaves_within (length item) v')
      by (apply (IH item v' rest'); [lia | exact Hitem]).
    destruct v' as [|c|d']; simpl in *; [exact I | lia |].
    intros k c Hk. specialize (Hv k c Hk). lia.
  - intros name content Hget. exfalso.
    eapply (unbound_names_get names []); [|exact Hget].
    intros k c. discriminate.
Qed.

Lemma extracted_is_shorter p w content extracted w' :
  fs_lookup (fs w) p = Some (File content) ->
  extract_rtf_content_from_rtfd p w = (Ok (RBytes extracted), w') ->
  (length extracted < length content)%nat.
Proof.
  intros Hfile. unfold extract_rtf_content_from_rtfd.
  rewrite (bind_run _ _ _ _ _ (read_file_run _ _ _ Hfile)).
  unfold stream_read at 1. change (N.to_nat 4) with 4%nat.
  destruct (negb _) eqn:Hmagic; [discriminate|].
  apply negb_false_iff, bool_decide_eq_true_1 in Hmagic.
  assert (Hlen : (4 <= length content)%nat).
  { apply (f_equal (@length _)) in Hmagic. rewrite length_firstn in Hmagic.
    change (length rtfd_magic) with 4%nat in Hmagic. lia. }
  pose proof (stream_read_snd_length 4 (skipn 4 content)) as Hd2.
  destruct (stream_read 4 (skipn 4 content)) as [version d2]. simpl in Hd2.
  rewrite length_skipn in Hd2.
  rewrite bind_lift.
  destruct (read_rtf_item d2) as [[top|e] rest] eqn:Hread; cbn [fst];
    [|discriminate].
  pose proof (read_rtf_item_leaves _ _ _ _ (Nat.le_refl _) Hread) as Hfit.
  destruct top as [|c|d]; try discriminate.
  destruct (dict_get (py "TXT.rtf") d) as [v|] eqn:Hget; [|discriminate].
  intros [= -> _]. simpl in Hfit. specialize (Hfit _ _ Hget). lia.
Qed.

(** X6: whatever [read_rtf_item] returns, each leaf in it, at the top
    or as an entry of the returned directory, is no longer than the
    input: a size field cannot make the decoder return more bytes than
    it was given. *)
Theorem decoded_leaves_fit_in_the_input (data : bytes) (v : rtf_item) (rest : bytes) :
  read_rtf_item data = (Ok v, rest) -> leaves_within (length data) v.
Proof. apply (read_rtf_item_leaves (length data)). apply Nat.le_refl. Qed.

Lemma decoded_leaves_witness :
  leaves_within (length (leaf_record (bytes_of "{\rtf1}")))
    (RBytes (bytes_of "{\rtf1}")).
Proof.
  apply (decoded_leaves_fit_in_the_input
           (leaf_record (bytes_of "{\rtf1}")) (RBytes (bytes_of "{\rtf1}")) []).
  vm_compute. reflexivity.
Defined.

(** ** Identifiers and digests *)

Lemma uuid4_run w :
  exists u, uuid4 w = (Ok u, mkWorld (fs w) (entropy w) (S (cursor w)) (stdout w)).
Proof. eexists. reflexivity. Qed.

Lemma utf8_encode_raise s e : utf8_encode s = Raise e -> e = UnicodeEncodeError.
Proof.
  unfold utf8_encode. destruct (utf8_encode_opt s); [discriminate|].
  intros [= <-]. reflexivity.
Qed.

Lemma utf8_encode_surrogate s c :
  In c s -> is_surrogate c = true -> utf8_encode s = Raise UnicodeEncodeError.
Proof.
  intros Hin Hsur. unfold utf8_encode.
  assert (Hnone : utf8_encode_opt s = None); [|rewrite Hnone; reflexivity].
  induction s as [|c' s IH]; [destruct Hin|].
  cbn [utf8_encode_opt]. destruct Hin as [->|Hin].
  - assert (Hc : utf8_encode_char c = None); [|rewrite Hc; reflexivity].
    unfold utf8_encode_char. rewrite Hsur.
    unfold is_surrogate in Hsur. apply andb_true_iff in Hsur.
    destruct Hsur as [Hlo Hhi]. apply N.leb_le in Hlo, Hhi.
    destruct (N.ltb_spec c 128); [lia|].
    destruct (N.ltb_spec c 2048); [lia|].
    destruct (N.ltb_spec c 65536); [reflexivity | lia].
  - rewrite (IH Hin). destruct (utf8_encode_char c'); reflexivity.
Qed.

Section add_item_more.
Context `{Runtime}.

(** X9: the identifier [add_item] returns has 36 characters, each a
    lowercase hexadecimal digit or a dash, and the first is a digit: the
    shard directory of a new item is one of the sixteen directories
    [0] ... [f] that [create] makes. *)
Theorem add_item_identifier_format
    (self : DataStore) (name text format : pystr) (w : World)
    (item_uuid : pystr) (self' : DataStore) (w' : World) :
  add_item self name text format w = (Ok (item_uuid, self'), w') ->
  length item_uuid = 36%nat
  /\ List.Forall (fun c => is_hex_digit c = true \/ c = 45) item_uuid
  /\ exists i, (i < 16)%nat
       /\ first_char item_uuid = Ok [hex_digit (N.of_nat i)].
Proof.
  intros Hadd. apply add_item_ok in Hadd.
  destruct Hadd as (u & c & rest & encoded & bs & -> & _).
  destruct (uuid_str_format u) as [Hlen Hchars].
  split; [exact Hlen|]. split; [exact Hchars|].
  destruct (uuid_str_first u) as (tl & ->).
  exists (N.to_nat ((u / 16 ^ 31) mod 16)). split.
  - pose proof (N.mod_lt (u / 16 ^ 31) 16 ltac:(discriminate)). lia.
  - rewrite N2Nat.id. reflexivity.
Qed.

(** X10: a text that holds a surrogate code point cannot be encoded;
    [add_item] then raises [UnicodeEncodeError] when it hashes the text,
    before it has written or printed anything. *)
Theorem add_item_rejects_surrogates_before_writing
    (self : DataStore) (name text format : pystr) (w : World) (c : N) :
  In c text -> is_surrogate c = true ->
  exists w',
    add_item self name text format w = (Raise UnicodeEncodeError, w')
    /\ fs w' = fs w /\ stdout w' = stdout w.
Proof.
  intros Hin Hsur. destruct (uuid4_run w) as (u & Hu).
  eexists. unfold add_item. rewrite (bind_run _ _ _ _ _ Hu).
  unfold sha1_hash. rewrite (utf8_encode_surrogate _ _ Hin Hsur).
  split; [reflexivity|]. split; reflexivity.
Qed.
End add_item_more.

Lemma add_item_identifier_format_witness :
  exists item_uuid self' w',
    add_item (new_store Sample.root None false)
      (py "Index") (py "Write about Index here.")
      (py "net.daringfireball.markdown") Sample.world0
    = (Ok (item_uuid, self'), w')
    /\ length item_uuid = 36%nat
    /\ exists i, (i < 16)%nat
         /\ first_char item_uuid = Ok [hex_digit (N.of_nat i)].
Proof.
  destruct (add_item (new_store Sample.root None false)
              (py "Index") (py "Write about Index here.")
              (py "net.daringfireball.markdown") Sample.world0)
    as [[[item_uuid self']|e] w'] eqn:Hrun.
  - exists item_uuid, self', w'. split; [reflexivity|].
    destruct (add_item_identifier_format _ _ _ _ _ _ _ _ Hrun)
      as (Hlen & _ & Hshard).
    split; [exact Hlen | exact Hshard].
  - vm_compute in Hrun. discriminate Hrun.
Defined.

Lemma add_item_rejects_surrogates_witness :
  exists w',
    add_item (new_store Sample.root None false)
      (py "Index") [104; 0xD800] (py "public.utf8-plain-text") Sample.world0
    = (Raise UnicodeEncodeError, w')
    /\ fs w' = fs Sample.world0 /\ stdout w' = stdout Sample.world0.
Proof.
  apply (add_item_rejects_surrogates_before_writing _ _ _ _ _ 0xD800).
  - right. left. reflexivity.
  - reflexivity.
Defined.

Lemma be_bytes_length width x : length (SHA1.be_bytes width x) = width.
Proof. unfold SHA1.be_bytes. rewrite length_map, length_rev, length_seq. reflexivity. Qed.

Lemma be_bytes_small width x :
  List.Forall (fun b => b < 256) (SHA1.be_bytes width x).
Proof.
  unfold SHA1.be_bytes. apply List.Forall_forall. intros b Hin.
  apply in_map_iff in Hin. destruct Hin as (i & <- & _).
  apply N.mod_lt. discriminate.
Qed.

Lemma digest_bytes msg :
  length (SHA1.digest msg) = 20%nat
  /\ List.Forall (fun b => b < 256) (SHA1.digest msg).
Proof.
  unfold SHA1.digest.
  destruct (SHA1.blocks _ _ _) as [[[[h0 h1] h2] h3] h4].
  cbn [map concat]. split.
  - rewrite !length_app, !be_bytes_length. reflexivity.
  - repeat (apply List.Forall_app; split); try apply be_bytes_small.
    constructor.
Qed.

Lemma hex_of_bytes_format bs :
  List.Forall (fun b => b < 256) bs ->
  length (hex_of_bytes bs) = (2 * length bs)%nat
  /\ List.Forall (fun c => is_hex_digit c = true) (hex_of_bytes bs).
Proof.
  unfold hex_of_bytes. induction 1 as [|b bs Hb Hbs [IHl IHd]].
  - split; [reflexivity | constructor].
  - cbn [map concat app length]. split; [rewrite IHl; lia|].
    constructor; [|constructor; [|exact IHd]]; apply hex_digit_is_hex.
    + apply N.Div0.div_lt_upper_bound. exact Hb.
    + apply N.mod_lt. discriminate.
Qed.

(** X8: when [sha1_hash] returns, the digest is a string of forty
    lowercase hexadecimal digits. *)
Theorem sha1_hash_is_forty_hex_digits (s h : pystr) :
  sha1_hash s = Ok h ->
  length h = 40%nat /\ List.Forall (fun c => is_hex_digit c = true) h.
Proof.
  unfold sha1_hash. destruct (utf8_encode s) as [bs|e]; [|discriminate].
  intros [= <-]. unfold sha1_hexdigest.
  destruct (digest_bytes bs) as [Hlen Hsmall].
  destruct (hex_of_bytes_format _ Hsmall) as [Hl Hd].
  split; [rewrite Hl, Hlen; reflexivity | exact Hd].
Qed.

Lemma sha1_hash_format_witness :
  exists h, sha1_hash (py "Write about Index here.") = Ok h /\ length h = 40%nat.
Proof.
  destruct (sha1_hash (py "Write about Index here.")) as [h|e] eqn:Hh.
  - exists h. split; [reflexivity|].
    exact (proj1 (sha1_hash_is_forty_hex_digits _ _ Hh)).
  - vm_compute in Hh. discriminate Hh.
Defined.

(** X7: what [extract_rtf_content_from_rtfd] returns and prints for a
    file that is there.  When the first four bytes are not the magic
    (also when the file is shorter) it prints "File is not an RTFD
    file." and returns [None].  Otherwise it skips four bytes and
    decodes the rest: from a directory it returns the [TXT.rtf] entry
    as it is, printing nothing, or prints "Could not find RTF.rtf in
    RTFD file." and returns [None] when there is no such entry; for any
    other record it returns [None] and prints nothing. *)
Theorem extraction_outcomes (p : Path) (w : World) (content : bytes) :
  fs_lookup (fs w) p = Some (File content) ->
  (firstn 4 content <> rtfd_magic ->
   extract_rtf_content_from_rtfd p w
   = (Ok RNone, printed w [py "File is not an RTFD file."]))
  /\ (firstn 4 content = rtfd_magic ->
      forall top, fst (read_rtf_item (skipn 8 content)) = Ok top ->
        extract_rtf_content_from_rtfd p w
        = match top with
          | RDict d =>
            match dict_get (py "TXT.rtf") d with
            | Some v => (Ok v, w)
            | None =>
              (Ok RNone, printed w [py "Could not find RTF.rtf in RTFD file."])
            end
          | _ => (Ok RNone, w)
          end).
Proof.
  intros Hfile. unfold extract_rtf_content_from_rtfd.
  rewrite (bind_run _ _ _ _ _ (read_file_run _ _ _ Hfile)).
  unfold stream_read. change (N.to_nat 4) with 4%nat. split.
  - intros Hmagic. rewrite bool_decide_eq_false_2 by exact Hmagic. reflexivity.
  - intros Hmagic top Htop. rewrite bool_decide_eq_true_2 by exact Hmagic.
    cbn [negb]. rewrite skipn_skipn. change (4 + 4)%nat with 8%nat.
    rewrite Htop, bind_lift.
    destruct top as [| |d]; try reflexivity.
    destruct (dict_get (py "TXT.rtf") d); reflexivity.
Qed.

Lemma extraction_outcomes_witness :
  let p := Sample.root ++ [py "pages"; py "a"; py "a1"] in
  extract_rtf_content_from_rtfd p Sample.two_page_store
  = (Ok RNone, printed Sample.two_page_store [py "File is not an RTFD file."]).
Proof.
  intros p.
  destruct (extraction_outcomes p Sample.two_page_store (bytes_of "# Notes"))
    as [Hwrong _].
  - vm_compute. reflexivity.
  - apply Hwrong. vm_compute. discriminate.
Defined.

(** ** Directories made on the way to a file *)

Lemma same_outside_fs_refl w : same_outside_fs w w.
Proof. repeat split. Qed.

Lemma same_outside_fs_trans w1 w2 w3 :
  same_outside_fs w1 w2 -> same_outside_fs w2 w3 -> same_outside_fs w1 w3.
Proof. unfold same_outside_fs. intuition congruence. Qed.

Lemma os_mkdir_adds p w r w' :
  os_mkdir p w = (r, w') ->
  same_outside_fs w w'
  /\ forall q n, fs_lookup (fs w') q = Some n ->
       fs_lookup (fs w) q = Some n
       \/ (q = p /\ n = Dir /\ fs_lookup (fs w) q = None).
Proof.
  unfold os_mkdir, bind, get_fs, lift, raise, put_fs.
  destruct (check_parent (fs w) p).
  - destruct (fs_lookup (fs w) p) eqn:Hp.
    + intros [= <- <-]. split; [apply same_outside_fs_refl | auto].
    + intros [= <- <-]. split; [repeat split|]. simpl. intros q n Hq.
      destruct (decide (p = q)) as [<-|Hne].
      * right. destruct p as [|c p]; [discriminate Hp|].
        simpl in Hq. rewrite dict_get_set_eq in Hq. injection Hq as <-. auto.
      * left. rewrite fs_lookup_set_ne in Hq by exact Hne. exact Hq.
  - intros [= <- <-]. split; [apply same_outside_fs_refl | auto].
Qed.

Lemma adds_dirs_refl names w : adds_dirs names w w.
Proof.
  split; [apply same_outside_fs_refl|]. split; [apply fs_extends_refl | auto].
Qed.

Lemma adds_dirs_trans names w1 w2 w3 :
  adds_dirs names w1 w2 -> adds_dirs names w2 w3 -> adds_dirs names w1 w3.
Proof.
  intros (Hs1 & He1 & Ha1) (Hs2 & He2 & Ha2).
  split; [eapply same_outside_fs_trans; eassumption|].
  split; [eapply fs_extends_trans; eassumption|].
  intros q n Hq. destruct (Ha2 q n Hq) as [Hold|(-> & Hnone & Hname)].
  - apply Ha1, Hold.
  - destruct (fs_lookup (fs w1) q) as [n1|] eqn:Hw1.
    + apply He1 in Hw1. congruence.
    + right. auto.
Qed.

Lemma adds_dirs_weaken (names names' : Path -> Prop) w w' :
  (forall q, names q -> names' q) -> adds_dirs names w w' -> adds_dirs names' w w'.
Proof.
  intros Himp (Hs & He & Ha). split; [exact Hs|]. split; [exact He|].
  intros q n Hq. destruct (Ha q n Hq) as [Hold|(-> & Hnone & Hname)]; auto.
Qed.

Lemma os_mkdir_adds_dirs p w r w' :
  os_mkdir p w = (r, w') -> adds_dirs (fun q => q = p) w w'.
Proof.
  intros Hrun. destruct (os_mkdir_adds _ _ _ _ Hrun) as [Hsame Hadds].
  split; [exact Hsame|]. split; [eapply os_mkdir_extends, Hrun|].
  intros q n Hq. destruct (Hadds q n Hq) as [Hold|(-> & -> & Hnone)]; auto.
Qed.

Lemma makedirs_rev_adds rname :
  forall w r w', makedirs_rev rname w = (r, w') ->
    adds_dirs (fun q => exists k, q = rev (skipn k rname)) w w'.
Proof.
  induction rname as [|c rhead IH]; intros w r w' Hrun.
  - inversion Hrun; subst. apply adds_dirs_refl.
  - set (names := fun q : Path => exists k, q = rev (skipn k (c :: rhead))).
    assert (Hshift : forall w0 r0 w1,
              makedirs_rev rhead w0 = (r0, w1) -> adds_dirs names w0 w1).
    { intros w0 r0 w1 Hm. eapply adds_dirs_weaken; [|eapply IH, Hm].
      intros q (k & ->). exists (S k). reflexivity. }
    cbn [makedirs_rev] in Hrun.
    rewrite (bind_run _ _ _ _ _ (path_exists_run _ _)) in Hrun.
    apply bind_any in Hrun.
    assert (Hhead : forall r1 w1,
      (if match fs_lookup (fs w) (rev rhead) with Some _ => true | None => false end
       then ret tt
       else try_except (makedirs_rev rhead)
              (fun e => match e with FileExistsError _ => true | _ => false end)
              (fun _ => ret tt)) w = (r1, w1) ->
      adds_dirs names w w1).
    { intros r1 w1 Hh. destruct (fs_lookup (fs w) (rev rhead)).
      - inversion Hh; subst. apply adds_dirs_refl.
      - apply try_except_any in Hh. destruct Hh as [Hh|(e & w2 & Hh & Hret)].
        + eapply Hshift, Hh.
        + inversion Hret; subst. eapply Hshift, Hh. }
    assert (Hmk : forall w1 r2 w2,
      try_except (os_mkdir (rev (c :: rhead))) (fun _ => true)
        (fun e => isd <- is_dir (rev (c :: rhead)) ; if isd then ret tt else raise e)
        w1 = (r2, w2) ->
      adds_dirs names w1 w2).
    { intros w1 r2 w2 Hm.
      apply (adds_dirs_weaken (fun q => q = rev (c :: rhead)));
        [intros q ->; exists 0%nat; reflexivity|].
      apply try_except_any in Hm.
      destruct Hm as [Hm|(e & w3 & Hm & Hisd)].
      - eapply os_mkdir_adds_dirs, Hm.
      - rewrite (bind_run _ _ _ _ _ (is_dir_run _ _)) in Hisd.
        assert (w2 = w3) as ->.
        { destruct (match fs_lookup (fs w3) (rev (c :: rhead)) with
                    | Some Dir => true | _ => false end);
            inversion Hisd; reflexivity. }
        eapply os_mkdir_adds_dirs, Hm. }
    destruct Hrun as [(e & Hh & _)|(a & w1 & Hh & Hm)].
    + eapply Hhead, Hh.
    + eapply adds_dirs_trans; [eapply Hhead, Hh | eapply Hmk, Hm].
Qed.

Lemma os_makedirs_adds name w r w' :
  os_makedirs name w = (r, w') ->
  adds_dirs (fun q => exists k, q = firstn k name) w w'.
Proof.
  intros Hrun. eapply adds_dirs_weaken; [|eapply makedirs_rev_adds, Hrun].
  intros q (k & ->). exists (length name - k)%nat.
  rewrite skipn_rev, rev_involutive. reflexivity.
Qed.

Lemma removelast_ne (p : Path) : p <> [] -> dirname p <> p.
Proof.
  intros Hp Heq. apply (f_equal (@length _)) in Heq. unfold dirname in Heq.
  rewrite removelast_firstn_len, length_firstn in Heq.
  destruct p; [contradiction | simpl in Heq; lia].
Qed.

Lemma write_file_parent p data w w' :
  write_file p data w = (Ok tt, w') -> fs_lookup (fs w) (dirname p) = Some Dir.
Proof.
  unfold write_file, bind, get_fs, lift, raise, put_fs, check_parent.
  destruct (fs_lookup (fs w) (dirname p)) as [[d|]|]; try discriminate.
  reflexivity.
Qed.

Lemma write_file_run p data w :
  p <> [] ->
  fs_lookup (fs w) (dirname p) = Some Dir ->
  fs_lookup (fs w) p <> Some Dir ->
  write_file p data w
  = (Ok tt, mkWorld (dict_set p (File data) (fs w)) (entropy w) (cursor w) (stdout w)).
Proof.
  intros Hp Hparent Hnode.
  unfold write_file, bind, get_fs, lift, raise, put_fs, check_parent.
  rewrite Hparent. destruct (fs_lookup (fs w) p) as [[d|]|]; try reflexivity.
  contradiction Hnode. reflexivity.
Qed.

(** What [os.makedirs(dirname(p)); open(p, 'wb').write(data)] leaves. *)
Lemma makedirs_write_effect (p : Path) (data : bytes) w (u : unit) w1 w' :
  os_makedirs (dirname p) w = (Ok u, w1) ->
  write_file p data w1 = (Ok tt, w') ->
  fs_lookup (fs w') p = Some (File data)
  /\ fs_lookup (fs w') (dirname p) = Some Dir
  /\ same_outside_fs w w'
  /\ forall q, q <> p ->
       fs_lookup (fs w') q = fs_lookup (fs w) q
       \/ (fs_lookup (fs w) q = None /\ fs_lookup (fs w') q = Some Dir
           /\ exists k, q = firstn k (dirname p)).
Proof.
  intros Hmk Hwr. apply os_makedirs_adds in Hmk.
  destruct Hmk as (Hsame & Hext & Hadds).
  pose proof (write_file_parent _ _ _ _ Hwr) as Hparent.
  apply write_file_ok in Hwr.
  destruct Hwr as (Hfs & Hp & He & Hc & Ho).
  split; [rewrite Hfs; apply fs_lookup_set_eq, Hp|].
  split.
  { rewrite Hfs, fs_lookup_set_ne by (apply not_eq_sym, removelast_ne, Hp).
    exact Hparent. }
  split.
  { destruct Hsame as (He1 & Hc1 & Ho1). repeat split; congruence. }
  intros q Hq. rewrite Hfs, fs_lookup_set_ne by congruence.
  destruct (fs_lookup (fs w1) q) as [n|] eqn:Hq1.
  - destruct (Hadds q n Hq1) as [Hold|(-> & Hnone & Hname)].
    + left. symmetry. exact Hold.
    + right. auto.
  - left. destruct (fs_lookup (fs w) q) as [n|] eqn:Hq0; [|reflexivity].
    apply Hext in Hq0. congruence.
Qed.

Section saving.
Context `{Runtime}.

(** X11: when [save_file data p] returns, [p] is a file holding [data],
    its parent is a directory, and every other path is as it was, but
    for ancestors of [p] that did not exist and now are directories;
    nothing is printed. *)
Theorem save_file_effect
    (self : DataStore) (data : bytes) (p : Path) (w w' : World) :
  save_file self data p w = (Ok tt, w') ->
  fs_lookup (fs w') p = Some (File data)
  /\ fs_lookup (fs w') (dirname p) = Some Dir
  /\ same_outside_fs w w'
  /\ forall q, q <> p ->
       fs_lookup (fs w') q = fs_lookup (fs w) q
       \/ (fs_lookup (fs w) q = None /\ fs_lookup (fs w') q = Some Dir
           /\ exists k, q = firstn k (dirname p)).
Proof.
  unfold save_file. intros Hrun. run_inv Hrun as u w1 Hmk.
  destruct (encrypted self); [discriminate Hrun|].
  eapply makedirs_write_effect; eassumption.
Qed.

Lemma save_plist_effect self pl p w w' :
  save_plist self pl p w = (Ok tt, w') ->
  exists bs, plist_dumps pl = Ok bs
  /\ fs_lookup (fs w') p = Some (File bs)
  /\ fs_lookup (fs w') (dirname p) = Some Dir
  /\ same_outside_fs w w'
  /\ forall q, q <> p ->
       fs_lookup (fs w') q = fs_lookup (fs w) q
       \/ (fs_lookup (fs w) q = None /\ fs_lookup (fs w') q = Some Dir
           /\ exists k, q = firstn k (dirname p)).
Proof.
  unfold save_plist. intros Hrun. run_inv Hrun as u w1 Hmk.
  destruct (encrypted self); [discriminate Hrun|].
  unfold dump_plist in Hrun. destruct (plist_dumps pl) as [bs|e].
  - exists bs. split; [reflexivity|]. eapply makedirs_write_effect; eassumption.
  - run_inv Hrun as u2 w2 Hw. discriminate Hrun.
Qed.
End saving.

Lemma save_file_effect_witness :
  let p := Sample.root ++ [py "pages"; py "a"; py "a1"] in
  exists w',
    save_file (new_store Sample.root None false) (bytes_of "# Notes") p
      Sample.bare_store = (Ok tt, w')
    /\ fs_lookup (fs w') p = Some (File (bytes_of "# Notes"))
    /\ fs_lookup (fs w') (dirname p) = Some Dir.
Proof.
  intros p.
  destruct (save_file (new_store Sample.root None false) (bytes_of "# Notes") p
              Sample.bare_store) as [[[]|e] w'] eqn:Hrun.
  - exists w'. split; [reflexivity|].
    destruct (save_file_effect _ _ _ _ _ Hrun) as (Hfile & Hdir & _).
    split; [exact Hfile | exact Hdir].
  - vm_compute in Hrun. discriminate Hrun.
Defined.

(** ** When [add_item] succeeds *)

Lemma snoc2_snoc (d : Path) (a b : pystr) : d ++ [a; b] = (d ++ [a]) ++ [b].
Proof. rewrite <- app_assoc. reflexivity. Qed.

Lemma snoc3_snoc (d : Path) (a b c : pystr) : d ++ [a; b; c] = (d ++ [a; b]) ++ [c].
Proof. rewrite <- app_assoc. reflexivity. Qed.

Lemma dirname_snoc (d : Path) (a : pystr) : dirname (d ++ [a]) = d.
Proof. apply removelast_last. Qed.

(** [os.makedirs] of a directory whose parent exists. *)
Lemma os_makedirs_child_run (d : Path) (s : pystr) w :
  fs_lookup (fs w) d = Some Dir ->
  os_makedirs (d ++ [s]) w
  = match fs_lookup (fs w) (d ++ [s]) with
    | None => (Ok tt, mkWorld (dict_set (d ++ [s]) Dir (fs w))
                        (entropy w) (cursor w) (stdout w))
    | Some Dir => (Ok tt, w)
    | Some (File _) => (Raise (FileExistsError (d ++ [s])), w)
    end.
Proof.
  intros Hd. unfold os_makedirs. rewrite rev_app_distr. cbn [rev app].
  cbn [makedirs_rev]. rewrite rev_involutive.
  change (rev (s :: rev d)) with (rev (rev d) ++ [s]). rewrite rev_involutive.
  rewrite (bind_run _ _ _ _ _ (path_exists_run _ _)), Hd.
  unfold bind at 1, ret at 1. unfold try_except, os_mkdir.
  unfold bind at 1, get_fs at 1. unfold bind at 1, lift, check_parent.
  rewrite dirname_snoc, Hd.
  destruct (fs_lookup (fs w) (d ++ [s])) as [[data|]|] eqn:Hs.
  - unfold raise. rewrite (bind_run _ _ _ _ _ (is_dir_run _ _)), Hs. reflexivity.
  - unfold raise. rewrite (bind_run _ _ _ _ _ (is_dir_run _ _)), Hs. reflexivity.
  - reflexivity.
Qed.

Lemma os_makedirs_child (d : Path) (s : pystr) w :
  fs_lookup (fs w) d = Some Dir ->
  fs_lookup (fs w) (d ++ [s]) = None \/ fs_lookup (fs w) (d ++ [s]) = Some Dir ->
  exists w1,
    os_makedirs (d ++ [s]) w = (Ok tt, w1)
    /\ fs_lookup (fs w1) (d ++ [s]) = Some Dir
    /\ same_outside_fs w w1
    /\ forall q, q <> d ++ [s] -> fs_lookup (fs w1) q = fs_lookup (fs w) q.
Proof.
  intros Hd Hs. rewrite (os_makedirs_child_run _ _ _ Hd).
  destruct Hs as [Hs|Hs]; rewrite Hs.
  - eexists. split; [reflexivity|]. cbn [fs].
    split; [apply fs_lookup_set_eq, snoc_not_nil|].
    split; [repeat split|].
    intros q Hq. apply fs_lookup_set_ne. congruence.
  - exists w. split; [reflexivity|]. split; [exact Hs|].
    split; [apply same_outside_fs_refl | reflexivity].
Qed.

Section adding.
Context `{Runtime}.

Lemma add_item_run
    (self : DataStore) (name text format : pystr) (w : World)
    (encoded bs : bytes) :
  let item_uuid := next_uuid w in
  let shard := path self ++ [py "pages"; firstn 1 item_uuid] in
  encrypted self = false ->
  utf8_encode text = Ok encoded ->
  plist_dumps (metadata_record item_uuid name format (sha1_hexdigest encoded))
  = Ok bs ->
  fs_lookup (fs w) (path self ++ [py "pages"]) = Some Dir ->
  fs_lookup (fs w) shard = None \/ fs_lookup (fs w) shard = Some Dir ->
  fs_lookup (fs w) (shard ++ [item_uuid ++ py ".plist"]) <> Some Dir ->
  fs_lookup (fs w) (shard ++ [item_uuid]) <> Some Dir ->
  exists self' w',
    add_item self name text format w = (Ok (item_uuid, self'), w')
    /\ fs_lookup (fs w') shard = Some Dir
    /\ forall q, q <> shard -> q <> shard ++ [item_uuid ++ py ".plist"] ->
                 q <> shard ++ [item_uuid] ->
                 fs_lookup (fs w') q = fs_lookup (fs w) q.
Proof.
  intros item_uuid shard Hplain Henc Hdump Hpages Hshard Hrecord Hcontent.
  destruct (uuid4_run w) as (u & Hu).
  assert (Hid : item_uuid = uuid_str u).
  { unfold item_uuid, next_uuid. rewrite Hu. reflexivity. }
  destruct (uuid_str_first u) as (tl & Hfirst).
  set (c := hex_digit ((u / 16 ^ 31) mod 16)) in *.
  assert (Hshard_eq : shard = (path self ++ [py "pages"]) ++ [[c]]).
  { unfold shard. rewrite Hid, Hfirst. apply snoc2_snoc. }
  set (w0 := mkWorld (fs w) (entropy w) (S (cursor w)) (stdout w)) in *.
  assert (Hne1 : forall e : pystr, shard ++ [e] <> shard).
  { intros e Heq. apply (f_equal (@length _)) in Heq.
    rewrite length_app in Heq. simpl in Heq. lia. }
  assert (Hne0 : forall e : pystr, shard ++ [e] <> path self ++ [py "pages"]).
  { intros e Heq. apply (f_equal (@length _)) in Heq. rewrite Hshard_eq in Heq.
    rewrite !length_app in Heq. simpl in Heq. lia. }
  assert (Hne2 : shard <> path self ++ [py "pages"]).
  { intros Heq. apply (f_equal (@length _)) in Heq. rewrite Hshard_eq in Heq.
    rewrite !length_app in Heq. simpl in Heq. lia. }
  destruct (os_makedirs_child (path self ++ [py "pages"]) [c] w0 Hpages)
    as (w1 & Hmk1 & Hdir1 & _ & Hkeep1).
  { rewrite <- Hshard_eq. exact Hshard. }
  rewrite <- Hshard_eq in Hmk1, Hdir1, Hkeep1.
  pose proof (write_file_run (shard ++ [item_uuid ++ py ".plist"]) bs w1
                (snoc_not_nil _ _)) as Hw1.
  rewrite dirname_snoc in Hw1. specialize (Hw1 Hdir1).
  rewrite Hkeep1 in Hw1 by apply Hne1. specialize (Hw1 Hrecord).
  set (w2 := mkWorld (dict_set (shard ++ [item_uuid ++ py ".plist"]) (File bs) (fs w1))
               (entropy w1) (cursor w1) (stdout w1)) in *.
  assert (Hdir2 : fs_lookup (fs w2) shard = Some Dir).
  { cbn [w2 fs]. rewrite fs_lookup_set_ne by apply Hne1. exact Hdir1. }
  assert (Hpages2 : fs_lookup (fs w2) (path self ++ [py "pages"]) = Some Dir).
  { cbn [w2 fs]. rewrite fs_lookup_set_ne by apply Hne0.
    rewrite Hkeep1 by (apply not_eq_sym, Hne2). exact Hpages. }
  assert (Hmk2 : os_makedirs shard w2 = (Ok tt, w2)).
  { rewrite Hshard_eq, (os_makedirs_child_run _ _ _ Hpages2), <- Hshard_eq, Hdir2.
    reflexivity. }
  pose proof (write_file_run (shard ++ [item_uuid]) encoded w2
                (snoc_not_nil _ _)) as Hw2.
  rewrite dirname_snoc in Hw2. specialize (Hw2 Hdir2).
  assert (Hcontent2 : fs_lookup (fs w2) (shard ++ [item_uuid]) <> Some Dir).
  { cbn [w2 fs]. rewrite fs_lookup_set_ne.
    - rewrite Hkeep1 by apply Hne1. exact Hcontent.
    - intros Heq. apply app_inv_head in Heq.
      assert (Hl : item_uuid ++ py ".plist" = item_uuid) by congruence.
      exact (app_plist_ne _ Hl). }
  specialize (Hw2 Hcontent2).
  eexists _, (mkWorld (dict_set (shard ++ [item_uuid]) (File encoded) (fs w2))
                (entropy w2) (cursor w2) (stdout w2)).
  split; [|split].
  2: { cbn [fs]. rewrite fs_lookup_set_ne by apply Hne1. exact Hdir2. }
  2: { intros q Hq0 Hq1 Hq2. cbn [fs w2].
       rewrite !fs_lookup_set_ne by congruence. apply Hkeep1, Hq0. }
  unfold add_item. rewrite (bind_run _ _ _ _ _ Hu). cbv zeta.
  unfold sha1_hash. rewrite Henc, bind_lift.
  rewrite Hfirst. cbn [first_char]. rewrite bind_lift. rewrite <- Hfirst, <- Hid.
  destruct (uuid_paths (path self) u)
    as (c' & rest' & Hid' & _ & _ & _ & Hip & Hpp).
  rewrite Hfirst in Hid'. injection Hid' as Hc' _. subst c'.
  rewrite <- Hid in Hip, Hpp. rewrite Hip, Hpp.
  rewrite !snoc3_snoc. fold c. rewrite (snoc2_snoc (path self)), <- Hshard_eq.
  erewrite bind_run;
    [|unfold save_plist; rewrite dirname_snoc, (bind_run _ _ _ _ _ Hmk1), Hplain;
      unfold dump_plist; fold (metadata_record item_uuid name format (sha1_hexdigest encoded));
      rewrite Hdump; exact Hw1].
  rewrite bind_lift.
  erewrite bind_run;
    [|unfold save_file; rewrite dirname_snoc, (bind_run _ _ _ _ _ Hmk2), Hplain;
      exact Hw2].
  reflexivity.
Qed.

(** X12: [add_item] returns the next identifier of the random source
    whenever the store is not encrypted, the text can be encoded, the
    codec writes the record, [pages] is a directory, the shard of the
    identifier is a directory or absent, and neither of the two paths
    of the item is a directory. *)
Theorem add_item_succeeds
    (self : DataStore) (name text format : pystr) (w : World)
    (encoded bs : bytes) :
  let item_uuid := next_uuid w in
  let shard := path self ++ [py "pages"; firstn 1 item_uuid] in
  encrypted self = false ->
  utf8_encode text = Ok encoded ->
  plist_dumps (metadata_record item_uuid name format (sha1_hexdigest encoded))
  = Ok bs ->
  fs_lookup (fs w) (path self ++ [py "pages"]) = Some Dir ->
  fs_lookup (fs w) shard = None \/ fs_lookup (fs w) shard = Some Dir ->
  fs_lookup (fs w) (shard ++ [item_uuid ++ py ".plist"]) <> Some Dir ->
  fs_lookup (fs w) (shard ++ [item_uuid]) <> Some Dir ->
  exists self' w',
    add_item self name text format w = (Ok (item_uuid, self'), w').
Proof.
  intros item_uuid shard Hplain Henc Hdump Hpages Hshard Hrecord Hcontent.
  destruct (add_item_run self name text format w encoded bs
              Hplain Henc Hdump Hpages Hshard Hrecord Hcontent)
    as (self' & w' & Hadd & _).
  exists self', w'. exact Hadd.
Qed.
End adding.

(** ** What [add_item] leaves alone, and reading the item back *)

Section adding_more.
Context `{Runtime}.

(** The two writes of a successful [add_item]. *)
Lemma add_item_steps self name text format w item_uuid self' w' :
  add_item self name text format w = (Ok (item_uuid, self'), w') ->
  exists c rest encoded w0 w1,
    let shard := path self ++ [py "pages"; [c]] in
    let pl := metadata_record item_uuid name format (sha1_hexdigest encoded) in
    item_uuid = c :: rest
    /\ utf8_encode text = Ok encoded
    /\ fs w0 = fs w /\ stdout w0 = stdout w
    /\ save_plist self pl (shard ++ [item_uuid ++ py ".plist"]) w0 = (Ok tt, w1)
    /\ save_file self encoded (shard ++ [item_uuid]) w1 = (Ok tt, w')
    /\ self' = set_item_plists
                 (set_items self (dict_set item_uuid text (items self)))
                 (dict_set item_uuid pl (item_plists self)).
Proof.
  unfold add_item. intros Hrun.
  destruct (uuid4_run w) as (u & Hu). rewrite (bind_run _ _ _ _ _ Hu) in Hrun.
  cbv zeta in Hrun.
  run_inv Hrun as h wa Hh. apply lift_ok in Hh. destruct Hh as [Hhash ->].
  run_inv Hrun as c wb Hc. apply lift_ok in Hc. destruct Hc as [Hc ->].
  run_inv Hrun as u1 w1 Hplist. destruct u1.
  run_inv Hrun as encoded wc Henc. apply lift_ok in Henc. destruct Henc as [Henc ->].
  run_inv Hrun as u2 w2 Hfile. destruct u2.
  apply ret_ok in Hrun. destruct Hrun as [Hres ->]. injection Hres as -> ->.
  destruct (uuid_paths (path self) u)
    as (c0 & rest & Hid & _ & _ & _ & Hip & Hpp).
  rewrite Hid in Hc. simpl in Hc. injection Hc as <-.
  rewrite Hpp in Hplist. rewrite Hip in Hfile.
  unfold sha1_hash in Hhash. rewrite Henc in Hhash. injection Hhash as <-.
  rewrite !snoc3_snoc in Hplist, Hfile.
  exists c0, rest, encoded,
    (mkWorld (fs w) (entropy w) (S (cursor w)) (stdout w)), w1. cbv zeta.
  split; [exact Hid|]. split; [exact Henc|].
  split; [reflexivity|]. split; [reflexivity|].
  split; [exact Hplist|]. split; [exact Hfile | reflexivity].
Qed.

(** On disk a successful [add_item] touches its two files and the
    missing ancestors of the shard. *)
Lemma add_item_disk_frame self name text format w item_uuid self' w' :
  add_item self name text format w = (Ok (item_uuid, self'), w') ->
  let shard := path self ++ [py "pages"; firstn 1 item_uuid] in
  stdout w' = stdout w
  /\ forall q,
       q <> path self ++ [py "pages"; firstn 1 item_uuid; item_uuid ++ py ".plist"] ->
       q <> path self ++ [py "pages"; firstn 1 item_uuid; item_uuid] ->
       fs_lookup (fs w') q = fs_lookup (fs w) q
       \/ (fs_lookup (fs w) q = None /\ fs_lookup (fs w') q = Some Dir
           /\ exists k, q = firstn k shard).
Proof.
  intros Hadd shard. apply add_item_steps in Hadd.
  destruct Hadd as (c & rest & encoded & w0 & w1 & Hid & Henc & Hfs0 & Hout0
                    & Hplist & Hfile & ->).
  cbv zeta in Hplist, Hfile.
  assert (Hshard : shard = path self ++ [py "pages"; [c]]).
  { unfold shard. rewrite Hid. reflexivity. }
  rewrite <- Hshard in Hplist, Hfile.
  apply save_plist_effect in Hplist.
  destruct Hplist as (bs & _ & _ & _ & (_ & _ & Hout1) & Hrest1).
  unfold save_file in Hfile. run_inv Hfile as u2 w2 Hmk.
  destruct (encrypted self); [discriminate Hfile|].
  destruct (makedirs_write_effect _ _ _ _ _ _ Hmk Hfile)
    as (_ & _ & (_ & _ & Hout2) & Hrest2).
  rewrite dirname_snoc in Hrest1, Hrest2.
  split; [congruence|].
  intros q Hq1 Hq2. rewrite snoc3_snoc in Hq1, Hq2. fold shard in Hq1, Hq2.
  rewrite <- Hfs0.
  destruct (Hrest2 q Hq2) as [Heq2|(Hnone2 & Hdir2 & Hname2)];
    destruct (Hrest1 q Hq1) as [Heq1|(Hnone1 & Hdir1 & Hname1)].
  - left. congruence.
  - right. split; [exact Hnone1|]. split; [congruence | exact Hname1].
  - right. split; [congruence|]. split; [exact Hdir2 | exact Hname2].
  - congruence.
Qed.

(** X13: a successful [add_item] changes nothing but the new item: in
    memory every other item and record, the path, the store identity
    and the properties (so also [expectedPageCount]) are as before and
    the new text is kept under the new identifier; on disk every path
    other than the two files of the item is as it was, but for missing
    ancestors of the shard, which are now directories; nothing is
    printed. *)
Theorem add_item_leaves_the_rest
    (self : DataStore) (name text format : pystr) (w : World)
    (item_uuid : pystr) (self' : DataStore) (w' : World) :
  add_item self name text format w = (Ok (item_uuid, self'), w') ->
  let shard := path self ++ [py "pages"; firstn 1 item_uuid] in
  (forall k, k <> item_uuid ->
     item self' k = item self k /\ item_plist self' k = item_plist self k)
  /\ item self' item_uuid = Ok text
  /\ path self' = path self
  /\ storeinfo self' = storeinfo self
  /\ properties self' = properties self
  /\ stdout w' = stdout w
  /\ forall q,
       q <> path self ++ [py "pages"; firstn 1 item_uuid; item_uuid ++ py ".plist"] ->
       q <> path self ++ [py "pages"; firstn 1 item_uuid; item_uuid] ->
       fs_lookup (fs w') q = fs_lookup (fs w) q
       \/ (fs_lookup (fs w) q = None /\ fs_lookup (fs w') q = Some Dir
           /\ exists k, q = firstn k shard).
Proof.
  intros Hadd shard.
  destruct (add_item_disk_frame _ _ _ _ _ _ _ _ Hadd) as [Hout Hdisk].
  apply add_item_ok in Hadd.
  destruct Hadd as (u & c & rest & encoded & bs & _ & _ & _ & _ & _ & _ & -> & _).
  split.
  { intros k Hk. unfold item, item_plist.
    cbn [items item_plists set_items set_item_plists].
    rewrite !dict_get_set_ne by congruence. split; reflexivity. }
  split.
  { unfold item. cbn [items set_items set_item_plists].
    rewrite dict_get_set_eq. reflexivity. }
  split; [reflexivity|]. split; [reflexivity|]. split; [reflexivity|].
  split; [exact Hout | exact Hdisk].
Qed.

(** X14: what [add_item] wrote is what the item loop of [open] reads:
    for a type tag that is not an alias and a text whose encoding is
    not taken for an RTFD container, loading the new item from the
    disk gives back the text that was added. *)
Theorem added_item_is_read_back
    (self : DataStore) (name text format : pystr) (w : World)
    (item_uuid : pystr) (self' : DataStore) (w' : World) (encoded : bytes) :
  add_item self name text format w = (Ok (item_uuid, self'), w') ->
  utf8_encode text = Ok encoded ->
  routed_to_decoder encoded = false ->
  is_alias (PStr format) = false ->
  forall tbl,
    load_item self' item_uuid tbl w' = (Ok (dict_set item_uuid text tbl), w').
Proof.
  intros Hadd Henc Hrouted Halias tbl. apply add_item_ok in Hadd.
  destruct Hadd as (u & c & rest & encoded' & bs & Hu & Hid & Henc' & _ & _
                    & Hcontent & -> & Hplain).
  rewrite Henc in Henc'. injection Henc' as <-.
  unfold is_alias in Halias. apply orb_false_iff in Halias.
  destruct Halias as [Hpage Hfile].
  unfold load_item, item_plist. cbn [item_plists set_item_plists].
  rewrite dict_get_set_eq, bind_lift.
  change (getitem (metadata_record item_uuid name format (sha1_hexdigest encoded))
            (py "uti")) with (@Ok pvalue (PStr format)).
  rewrite bind_lift, Hpage, bind_lift, Hfile.
  rewrite (item_path_uuid _ _ _ _ _ Hu Hid).
  cbn [path set_item_plists set_items]. rewrite bind_lift.
  rewrite (bind_run _ _ _ _ _ (path_exists_run _ _)), Hcontent. cbn [negb].
  erewrite bind_run;
    [|unfold load_file; cbn [encrypted set_item_plists set_items]; rewrite Hplain;
      rewrite (bind_run _ _ _ _ _ (read_file_run _ _ _ Hcontent));
      fold (routed_to_decoder encoded); rewrite Hrouted; reflexivity].
  cbn [decode_method]. rewrite (utf8_round_trip _ _ Henc), bind_lift.
  reflexivity.
Qed.
End adding_more.

Section rtfd_text.
Context `{Runtime}.

(** X15: a text whose encoding has more than four bytes and starts with
    [rtfd] is never read back: [add_item] writes the bytes as they are,
    but the loader sends them to the container decoder, and whenever
    loading the item succeeds the text loaded differs from the text
    added. *)
Theorem rtfd_prefixed_text_is_not_read_back
    (self : DataStore) (name text format : pystr) (w : World)
    (item_uuid : pystr) (self' : DataStore) (w' : World) (encoded : bytes) :
  add_item self name text format w = (Ok (item_uuid, self'), w') ->
  utf8_encode text = Ok encoded ->
  routed_to_decoder encoded = true ->
  is_alias (PStr format) = false ->
  forall tbl tbl' w'',
    load_item self' item_uuid tbl w' = (Ok tbl', w'') ->
    exists text', tbl' = dict_set item_uuid text' tbl /\ text' <> text.
Proof.
  intros Hadd Henc Hrouted Halias tbl tbl' w'' Hload.
  apply add_item_ok in Hadd.
  destruct Hadd as (u & c & rest & encoded' & bs & Hu & Hid & Henc' & _ & _
                    & Hcontent & -> & Hplain).
  rewrite Henc in Henc'. injection Henc' as <-.
  apply load_item_ok in Hload.
  destruct Hload as (_ & pl & uti & Hpl & Huti & Hres).
  cbn [item_plists set_item_plists] in Hpl. rewrite dict_get_set_eq in Hpl.
  injection Hpl as <-.
  change (getitem (metadata_record item_uuid name format (sha1_hexdigest encoded))
            (py "uti")) with (@Ok pvalue (PStr format)) in Huti.
  injection Huti as <-. rewrite Halias in Hres.
  destruct Hres as (text' & -> & ip & content & Hip & Hfile & Hloaded).
  exists text'. split; [reflexivity|]. intros ->.
  rewrite (item_path_uuid _ _ _ _ _ Hu Hid) in Hip.
  cbn [path set_item_plists set_items] in Hip. injection Hip as <-.
  rewrite Hcontent in Hfile. injection Hfile as <-.
  rewrite Hrouted in Hloaded. destruct Hloaded as (extracted & Hex & Hdec).
  destruct (extract_rtf_content_from_rtfd _ w') as [r wx] eqn:Hrun.
  cbn [fst] in Hex. subst r.
  pose proof (extracted_is_shorter _ _ _ _ _ Hcontent Hrun) as Hshort.
  pose proof (utf8_round_trip _ _ Henc) as Hback.
  rewrite (utf8_decode_inj _ _ _ Hdec Hback) in Hshort. lia.
Qed.
End rtfd_text.

(** ** What [validate] reports *)

Lemma printed_printed w a b : printed (printed w a) b = printed w (a ++ b).
Proof. unfold printed. simpl. rewrite app_assoc. reflexivity. Qed.

Lemma validate_unfold self w :
  validate self w = for_each (item_uuids self) (validate_body self) true w.
Proof. reflexivity. Qed.

Lemma validate_body_run self k valid w pl v :
  item_plist self k = Ok pl -> getitem pl (py "uuid") = Ok v ->
  validate_body self k valid w
  = if eq_str v k then (Ok valid, w)
    else (Ok false, printed w [py "[WARN] UUID mismatch for " ++ k]).
Proof.
  intros Hpl Hv. unfold validate_body.
  rewrite Hpl, bind_lift, Hv, bind_lift.
  destruct (eq_str v k); reflexivity.
Qed.

Lemma validate_loop self l :
  forall valid w,
    (forall k, In k l -> exists pl v,
        item_plist self k = Ok pl /\ getitem pl (py "uuid") = Ok v) ->
    for_each l (validate_body self) valid w
    = (Ok (valid && forallb (uuid_matches self) l),
       printed w (uuid_warnings self l)).
Proof.
  induction l as [|k l IH]; intros valid w Hall.
  - cbn [for_each forallb]. unfold uuid_warnings. cbn [List.filter map].
    rewrite andb_true_r, printed_nil. reflexivity.
  - destruct (Hall k (or_introl eq_refl)) as (pl & v & Hpl & Hv).
    assert (Hrest : forall k', In k' l -> exists pl v,
               item_plist self k' = Ok pl /\ getitem pl (py "uuid") = Ok v)
      by (intros k' Hin; apply Hall; right; exact Hin).
    cbn [for_each forallb]. unfold uuid_warnings, uuid_matches at 1 3.
    cbn [List.filter]. rewrite Hpl, Hv.
    pose proof (validate_body_run self k valid w pl v Hpl Hv) as Hstep.
    destruct (eq_str v k); cbn [negb map].
    + rewrite (bind_run _ _ _ _ _ Hstep), (IH _ _ Hrest). reflexivity.
    + rewrite (bind_run _ _ _ _ _ Hstep), (IH _ _ Hrest).
      rewrite andb_false_r. cbn [andb]. rewrite printed_printed. reflexivity.
Qed.

Lemma validate_loop_returns self l :
  forall valid w b w',
    for_each l (validate_body self) valid w = (Ok b, w') ->
    forall k, In k l -> exists pl v,
      item_plist self k = Ok pl /\ getitem pl (py "uuid") = Ok v.
Proof.
  induction l as [|k l IH]; intros valid w b w' Hrun k' Hin; [destruct Hin|].
  cbn [for_each] in Hrun. run_inv Hrun as v1 w1 Hstep.
  destruct Hin as [<-|Hin]; [|eapply IH; [exact Hrun | exact Hin]].
  unfold validate_body in Hstep.
  run_inv Hstep as pl w2 Hpl. apply lift_ok in Hpl. destruct Hpl as [Hpl ->].
  run_inv Hstep as v w3 Hv. apply lift_ok in Hv. destruct Hv as [Hv ->].
  exists pl, v. split; assumption.
Qed.

Lemma records_have_uuid_keys self :
  records_have_uuid self <->
  forall k, In k (item_uuids self) -> exists pl v,
    item_plist self k = Ok pl /\ getitem pl (py "uuid") = Ok v.
Proof.
  unfold records_have_uuid, item_uuids, item_plist. split.
  - intros Hall k Hin.
    destruct (dict_get k (item_plists self)) as [pl|] eqn:Hget.
    + destruct (Hall k pl Hget) as (v & Hv). exists pl, v. auto.
    + apply dict_get_none_keys in Hget. contradiction.
  - intros Hall k pl Hget.
    destruct (Hall k (dict_get_some_keys _ _ _ Hget)) as (pl' & v & Hpl & Hv).
    rewrite Hget in Hpl. injection Hpl as <-. exists v. exact Hv.
Qed.

Lemma validate_needs_uuid_fields (self : DataStore) (w : World) :
  (exists valid w', validate self w = (Ok valid, w')) -> records_have_uuid self.
Proof.
  intros (valid & w' & Hrun). apply records_have_uuid_keys.
  eapply validate_loop_returns. exact Hrun.
Qed.

(** X16: when every record has a [uuid] field, [validate] returns
    whether every record's [uuid] is the identifier it is stored under,
    and has printed one warning for each record for which it is not, in
    the order of the table, and nothing else. *)
Theorem validate_reports_every_mismatch (self : DataStore) (w : World) :
  records_have_uuid self ->
  validate self w
  = (Ok (forallb (uuid_matches self) (item_uuids self)),
     printed w (uuid_warnings self (item_uuids self))).
Proof.
  intros Hall.
  exact (validate_loop self (item_uuids self) true w
           (proj1 (records_have_uuid_keys self) Hall)).
Qed.

(** X17: [validate] returns, with either answer, exactly when every
    record has a [uuid] field; a record without it makes [validate]
    raise. *)
Theorem validate_returns_iff_records_have_uuid (self : DataStore) (w : World) :
  (exists valid w', validate self w = (Ok valid, w')) <-> records_have_uuid self.
Proof.
  split.
  - apply validate_needs_uuid_fields.
  - intros Hall. eexists _, _.
    exact (validate_loop self (item_uuids self) true w
             (proj1 (records_have_uuid_keys self) Hall)).
Qed.

Lemma uuid_warnings_none self l :
  forallb (uuid_matches self) l = true -> uuid_warnings self l = [].
Proof.
  unfold uuid_warnings. induction l as [|k l IH]; [reflexivity|].
  cbn [forallb List.filter]. intros Hall. apply andb_true_iff in Hall.
  destruct Hall as [Hk Hl]. rewrite Hk. cbn [negb]. apply IH, Hl.
Qed.

Section valid_after_add.
Context `{Runtime}.

(** X18: [add_item] keeps a valid store valid: if [validate] returned
    true for the store, it returns true, and prints nothing, for the
    store [add_item] returns. *)
Theorem add_item_keeps_the_store_valid
    (self : DataStore) (name text format : pystr) (w0 w0' w : World)
    (item_uuid : pystr) (self' : DataStore) (w' : World) :
  validate self w0 = (Ok true, w0') ->
  add_item self name text format w = (Ok (item_uuid, self'), w') ->
  forall w1, validate self' w1 = (Ok true, w1).
Proof.
  intros Hvalid Hadd w1.
  assert (Hhave : records_have_uuid self).
  { apply validate_needs_uuid_fields with (w := w0). eauto. }
  rewrite validate_unfold in Hvalid |- *.
  rewrite (validate_loop self _ true w0 (proj1 (records_have_uuid_keys self) Hhave))
    in Hvalid.
  injection Hvalid as Hall _.
  apply add_item_ok in Hadd.
  destruct Hadd as (u & c & rest & encoded & bs & _ & _ & _ & _ & _ & _ & -> & _).
  set (pl := metadata_record item_uuid name format (sha1_hexdigest encoded)).
  set (self' := set_item_plists _ _).
  assert (Hmatch : forall k, In k (item_uuids self') -> uuid_matches self' k = true).
  { intros k Hin. unfold uuid_matches, item_plist, self'.
    cbn [item_plists set_item_plists set_items].
    destruct (decide (item_uuid = k)) as [<-|Hne].
    - rewrite dict_get_set_eq.
      change (getitem pl (py "uuid")) with (@Ok pvalue (PStr item_uuid)).
      apply bool_decide_eq_true_2. reflexivity.
    - rewrite dict_get_set_ne by exact Hne.
      unfold item_uuids, self' in Hin. cbn [item_plists set_item_plists] in Hin.
      apply dict_keys_set_in in Hin. destruct Hin as [->|Hin]; [contradiction|].
      rewrite forallb_forall in Hall. exact (Hall k Hin). }
  assert (Hhave' : records_have_uuid self').
  { intros k pl' Hget. pose proof (dict_get_some_keys _ _ _ Hget) as Hin.
    specialize (Hmatch k Hin). unfold uuid_matches, item_plist in Hmatch.
    rewrite Hget in Hmatch.
    destruct (getitem pl' (py "uuid")) as [v|e]; [eauto | discriminate]. }
  rewrite (validate_loop self' _ true w1
             (proj1 (records_have_uuid_keys self') Hhave')).
  assert (Hall' : forallb (uuid_matches self') (item_uuids self') = true)
    by (apply forallb_forall, Hmatch).
  rewrite Hall', (uuid_warnings_none _ _ Hall'), printed_nil. reflexivity.
Qed.
End valid_after_add.

(** ** The record paths [open] collects *)

Lemma fs_children_lookup f (d : Path) (n : pystr) :
  In n (fs_children f d) -> exists v, dict_get (d ++ [n]) f = Some v.
Proof.
  induction f as [|[k v] f IH]; [intros []|].
  unfold fs_children. cbn [omap list_omap fst]. fold (fs_children f d).
  intros Hin. cbn [dict_get].
  destruct (decide (d ++ [n] = k)) as [Heq|Hne]; [exists v; reflexivity|].
  apply IH. destruct (split_last k) as [[d' n']|] eqn:Hsplit; [|exact Hin].
  destruct (decide (d' = d)) as [->|Hd]; [|exact Hin].
  destruct Hin as [->|Hin]; [|exact Hin].
  apply split_last_some in Hsplit. congruence.
Qed.

Lemma fs_children_iff f (d : Path) (n : pystr) :
  In n (fs_children f d) <-> exists v, fs_lookup f (d ++ [n]) = Some v.
Proof.
  rewrite fs_lookup_nonempty by apply snoc_not_nil. split.
  - apply fs_children_lookup.
  - intros (v & Hv). eapply fs_children_in, Hv.
Qed.

Lemma plists_in_iff f dir subdirs :
  forall acc q,
    In q (plists_in f dir subdirs acc)
    <-> In q acc
        \/ exists s e, In s subdirs
             /\ fs_lookup f (dir ++ [s]) = Some Dir
             /\ In e (fs_children f (dir ++ [s]))
             /\ endswith e (py ".plist") = true
             /\ q = dir ++ [s; e].
Proof.
  induction subdirs as [|s subdirs IH]; intros acc q.
  - simpl. split; [auto|]. intros [Hin|(s & e & [] & _)]. exact Hin.
  - rewrite plists_in_cons, IH. split.
    + intros [Hin|(s' & e & Hs' & Hrest)].
      * destruct (fs_lookup f (dir ++ [s])) as [[data|]|] eqn:Hs; auto.
        apply in_app_or in Hin. destruct Hin as [Hin|Hin]; [auto|].
        apply in_map_iff in Hin. destruct Hin as (e & <- & Hin).
        apply list_elem_of_In, list_elem_of_filter in Hin.
        destruct Hin as [Hext Hin]. apply list_elem_of_In in Hin.
        right. exists s, e. rewrite <- app_assoc. simpl. auto 6.
      * right. exists s', e. simpl. tauto.
    + intros [Hin|(s' & e & [<-|Hs'] & Hdir & He & Hext & ->)].
      * left. destruct (fs_lookup f (dir ++ [s])) as [[data|]|]; auto.
        apply in_or_app. auto.
      * left. rewrite Hdir. apply in_or_app. right.
        replace (dir ++ [s; e]) with ((dir ++ [s]) ++ [e])
          by (rewrite <- app_assoc; reflexivity).
        apply (in_map (fun e0 : pystr => (dir ++ [s]) ++ [e0])).
        apply list_elem_of_In, list_elem_of_filter.
        split; [exact Hext | apply list_elem_of_In, He].
      * right. exists s', e. auto 6.
Qed.

(** The paths collected below [dir], in terms of what is on disk. *)
Lemma plists_in_members f (dir : Path) q :
  In q (plists_in f dir (fs_children f dir) [])
  <-> exists s e n,
        q = dir ++ [s; e]
        /\ fs_lookup f (dir ++ [s]) = Some Dir
        /\ fs_lookup f q = Some n
        /\ endswith e (py ".plist") = true.
Proof.
  rewrite plists_in_iff. split.
  - intros [[]|(s & e & _ & Hs & He & Hext & ->)].
    apply fs_children_iff in He. destruct He as (n & Hn).
    rewrite <- app_assoc in Hn. exists s, e, n. auto.
  - intros (s & e & n & -> & Hs & Hn & Hext). right. exists s, e.
    split; [apply fs_children_iff; eauto|]. split; [exact Hs|].
    split; [|auto]. apply fs_children_iff. exists n.
    rewrite <- app_assoc. exact Hn.
Qed.

Section enumerating.
Context `{Runtime}.

(** X19: for a directory [dir], [get_plists] returns exactly the paths
    [dir/s/e] where [dir/s] is a directory and [e], an entry of it of
    any kind, has a name that ends in [.plist]; entries of [dir] itself
    and entries further down are not returned, and nothing is
    changed. *)
Theorem get_plists_collects_two_levels (dir : Path) (w : World) :
  fs_lookup (fs w) dir = Some Dir ->
  exists plists,
    get_plists dir w = (Ok plists, w)
    /\ forall q,
         In q plists
         <-> exists s e n,
               q = dir ++ [s; e]
               /\ fs_lookup (fs w) (dir ++ [s]) = Some Dir
               /\ fs_lookup (fs w) q = Some n
               /\ endswith e (py ".plist") = true.
Proof.
  intros Hdir. exists (plists_in (fs w) dir (fs_children (fs w) dir) []).
  split.
  - apply get_plists_run, Hdir.
  - intros q. apply plists_in_members.
Qed.
End enumerating.

Lemma get_plists_witness :
  exists plists,
    get_plists (Sample.root ++ [py "pages"]) Sample.two_page_store
    = (Ok plists, Sample.two_page_store)
    /\ (In (Sample.root ++ [py "pages"; py "a"; py "a1.plist"]) plists)
    /\ ~ In (Sample.root ++ [py "pages"; py "a"; py "a1"]) plists.
Proof.
  destruct (get_plists_collects_two_levels (Sample.root ++ [py "pages"])
              Sample.two_page_store) as (plists & Hrun & Hin).
  - vm_compute. reflexivity.
  - exists plists. split; [exact Hrun|]. split.
    + apply Hin. eexists (py "a"), (py "a1.plist"), _.
      split; [rewrite <- app_assoc; reflexivity|].
      repeat split; vm_compute; reflexivity.
    + intros Hq. apply Hin in Hq. destruct Hq as (s & e & n & Heq & _ & _ & Hext).
      rewrite <- app_assoc in Heq. apply app_inv_head in Heq.
      injection Heq as _ <-.
      vm_compute in Hext. discriminate Hext.
Defined.

Lemma rfind_dot_app (a b : pystr) :
  rfind_dot (a ++ b)
  = match rfind_dot b with
    | Some i => Some (length a + i)%nat
    | None => rfind_dot a
    end.
Proof.
  induction a as [|c a IH]; cbn [app rfind_dot length].
  - destruct (rfind_dot b); reflexivity.
  - rewrite IH. destruct (rfind_dot b); reflexivity.
Qed.

Lemma stem_plist (d : Path) (u : pystr) :
  u <> [] -> stem (d ++ [u ++ py ".plist"]) = u.
Proof.
  intros Hu. unfold stem. rewrite last_last, rfind_dot_app.
  change (rfind_dot (py ".plist")) with (Some 0%nat). cbv iota beta.
  rewrite Nat.add_0_r, length_app. change (length (py ".plist")) with 6%nat.
  destruct u as [|c u]; [contradiction|]. cbn [length].
  replace (0 <? S (length u))%nat with true by (symmetry; apply Nat.ltb_lt; lia).
  replace (S (length u) <? S (length u) + 6 - 1)%nat with true
    by (symmetry; apply Nat.ltb_lt; lia).
  cbn [andb]. rewrite firstn_app. change (S (length u)) with (length (c :: u)).
  rewrite firstn_all, Nat.sub_diag, firstn_O, app_nil_r. reflexivity.
Qed.

Lemma endswith_app (u suffix : pystr) : endswith (u ++ suffix) suffix = true.
Proof.
  unfold endswith. apply bool_decide_eq_true_2.
  rewrite length_app, Nat.add_sub, skipn_app, Nat.sub_diag, skipn_all.
  reflexivity.
Qed.

Lemma stem_slashless (q : Path) :
  ~ In 47 (List.last q []) -> ~ In 47 (stem q).
Proof.
  intros Hq. unfold stem. destruct (rfind_dot _) as [i|]; [|exact Hq].
  destruct (_ && _); [|exact Hq].
  intros Hin. apply Hq. rewrite <- (firstn_skipn i (List.last q [])).
  apply in_or_app. left. exact Hin.
Qed.

(** X20: for an identifier that does not start with [.] and has no [/]
    in it, the record path is [pages/c/e] with [c] the first character
    and a name [e] ending in [.plist], so that [get_plists] collects it,
    and its stem, the key under which [open] registers the record, is
    the identifier, also when the identifier contains dots further
    on. *)
Theorem record_path_stem_is_identifier
    (self : DataStore) (c : N) (rest : pystr) :
  c <> 46 -> c <> 47 -> ~ In 47 rest ->
  exists e,
    item_plist_path self (c :: rest) = Ok (path self ++ [py "pages"; [c]; e])
    /\ endswith e (py ".plist") = true
    /\ stem (path self ++ [py "pages"; [c]; e]) = c :: rest.
Proof.
  intros Hdot Hslash Hrest.
  exists ((c :: rest) ++ py ".plist").
  split; [apply item_plist_path_plain; assumption|].
  split; [apply endswith_app|].
  rewrite snoc3_snoc. apply stem_plist. discriminate.
Qed.

Lemma record_path_stem_witness :
  exists e,
    item_plist_path (new_store Sample.root None false) (py "a1.b2")
    = Ok (Sample.root ++ [py "pages"; py "a"; e])
    /\ endswith e (py ".plist") = true
    /\ stem (Sample.root ++ [py "pages"; py "a"; e]) = py "a1.b2".
Proof.
  apply (record_path_stem_is_identifier (new_store Sample.root None false)
           97 (py "1.b2")).
  - discriminate.
  - discriminate.
  - vm_compute. intuition discriminate.
Defined.

(** ** [open] reads and prints *)

Lemma only_prints_refl w : only_prints w w.
Proof. exists []. symmetry. apply printed_nil. Qed.

Lemma only_prints_trans w1 w2 w3 :
  only_prints w1 w2 -> only_prints w2 w3 -> only_prints w1 w3.
Proof.
  intros (o1 & ->) (o2 & ->). exists (o1 ++ o2). apply printed_printed.
Qed.

Lemma only_prints_eq w w' : w' = w -> only_prints w w'.
Proof. intros ->. apply only_prints_refl. Qed.

Lemma raise_run {A} (e : exn) w (r : result A) w' :
  raise e w = (r, w') -> w' = w.
Proof. unfold raise. intros [= _ <-]. reflexivity. Qed.

Lemma ret_run {A} (a : A) w (r : result A) w' : ret a w = (r, w') -> w' = w.
Proof. unfold ret. intros [= _ <-]. reflexivity. Qed.

Lemma bind_only_prints {A B} (c : M A) (k : A -> M B) w r w' :
  (forall r1 w1, c w = (r1, w1) -> only_prints w w1) ->
  (forall a w1, c w = (Ok a, w1) -> forall r2 w2, k a w1 = (r2, w2) -> only_prints w1 w2) ->
  bind c k w = (r, w') -> only_prints w w'.
Proof.
  intros Hc Hk Hrun. apply bind_any in Hrun.
  destruct Hrun as [(e & Hrun & _)|(a & w1 & Hrun & Hrest)].
  - eapply Hc, Hrun.
  - eapply only_prints_trans; [eapply Hc, Hrun | eapply Hk; eassumption].
Qed.

Lemma extract_only_prints p w r w' :
  extract_rtf_content_from_rtfd p w = (r, w') -> only_prints w w'.
Proof.
  destruct (extract_rtf_content_run p w w eq_refl) as (r0 & out & Hrun & _).
  rewrite Hrun. intros [= _ <-]. exists out. reflexivity.
Qed.

Section reading.
Context `{Runtime}.

Lemma load_file_only_prints ds p w r w' :
  load_file ds p w = (r, w') -> only_prints w w'.
Proof.
  unfold load_file, enc_ctx_call.
  destruct (encrypted ds); [intros Hr; apply only_prints_eq, (raise_run _ _ _ _ Hr)|].
  apply bind_only_prints.
  - intros r1 w1 Hr. apply only_prints_eq, (read_file_world _ _ _ _ Hr).
  - intros content w1 _ r2 w2.
    destruct (_ && _); [apply extract_only_prints|].
    intros Hr. apply only_prints_eq, (ret_run _ _ _ _ Hr).
Qed.

Lemma load_item_only_prints ds item_uuid tbl w r w' :
  load_item ds item_uuid tbl w = (r, w') -> only_prints w w'.
Proof.
  unfold load_item. rewrite bind_lift.
  destruct (item_plist ds item_uuid) as [pl|e];
    [|intros [= _ <-]; apply only_prints_refl].
  rewrite bind_lift.
  destruct (getitem pl (py "uti")) as [uti|e];
    [|intros [= _ <-]; apply only_prints_refl].
  destruct (eq_str uti (py "com.fm.page-alias"));
    [intros [= _ <-]; apply only_prints_refl|].
  rewrite bind_lift.
  destruct (eq_str uti (py "com.fm.file-alias"));
    [intros [= _ <-]; apply only_prints_refl|].
  rewrite bind_lift.
  destruct (item_path ds item_uuid) as [ip|e];
    [|intros [= _ <-]; apply only_prints_refl].
  rewrite (bind_run _ _ _ _ _ (path_exists_run _ _)).
  destruct (negb _); [intros [= _ <-]; apply only_prints_refl|].
  apply bind_only_prints.
  - intros r1 w1. apply load_file_only_prints.
  - intros content w1 _ r2 w2. rewrite bind_lift.
    destruct (decode_method content); intros [= _ <-]; apply only_prints_refl.
Qed.

Lemma load_item_plist_only_prints ds q tbl w r w' :
  load_item_plist ds q tbl w = (r, w') -> only_prints w w'.
Proof.
  unfold load_item_plist. intros Hb. apply try_except_any in Hb.
  destruct Hb as [Hb|(e & w1 & Hb & Hh)].
  - apply bind_any in Hb. destruct Hb as [(e & Hl & _)|(pl & w1 & Hl & Hb)].
    + apply only_prints_eq, (load_plist_world _ _ _ _ _ Hl).
    + apply load_plist_world in Hl. subst w1.
      apply only_prints_eq, (ret_run _ _ _ _ Hb).
  - apply bind_any in Hb. destruct Hb as [(e' & Hl & _)|(pl & w2 & Hl & Hb)].
    + apply load_plist_world in Hl. subst w1.
      rewrite (bind_run _ _ _ _ _ (print_run _ _)) in Hh.
      apply ret_run in Hh. subst w'. eexists [_]. reflexivity.
    + inversion Hb.
Qed.

Lemma open_pages_only_prints ds w r w' :
  open_pages ds w = (r, w') -> only_prints w w'.
Proof.
  unfold open_pages. apply bind_only_prints.
  - intros r1 w1 Hr. apply only_prints_eq, (get_plists_world _ _ _ _ Hr).
  - intros paths w1 _ r2 w2. apply bind_only_prints.
    + intros r3 w3. unfold load_item_plists.
      apply (for_each_world only_prints);
        [apply only_prints_refl | apply only_prints_trans|].
      intros q acc w0 r0 w0'. apply load_item_plist_only_prints.
    + intros tbl w3 _ r3 w4. apply bind_only_prints.
      * intros r5 w5.
        apply (for_each_world only_prints);
          [apply only_prints_refl | apply only_prints_trans|].
        intros q acc w0 r0 w0'. apply load_item_only_prints.
      * intros contents w5 _ r6 w6 Hr.
        apply only_prints_eq, (ret_run _ _ _ _ Hr).
Qed.

(** X21: whatever [open] returns or raises, it has left the file system
    and the random source as they were and has only added lines to the
    output. *)
Theorem open_only_reads_and_prints
    (p : Path) (pw : option pystr) (im : bool) (w : World)
    (r : result DataStore) (w' : World) :
  open p pw im w = (r, w') ->
  fs w' = fs w /\ entropy w' = entropy w /\ cursor w' = cursor w
  /\ exists out, stdout w' = stdout w ++ out.
Proof.
  intros Hrun.
  assert (Hp : only_prints w w').
  { revert Hrun. unfold open, new_store.
    cbn [path encrypted storeinfo set_storeinfo set_properties].
    rewrite (bind_run _ _ _ _ _ (path_exists_run _ _)).
    destruct (negb _); [intros [= _ <-]; apply only_prints_refl|].
    rewrite (bind_run _ _ _ _ _ (path_exists_run _ _)).
    destruct (negb _); [intros [= _ <-]; apply only_prints_refl|].
    apply bind_only_prints.
    { intros r1 w1 Hr. apply only_prints_eq, (read_file_world _ _ _ _ Hr). }
    intros data w1 _ r2 w2. rewrite bind_lift.
    destruct (plist_loads data) as [si|e];
      [|intros [= _ <-]; apply only_prints_refl].
    rewrite bind_lift.
    destruct (getitem si (py "isEncrypted")) as [enc|e];
      [|intros [= _ <-]; apply only_prints_refl].
    destruct (truthy enc); [intros [= _ <-]; apply only_prints_refl|].
    rewrite bind_lift.
    destruct (getitem si (py "VoodooPadBundleVersion")) as [ver|e];
      [|intros [= _ <-]; apply only_prints_refl].
    destruct (negb _); [intros [= _ <-]; apply only_prints_refl|].
    apply bind_only_prints.
    { intros r3 w3 Hr. apply only_prints_eq, (load_plist_world _ _ _ _ _ Hr). }
    intros props w3 _ r4 w4.
    rewrite (bind_run _ _ _ _ _ (is_dir_run _ _)).
    destruct (negb _); [intros [= _ <-]; apply only_prints_refl|].
    apply (open_pages_only_prints (checked_store p pw im si props)). }
  destruct Hp as (out & ->). cbn [printed fs entropy cursor stdout].
  repeat split. exists out. reflexivity.
Qed.
End reading.

(** ** The record table of an opened store *)

Section record_table.
Context `{Runtime}.

(** One step of the first loop of [open]: the record is registered
    under the stem of its path, or the table is left as it is. *)
Lemma load_item_plist_inv ds q tbl w tbl' w' :
  encrypted ds = false ->
  load_item_plist ds q tbl w = (Ok tbl', w') ->
  fs w' = fs w
  /\ exists data,
       fs_lookup (fs w) q = Some (File data)
       /\ match plist_loads data with
          | Ok pl => tbl' = dict_set (stem q) pl tbl
          | Raise _ => tbl' = tbl
          end.
Proof.
  intros Hplain Hrun. unfold load_item_plist, try_except, bind in Hrun.
  destruct (load_plist ds q w) as [r w1] eqn:Hr.
  destruct (load_plist_inv _ _ _ _ _ Hplain Hr) as [-> Hcases].
  destruct Hcases as [(data & Hfile & ->)|(e & -> & Hne)].
  - destruct (plist_loads data) as [pl|e] eqn:Hloads.
    + unfold ret in Hrun. injection Hrun as <- <-. split; [reflexivity|].
      exists data. rewrite Hloads. auto.
    + destruct e; try discriminate Hrun.
      unfold print, ret in Hrun. injection Hrun as <- <-. split; [reflexivity|].
      exists data. rewrite Hloads. auto.
  - destruct e; try discriminate Hrun. contradiction Hne. reflexivity.
Qed.

Lemma load_item_plists_inv ds paths :
  encrypted ds = false ->
  forall tbl0 w tbl w',
    for_each paths (load_item_plist ds) tbl0 w = (Ok tbl, w') ->
    (forall k pl, dict_get k tbl = Some pl ->
       dict_get k tbl0 = Some pl
       \/ exists q data, In q paths /\ stem q = k
            /\ fs_lookup (fs w) q = Some (File data)
            /\ plist_loads data = Ok pl)
    /\ (forall k, In k (dict_keys tbl0) -> In k (dict_keys tbl))
    /\ (forall q data pl, In q paths ->
          fs_lookup (fs w) q = Some (File data) -> plist_loads data = Ok pl ->
          In (stem q) (dict_keys tbl)).
Proof.
  intros Hplain. induction paths as [|q paths IH]; intros tbl0 w tbl w' Hrun.
  - apply ret_ok in Hrun. destruct Hrun as [-> ->].
    split; [auto|]. split; [auto|]. intros q data pl [].
  - cbn [for_each] in Hrun. run_inv Hrun as tbl1 w1 Hstep.
    apply (load_item_plist_inv _ _ _ _ _ _ Hplain) in Hstep.
    destruct Hstep as (Hfs & data & Hfile & Hstep).
    destruct (IH _ _ _ _ Hrun) as (Hsound & Hkeys & Hcomplete).
    rewrite Hfs in Hsound, Hcomplete.
    split; [|split].
    + intros k pl Hget. destruct (Hsound k pl Hget) as [Hold|(q' & d' & Hin & Hrest)].
      * destruct (plist_loads data) as [pl0|e] eqn:Hloads; subst tbl1; [|auto].
        destruct (decide (stem q = k)) as [Hk|Hk].
        -- right. exists q, data. rewrite Hk, dict_get_set_eq in Hold.
           injection Hold as <-. split; [left; reflexivity | auto].
        -- left. rewrite dict_get_set_ne in Hold by exact Hk. exact Hold.
      * right. exists q', d'. split; [right; exact Hin | exact Hrest].
    + intros k Hin. apply Hkeys.
      destruct (plist_loads data) as [pl0|e]; subst tbl1; [|exact Hin].
      apply dict_keys_set_in. right. exact Hin.
    + intros q' d' pl' [<-|Hin] Hfile' Hloads'.
      * apply Hkeys. rewrite Hfile in Hfile'. injection Hfile' as <-.
        rewrite Hloads' in Hstep. subst tbl1.
        apply dict_keys_set_in. left. reflexivity.
      * eapply Hcomplete; eassumption.
Qed.

(** X22: the record table of an opened store is made of the record
    files that parse: every record in it was parsed from a file
    [pages/s/e] with [e] ending in [.plist] whose stem is the key, and
    the stem of every such file that parses is a key of the table. *)
Theorem opened_records_are_the_parsed_files
    (p : Path) (pw : option pystr) (im : bool) (w : World)
    (ds : DataStore) (w' : World) :
  open p pw im w = (Ok ds, w') ->
  (forall item_uuid pl,
     dict_get item_uuid (item_plists ds) = Some pl ->
     exists s e data,
       endswith e (py ".plist") = true
       /\ stem (p ++ [py "pages"; s; e]) = item_uuid
       /\ fs_lookup (fs w) (p ++ [py "pages"; s]) = Some Dir
       /\ fs_lookup (fs w) (p ++ [py "pages"; s; e]) = Some (File data)
       /\ plist_loads data = Ok pl)
  /\ (forall s e data pl,
        endswith e (py ".plist") = true ->
        fs_lookup (fs w) (p ++ [py "pages"; s]) = Some Dir ->
        fs_lookup (fs w) (p ++ [py "pages"; s; e]) = Some (File data) ->
        plist_loads data = Ok pl ->
        In (stem (p ++ [py "pages"; s; e])) (item_uuids ds)).
Proof.
  intros Hopen. apply open_ok_checks in Hopen.
  destruct Hopen as (si & props & _ & Hdir & Hpages).
  unfold open_pages in Hpages.
  change (path (checked_store p pw im si props)) with p in Hpages.
  rewrite (bind_run _ _ _ _ _ (get_plists_run _ _ Hdir)) in Hpages.
  pose proof (plists_in_members (fs w) (p ++ [py "pages"])) as Hin.
  run_inv Hpages as tbl w2 Htbl.
  run_inv Hpages as contents w3 Hitems.
  apply ret_ok in Hpages. destruct Hpages as [-> ->].
  cbn [item_plists set_items set_item_plists item_uuids].
  unfold load_item_plists in Htbl.
  apply (load_item_plists_inv (checked_store p pw im si props) _ eq_refl) in Htbl.
  destruct Htbl as (Hsound & _ & Hcomplete). split.
  - intros k pl Hget.
    destruct (Hsound k pl Hget) as [Hold|(q & data & Hq & Hstem & Hfile & Hloads)];
      [discriminate Hold|].
    apply Hin in Hq. destruct Hq as (s & e & n & -> & Hs & _ & Hext).
    rewrite <- app_assoc in Hstem. rewrite <- app_assoc in Hfile.
    rewrite <- app_assoc in Hs. exists s, e, data. auto.
  - intros s e data pl Hext Hs Hfile Hloads.
    assert (Hq : p ++ [py "pages"; s; e] = (p ++ [py "pages"]) ++ [s; e])
      by (rewrite <- app_assoc; reflexivity).
    assert (Hd : p ++ [py "pages"; s] = (p ++ [py "pages"]) ++ [s])
      by (rewrite <- app_assoc; reflexivity).
    rewrite Hq in Hfile |- *. rewrite Hd in Hs.
    eapply Hcomplete; [|exact Hfile | exact Hloads].
    apply Hin. exists s, e, (File data). auto.
Qed.
End record_table.

(** ** The order of the checks of [open] *)

Section open_errors.
Context `{Runtime}.

(** X23: the order of the checks of [open].  A missing [storeinfo.plist]
    is reported first; then a missing [properties.plist], before
    [storeinfo.plist] is read; then, once the store identity is parsed,
    a missing [isEncrypted] key, then an encrypted store, then a
    missing version key, then a version other than 5, all of them
    before the properties are read. *)
Theorem open_checks_in_order
    (p : Path) (pw : option pystr) (im : bool) (w : World) :
  let storeinfo_path := p ++ [py "storeinfo.plist"] in
  let properties_path := p ++ [py "properties.plist"] in
  (fs_lookup (fs w) storeinfo_path = None ->
   open p pw im w = (Raise (FileNotFoundError storeinfo_path), w))
  /\ (fs_lookup (fs w) storeinfo_path <> None ->
      fs_lookup (fs w) properties_path = None ->
      open p pw im w = (Raise (FileNotFoundError properties_path), w))
  /\ (forall sdata si,
        fs_lookup (fs w) storeinfo_path = Some (File sdata) ->
        fs_lookup (fs w) properties_path <> None ->
        plist_loads sdata = Ok si ->
        open p pw im w
        = match getitem si (py "isEncrypted") with
          | Raise e => (Raise e, w)
          | Ok enc =>
            if truthy enc
            then (Raise (PyException (py "Encrypted documents are not supported")), w)
            else
              match getitem si (py "VoodooPadBundleVersion") with
              | Raise e => (Raise e, w)
              | Ok version =>
                if eq_int version 5
                then (props <- load_plist (new_store p pw im) properties_path;
                      isd <- is_dir (p ++ [py "pages"]);
                      if negb isd then raise (FileNotFoundError properties_path)
                      else open_pages (checked_store p pw im si props)) w
                else (Raise (PyException (py "Unsupported")), w)
              end
          end).
Proof.
  cbv zeta. unfold open, new_store.
  cbn [path encrypted storeinfo set_storeinfo set_properties].
  split; [|split].
  - intros Hs. rewrite (bind_run _ _ _ _ _ (path_exists_run _ _)), Hs.
    reflexivity.
  - intros Hs Hp. rewrite (bind_run _ _ _ _ _ (path_exists_run _ _)).
    destruct (fs_lookup (fs w) (p ++ [py "storeinfo.plist"]));
      [|contradiction Hs; reflexivity].
    cbn [negb]. rewrite (bind_run _ _ _ _ _ (path_exists_run _ _)), Hp.
    reflexivity.
  - intros sdata si Hs Hp Hsi.
    rewrite (bind_run _ _ _ _ _ (path_exists_run _ _)), Hs. cbn [negb].
    rewrite (bind_run _ _ _ _ _ (path_exists_run _ _)).
    destruct (fs_lookup (fs w) (p ++ [py "properties.plist"])) as [np|] eqn:Hnp;
      [|contradiction Hp; reflexivity].
    cbn [negb]. rewrite (bind_run _ _ _ _ _ (read_file_run _ _ _ Hs)).
    rewrite Hsi, bind_lift, bind_lift.
    destruct (getitem si (py "isEncrypted")) as [enc|e]; [|reflexivity].
    destruct (truthy enc); [reflexivity|].
    rewrite bind_lift.
    destruct (getitem si (py "VoodooPadBundleVersion")) as [ver|e];
      [|reflexivity].
    destruct (eq_int ver 5); reflexivity.
Qed.
End open_errors.

Lemma open_checks_witness :
  open Sample.root None false Sample.world0
  = (Raise (FileNotFoundError (Sample.root ++ [py "storeinfo.plist"])),
     Sample.world0).
Proof.
  destruct (open_checks_in_order Sample.root None false Sample.world0)
    as [Hmissing _].
  apply Hmissing. reflexivity.
Defined.

(** ** The layout of a new store *)

Lemma os_mkdir_ok p w (u : unit) w' :
  os_mkdir p w = (Ok u, w') ->
  fs w' = dict_set p Dir (fs w) /\ p <> []
  /\ fs_lookup (fs w) (dirname p) = Some Dir
  /\ fs_lookup (fs w') p = Some Dir.
Proof.
  unfold os_mkdir, bind, get_fs, lift, raise, put_fs, check_parent.
  destruct (fs_lookup (fs w) (dirname p)) as [[d|]|]; try discriminate.
  destruct (fs_lookup (fs w) p) eqn:Hp; [discriminate|].
  destruct u. intros [= <-]. cbn [fs].
  assert (Hne : p <> []) by (intros ->; discriminate Hp).
  split; [reflexivity|]. split; [exact Hne|]. split; [reflexivity|].
  apply fs_lookup_set_eq, Hne.
Qed.

Lemma mkdir_loop_ok (f : nat -> Path) l :
  forall w (u : unit) w',
    for_each l (fun i _ => os_mkdir (f i)) tt w = (Ok u, w') ->
    fs_extends (fs w) (fs w')
    /\ forall i, In i l -> fs_lookup (fs w') (f i) = Some Dir.
Proof.
  induction l as [|i l IH]; intros w u w' Hrun.
  - apply ret_ok in Hrun. destruct Hrun as [_ ->].
    split; [apply fs_extends_refl | intros i []].
  - cbn [for_each] in Hrun. run_inv Hrun as u1 w1 Hmk. destruct u1.
    pose proof (os_mkdir_extends _ _ _ _ Hmk) as Hext1.
    apply os_mkdir_ok in Hmk. destruct Hmk as (_ & _ & _ & Hdir).
    destruct (IH _ _ _ Hrun) as [Hext Hdirs].
    split; [eapply fs_extends_trans; eassumption|].
    intros j [<-|Hj]; [apply Hext, Hdir | apply Hdirs, Hj].
Qed.

Lemma app_length_ne {A} (p a b : list A) : length a <> length b -> p ++ a <> p ++ b.
Proof. intros Hne Heq. apply app_inv_head in Heq. congruence. Qed.

Section creating.
Context `{Runtime}.

(** X24: the store [create] returns and leaves on disk: the root,
    [pages] and the sixteen shard directories; the index page, whose
    content file under its shard holds the encoded text and which is
    the only item in memory; the store identity with version 6 and the
    properties, which name the index page as the default page, carry
    the store's identifier and count zero pages, both in memory and as
    written to [storeinfo.plist] and [properties.plist]. *)
Theorem create_layout (p : Path) (w : World) (ds : DataStore) (w' : World) :
  create p w = (Ok ds, w') ->
  exists store_uuid index_uuid encoded bsi bsp,
    ds = created_store p store_uuid index_uuid encoded
    /\ utf8_encode index_text = Ok encoded
    /\ fs_lookup (fs w') p = Some Dir
    /\ fs_lookup (fs w') (p ++ [py "pages"]) = Some Dir
    /\ (forall i, (i < 16)%nat ->
          fs_lookup (fs w') (p ++ [py "pages"; [hex_digit (N.of_nat i)]])
          = Some Dir)
    /\ plist_dumps (created_storeinfo store_uuid) = Ok bsi
    /\ fs_lookup (fs w') (p ++ [py "storeinfo.plist"]) = Some (File bsi)
    /\ plist_dumps (created_properties store_uuid index_uuid) = Ok bsp
    /\ fs_lookup (fs w') (p ++ [py "properties.plist"]) = Some (File bsp)
    /\ fs_lookup (fs w')
         (p ++ [py "pages"; firstn 1 index_uuid; index_uuid])
       = Some (File encoded).
Proof.
  intros Hc. unfold create in Hc.
  cbn [path new_store set_storeinfo set_properties storeinfo properties] in Hc.
  run_inv Hc as u1 w1 Hroot. run_inv Hc as u2 w2 Hpages.
  run_inv Hc as u3 w3 Hshards. run_inv Hc as su w4 Hsu.
  run_inv Hc as suv w5 Hget. apply lift_ok in Hget. destruct Hget as [Hget ->].
  injection Hget as <-.
  run_inv Hc as added w6 Hadd. destruct added as [index_uuid ds1].
  pose proof (add_item_ok _ _ _ _ _ _ _ _ Hadd) as Hok.
  destruct Hok as (u & c & rest & encoded & bs & _ & Hid & Henc & _ & _
                   & Hcontent & -> & _).
  pose proof (add_item_disk_frame _ _ _ _ _ _ _ _ Hadd) as Hrest.
  cbv zeta in Hrest. destruct Hrest as (_ & Hrest).
  cbn [set_item_plists set_items set_properties set_storeinfo new_store
       path properties storeinfo items item_plists encrypted password in_memory]
    in Hc, Hrest, Hcontent.
  run_inv Hc as pr1 w7 Hp1. apply lift_ok in Hp1. destruct Hp1 as [Hp1 ->].
  injection Hp1 as <-.
  run_inv Hc as pr2 w8 Hp2. apply lift_ok in Hp2. destruct Hp2 as [Hp2 ->].
  injection Hp2 as <-.
  cbn [dict_set] in Hc.
  run_inv Hc as u9 w9 Hdsi. run_inv Hc as u10 w10 Hdpr.
  apply ret_ok in Hc. destruct Hc as [-> ->].
  apply dump_plist_ok in Hdsi. destruct Hdsi as (bsi & Hbsi & Hfs9 & _).
  apply dump_plist_ok in Hdpr. destruct Hdpr as (bsp & Hbsp & Hfs10 & _).
  apply os_mkdir_ok in Hroot. destruct Hroot as (_ & Hp & _ & Hroot).
  pose proof (os_mkdir_extends _ _ _ _ Hpages) as Hext2.
  apply os_mkdir_ok in Hpages. destruct Hpages as (_ & _ & _ & Hpages).
  apply mkdir_loop_ok in Hshards. destruct Hshards as [Hext3 Hshards].
  assert (Hfs4 : fs w4 = fs w3).
  { destruct (uuid4_run w3) as (u0 & Hu0). rewrite Hu0 in Hsu.
    injection Hsu as _ <-. reflexivity. }
  assert (Hlen : forall q : Path,
            (length q <= length p + 2)%nat ->
            q <> p ++ [py "pages"; firstn 1 index_uuid; index_uuid ++ py ".plist"]
            /\ q <> p ++ [py "pages"; firstn 1 index_uuid; index_uuid]).
  { intros q Hq. split; intros ->; rewrite length_app in Hq; simpl in Hq; lia. }
  assert (Hkeep : forall q : Path,
            (length q <= length p + 2)%nat ->
            q <> p ++ [py "storeinfo.plist"] -> q <> p ++ [py "properties.plist"] ->
            fs_lookup (fs w3) q = Some Dir -> fs_lookup (fs w10) q = Some Dir).
  { intros q Hq Hsi Hpr Hdir. rewrite Hfs10, fs_lookup_set_ne by congruence.
    rewrite Hfs9, fs_lookup_set_ne by congruence.
    destruct (Hlen q Hq) as [Hq1 Hq2].
    destruct (Hrest q Hq1 Hq2) as [Heq|(Hnone & _)]; rewrite Hfs4 in *; congruence. }
  exists (uuid_str su), index_uuid, encoded, bsi, bsp.
  split; [reflexivity|]. split; [exact Henc|].
  split.
  { apply Hkeep; [lia | | |apply Hext3, Hext2, Hroot];
      rewrite <- (app_nil_r p) at 1; apply app_length_ne; discriminate. }
  split.
  { apply Hkeep; [rewrite length_app; simpl; lia | | |apply Hext3, Hpages];
      intros Heq; apply app_inv_head in Heq; vm_compute in Heq; discriminate Heq. }
  split.
  { intros i Hi. apply Hkeep;
      [rewrite length_app; simpl; lia | | |apply Hshards, in_seq; lia];
      apply app_length_ne; discriminate. }
  split; [exact Hbsi|]. split.
  { rewrite Hfs10, fs_lookup_set_ne by apply storeinfo_ne_properties.
    rewrite Hfs9. apply fs_lookup_set_eq, snoc_not_nil. }
  split; [exact Hbsp|]. split.
  { rewrite Hfs10. apply fs_lookup_set_eq, snoc_not_nil. }
  rewrite Hfs10, fs_lookup_set_ne, Hfs9, fs_lookup_set_ne.
  - rewrite Hid in Hcontent |- *. exact Hcontent.
  - apply app_length_ne. discriminate.
  - apply app_length_ne. discriminate.
Qed.
End creating.

(** ** When [create] succeeds *)

Lemma os_mkdir_run p w :
  fs_lookup (fs w) (dirname p) = Some Dir ->
  fs_lookup (fs w) p = None ->
  os_mkdir p w
  = (Ok tt, mkWorld (dict_set p Dir (fs w)) (entropy w) (cursor w) (stdout w)).
Proof.
  intros Hparent Hp. unfold os_mkdir, bind, get_fs, lift, check_parent.
  rewrite Hparent, Hp. reflexivity.
Qed.

(** Making the directories [f i] for the indices of a list, all in
    directories that exist. *)
Lemma mkdir_loop_run (f : nat -> Path) l :
  forall w,
    (forall i, In i l -> fs_lookup (fs w) (dirname (f i)) = Some Dir) ->
    (forall i j, In i l -> In j l -> dirname (f i) <> f j) ->
    List.NoDup (map f l) ->
    (forall i, In i l -> fs_lookup (fs w) (f i) = None) ->
    exists w',
      for_each l (fun i _ => os_mkdir (f i)) tt w = (Ok tt, w')
      /\ same_outside_fs w w'
      /\ (forall i, In i l -> fs_lookup (fs w') (f i) = Some Dir)
      /\ (forall q, (forall i, In i l -> q <> f i) ->
            fs_lookup (fs w') q = fs_lookup (fs w) q).
Proof.
  induction l as [|i l IH]; intros w Hd Hpar Hnd Hfree.
  - exists w. split; [reflexivity|]. split; [apply same_outside_fs_refl|].
    split; [intros i [] | reflexivity].
  - cbn [map] in Hnd. inversion Hnd as [|? ? Hnotin Hnd']; subst.
    pose proof (os_mkdir_run (f i) w (Hd i (or_introl eq_refl))
                  (Hfree i (or_introl eq_refl))) as Hmk.
    set (w1 := mkWorld (dict_set (f i) Dir (fs w)) (entropy w) (cursor w)
                 (stdout w)) in *.
    assert (Hfi : f i <> []).
    { intros Heq. pose proof (Hfree i (or_introl eq_refl)) as Hn.
      rewrite Heq in Hn. discriminate Hn. }
    destruct (IH w1) as (w' & Hrun & Hsame & Hdirs & Hothers).
    + intros j Hj. cbn [w1 fs]. rewrite fs_lookup_set_ne.
      * apply Hd. right. exact Hj.
      * apply not_eq_sym, Hpar; [right; exact Hj | left; reflexivity].
    + intros j k Hj Hk. apply Hpar; right; assumption.
    + exact Hnd'.
    + intros j Hj. cbn [w1 fs]. rewrite fs_lookup_set_ne.
      * apply Hfree. right. exact Hj.
      * intros Heq. apply Hnotin. rewrite Heq. apply in_map, Hj.
    + exists w'. cbn [for_each]. rewrite (bind_run _ _ _ _ _ Hmk).
      split; [exact Hrun|]. split.
      { destruct Hsame as (He & Hc & Ho). repeat split; assumption. }
      split.
      * intros j [<-|Hj]; [|apply Hdirs, Hj].
        rewrite Hothers.
        -- cbn [w1 fs]. apply fs_lookup_set_eq, Hfi.
        -- intros j Hj Heq. apply Hnotin. rewrite Heq. apply in_map, Hj.
      * intros q Hq. rewrite Hothers by (intros j Hj; apply Hq; right; exact Hj).
        cbn [w1 fs]. apply fs_lookup_set_ne, not_eq_sym, Hq. left. reflexivity.
Qed.

Lemma dirname_snoc2 (d : Path) (a b : pystr) : dirname (d ++ [a; b]) = d ++ [a].
Proof. rewrite snoc2_snoc. apply dirname_snoc. Qed.

Lemma dump_plist_run `{Runtime} pl (d : Path) (s : pystr) bs w :
  plist_dumps pl = Ok bs ->
  fs_lookup (fs w) d = Some Dir ->
  fs_lookup (fs w) (d ++ [s]) <> Some Dir ->
  dump_plist pl (d ++ [s]) w
  = (Ok tt, mkWorld (dict_set (d ++ [s]) (File bs) (fs w)) (entropy w) (cursor w)
              (stdout w)).
Proof.
  intros Hd Hdir Hnode. unfold dump_plist. rewrite Hd.
  apply write_file_run; [apply snoc_not_nil | rewrite dirname_snoc; exact Hdir
                        | exact Hnode].
Qed.

Lemma shard_names_distinct :
  List.NoDup (map (fun i => [hex_digit (N.of_nat i)]) (seq 0 16)).
Proof.
  vm_compute. repeat (constructor; [simpl; intuition discriminate|]). constructor.
Qed.

Lemma shard_paths_distinct (p : Path) :
  List.NoDup (map (fun i => p ++ [py "pages"; [hex_digit (N.of_nat i)]]) (seq 0 16)).
Proof.
  rewrite <- (map_map (fun i => [hex_digit (N.of_nat i)])
                (fun s => p ++ [py "pages"; s])).
  apply NoDup_map_NoDup_ForallPairs; [|apply shard_names_distinct].
  intros a b _ _ Heq. apply app_inv_head in Heq. congruence.
Qed.

Lemma firstn_snoc2_inv {A} (p : list A) (a b x : A) k :
  firstn k (p ++ [a; b]) = p ++ [x] -> x = a.
Proof.
  intros Heq. pose proof (f_equal (@length _) Heq) as Hlen.
  rewrite length_firstn, !length_app in Hlen. simpl in Hlen.
  assert (k = (length p + 1)%nat) as -> by lia.
  rewrite firstn_app, firstn_all2 in Heq by lia.
  replace (length p + 1 - length p)%nat with 1%nat in Heq by lia.
  simpl in Heq. apply app_inv_head in Heq. congruence.
Qed.

Lemma created_properties_steps (su iu : pystr) :
  exists props,
    setitem (PlDict [(py "allowPluginLinks", PBool true);
                     (py "bdToBookmarkAliasUpgrade", PBool true);
                     (py "createSpotlightIndex", PBool true);
                     (py "dbVersion", PInt 7);
                     (py "expectedPageCount", PInt 0);
                     (py "localWebAccess", PBool false);
                     (py "newPageUTI", PStr (py "net.daringfireball.markdown"));
                     (py "skIndexVersion", PInt 7);
                     (py "updatedFMPageToRealUTIs", PBool true);
                     (py "updatedSpecialPages3", PBool true);
                     (py "uuid", PStr su)])
      (py "defaultPage") (PStr (py "Index")) = Ok props
    /\ setitem props (py "defaultUUID") (PStr iu) = Ok (created_properties su iu).
Proof. eexists. split; reflexivity. Qed.

Section creating_more.
Context `{Runtime}.

(** X25: [create] does not overwrite: when something exists at the
    path, and the parent is a directory, it raises [FileExistsError]
    for the path and changes nothing. *)
Theorem create_refuses_existing_path (p : Path) (w : World) (n : node) :
  fs_lookup (fs w) (dirname p) = Some Dir ->
  fs_lookup (fs w) p = Some n ->
  create p w = (Raise (FileExistsError p), w).
Proof.
  intros Hparent Hp. unfold create, new_store. cbn [path].
  apply bind_raise. unfold os_mkdir, bind, get_fs, lift, check_parent.
  rewrite Hparent, Hp. reflexivity.
Qed.

(** X26: [create] returns a store whenever the parent of the path is a
    directory, nothing exists at the path or below it, and the codec
    writes the three records of a new store. *)
Theorem create_succeeds_on_a_fresh_path (p : Path) (w : World) :
  codec_writes_new_store ->
  fs_lookup (fs w) (dirname p) = Some Dir ->
  (forall q, fs_lookup (fs w) (p ++ q) = None) ->
  exists ds w', create p w = (Ok ds, w').
Proof.
  intros Hcodec Hparent Hfree.
  assert (Hp : fs_lookup (fs w) p = None).
  { rewrite <- (app_nil_r p). apply Hfree. }
  assert (Hpne : p <> []) by (intros ->; discriminate Hp).
  unfold create. cbn [path new_store].
  rewrite (bind_run _ _ _ _ _ (os_mkdir_run _ _ Hparent Hp)).
  set (w1 := mkWorld (dict_set p Dir (fs w)) (entropy w) (cursor w) (stdout w)).
  assert (Hw1 : forall q : Path, q <> [] ->
            fs_lookup (fs w1) (p ++ q) = None).
  { intros q Hq. cbn [w1 fs]. rewrite fs_lookup_set_ne; [apply Hfree|].
    intros Heq. apply (f_equal (@length _)) in Heq. rewrite length_app in Heq.
    destruct q; [contradiction | simpl in Heq; lia]. }
  assert (Hroot1 : fs_lookup (fs w1) p = Some Dir)
    by (apply fs_lookup_set_eq, Hpne).
  pose proof (os_mkdir_run (p ++ [py "pages"]) w1) as Hmk2.
  rewrite dirname_snoc in Hmk2.
  assert (Hone : [py "pages"] <> []) by discriminate.
  specialize (Hmk2 Hroot1 (Hw1 _ Hone)).
  rewrite (bind_run _ _ _ _ _ Hmk2).
  set (w2 := mkWorld (dict_set (p ++ [py "pages"]) Dir (fs w1)) (entropy w1)
               (cursor w1) (stdout w1)).
  assert (Hpages2 : fs_lookup (fs w2) (p ++ [py "pages"]) = Some Dir)
    by (apply fs_lookup_set_eq, snoc_not_nil).
  assert (Hw2 : forall q : Path, (2 <= length q)%nat ->
            fs_lookup (fs w2) (p ++ q) = None).
  { intros q Hq. cbn [w2 fs]. rewrite fs_lookup_set_ne.
    - apply Hw1. intros ->. simpl in Hq. lia.
    - apply app_length_ne. simpl. lia. }
  destruct (mkdir_loop_run
              (fun i => p ++ [py "pages"; [hex_digit (N.of_nat i)]]) (seq 0 16) w2)
    as (w3 & Hloop & Hsame3 & Hshards & Hothers).
  { intros i _. rewrite dirname_snoc2. exact Hpages2. }
  { intros i j _ _. rewrite dirname_snoc2. apply app_length_ne. discriminate. }
  { apply shard_paths_distinct. }
  { intros i _. apply Hw2. simpl. lia. }
  rewrite (bind_run _ _ _ _ _ Hloop).
  destruct (uuid4_run w3) as (su & Hsu). rewrite (bind_run _ _ _ _ _ Hsu).
  set (w4 := mkWorld (fs w3) (entropy w3) (S (cursor w3)) (stdout w3)) in *.
  cbn [storeinfo set_storeinfo set_properties].
  change (getitem (PlDict [(py "isEncrypted", PBool false);
                           (py "uuid", PStr (uuid_str su));
                           (py "VoodooPadBundleVersion", PInt 6)]) (py "uuid"))
    with (@Ok pvalue (PStr (uuid_str su))).
  rewrite bind_lift.
  destruct (uuid4_run w4) as (iu & Hiu).
  assert (Hnext : next_uuid w4 = uuid_str iu).
  { unfold next_uuid. rewrite Hiu. reflexivity. }
  destruct (utf8_encode index_text) as [encoded|e] eqn:Henc;
    [|vm_compute in Henc; discriminate Henc].
  destruct (Hcodec su iu encoded Henc) as ((bsi & Hbsi) & (bsp & Hbsp) & (bsr & Hbsr)).
  destruct (uuid_str_first iu) as (tl & Hfirst).
  set (x := (iu / 16 ^ 31) mod 16) in *.
  assert (Hx : x < 16) by (apply N.mod_lt; discriminate).
  assert (Hshard : fs_lookup (fs w4) (p ++ [py "pages"; firstn 1 (next_uuid w4)])
                   = Some Dir).
  { rewrite Hnext, Hfirst. cbn [firstn w4 fs].
    rewrite <- (N2Nat.id x). apply Hshards, in_seq. lia. }
  assert (Hfree4 : forall q : Path, (3 <= length q)%nat ->
            fs_lookup (fs w4) (p ++ q) = None).
  { intros q Hq. cbn [w4 fs]. rewrite Hothers; [apply Hw2; lia|].
    intros i _. apply app_length_ne. simpl. lia. }
  match goal with
  | |- context [add_item ?s0 _ _ _] => set (self := s0)
  end.
  destruct (add_item_run self (py "Index") index_text
              (py "net.daringfireball.markdown") w4 encoded bsr)
    as (self' & w6 & Hadd & _ & Hrest).
  { reflexivity. }
  { exact Henc. }
  { rewrite Hnext. exact Hbsr. }
  { cbn [self path set_properties set_storeinfo new_store w4 fs].
    rewrite Hothers; [exact Hpages2|].
    intros i _. apply app_length_ne. discriminate. }
  { right. exact Hshard. }
  { cbn [self path set_properties set_storeinfo new_store].
    rewrite <- app_assoc. cbn [app]. rewrite Hfree4; [discriminate | simpl; lia]. }
  { cbn [self path set_properties set_storeinfo new_store].
    rewrite <- app_assoc. cbn [app]. rewrite Hfree4; [discriminate | simpl; lia]. }
  fold index_text. rewrite (bind_run _ _ _ _ _ Hadd).
  apply add_item_ok in Hadd.
  destruct Hadd as (u0 & c0 & rest0 & enc0 & bs0 & _ & _ & _ & _ & _ & _ & -> & _).
  cbn [self path set_properties set_storeinfo new_store properties storeinfo
       set_items set_item_plists] in Hrest |- *.
  destruct (created_properties_steps (uuid_str su) (next_uuid w4))
    as (props1 & Hs1 & Hs2).
  rewrite Hs1, bind_lift, Hs2, bind_lift.
  cbn [self path set_properties set_storeinfo new_store properties storeinfo
       set_items set_item_plists].
  assert (Hkeep : forall s : pystr,
            fs_lookup (fs w6) (p ++ [s]) = fs_lookup (fs w4) (p ++ [s])
            /\ fs_lookup (fs w6) p = fs_lookup (fs w4) p).
  { intros s. split; apply Hrest; try rewrite <- app_assoc; cbn [app];
      try (apply app_length_ne; discriminate);
      rewrite <- (app_nil_r p) at 1; apply app_length_ne; discriminate. }
  assert (Hroot4 : fs_lookup (fs w4) p = Some Dir).
  { cbn [w4 fs]. rewrite Hothers.
    - cbn [w2 fs]. rewrite fs_lookup_set_ne; [exact Hroot1|].
      rewrite <- (app_nil_r p) at 2. apply app_length_ne. discriminate.
    - intros i _. rewrite <- (app_nil_r p) at 1. apply app_length_ne.
      discriminate. }
  assert (Hfree1 : forall s : pystr, s <> py "pages" ->
            fs_lookup (fs w4) (p ++ [s]) = None).
  { intros s Hs. cbn [w4 fs]. rewrite Hothers.
    - cbn [w2 fs]. rewrite fs_lookup_set_ne; [apply Hw1; discriminate|].
      intros Heq. apply app_inv_head in Heq. congruence.
    - intros i _. apply app_length_ne. discriminate. }
  erewrite bind_run;
    [|apply (dump_plist_run _ p (py "storeinfo.plist") bsi); [exact Hbsi | |]].
  2: { rewrite (proj2 (Hkeep [])). exact Hroot4. }
  2: { rewrite (proj1 (Hkeep _)), Hfree1; [discriminate|].
       vm_compute. discriminate. }
  erewrite bind_run;
    [|apply (dump_plist_run _ p (py "properties.plist") bsp);
      [rewrite Hnext; exact Hbsp | |]].
  2: { cbn [fs].
       rewrite fs_lookup_set_ne
         by (rewrite <- (app_nil_r p) at 2; apply app_length_ne; discriminate).
       rewrite (proj2 (Hkeep [])). exact Hroot4. }
  2: { cbn [fs]. rewrite fs_lookup_set_ne
         by (apply not_eq_sym, storeinfo_ne_properties).
       rewrite (proj1 (Hkeep _)), Hfree1; [discriminate|].
       vm_compute. discriminate. }
  eexists _, _. reflexivity.
Qed.
End creating_more.

Lemma sample_codec_writes_new_store : @codec_writes_new_store Sample.runtime.
Proof. intros su iu encoded _. repeat split; eexists; reflexivity. Qed.

Lemma create_succeeds_witness :
  exists ds w',
    create Sample.root (snd (os_mkdir [py "tmp"] Sample.world0)) = (Ok ds, w').
Proof.
  apply create_succeeds_on_a_fresh_path.
  - exact sample_codec_writes_new_store.
  - vm_compute. reflexivity.
  - intros q. vm_compute. reflexivity.
Defined.

Lemma create_refuses_existing_path_witness :
  create Sample.root Sample.bare_store
  = (Raise (FileExistsError Sample.root), Sample.bare_store).
Proof.
  apply (create_refuses_existing_path Sample.root Sample.bare_store Dir);
    vm_compute; reflexivity.
Defined.

(** ** Opening a store again after [add_item] *)

Section dict_more.
Context {K V : Type} `{EqDecision K}.
Implicit Types d : dict K V.

Lemma dict_remove_set_eq d k v : dict_remove k (dict_set k v d) = dict_remove k d.
Proof.
  induction d as [|[k' v'] d IH]; simpl.
  - rewrite decide_True by reflexivity. reflexivity.
  - destruct (decide (k = k')) as [->|Hne]; simpl.
    + rewrite decide_True by reflexivity. reflexivity.
    + rewrite decide_False by exact Hne. rewrite IH. reflexivity.
Qed.

Lemma dict_remove_absent d k : dict_get k d = None -> dict_remove k d = d.
Proof.
  induction d as [|[k' v'] d IH]; simpl; [reflexivity|].
  destruct (decide (k = k')); [discriminate|].
  intros Hget. rewrite (IH Hget). reflexivity.
Qed.

Lemma dict_remove_set_ne d k k' v :
  k <> k' -> dict_remove k (dict_set k' v d) = dict_set k' v (dict_remove k d).
Proof.
  intros Hne. induction d as [|[k0 v0] d IH]; simpl.
  - rewrite decide_False by exact Hne. reflexivity.
  - destruct (decide (k' = k0)) as [->|Hk']; simpl.
    + destruct (decide (k = k0)) as [Heq|_]; [contradiction|].
      simpl. destruct (decide (k0 = k0)); [reflexivity | contradiction].
    + destruct (decide (k = k0)) as [->|Hk]; [exact IH|].
      simpl. rewrite decide_False by exact Hk'. rewrite IH. reflexivity.
Qed.
End dict_more.

(** The entries of a directory after one path was set. *)
Lemma fs_children_set f (dq : Path) (nq : pystr) v (d : Path) :
  fs_children (dict_set (dq ++ [nq]) v f) d
  = fs_children f d
    ++ (if decide (dq = d)
        then match dict_get (dq ++ [nq]) f with Some _ => [] | None => [nq] end
        else []).
Proof.
  induction f as [|[k v'] f IH].
  - unfold fs_children. cbn [dict_set omap list_omap fst dict_get].
    rewrite split_last_snoc. destruct (decide (dq = d)); reflexivity.
  - cbn [dict_set dict_get].
    destruct (decide (dq ++ [nq] = k)) as [<-|Hk].
    + unfold fs_children. cbn [omap list_omap fst].
      destruct (decide (dq = d)); rewrite app_nil_r; reflexivity.
    + unfold fs_children at 1 2. cbn [omap list_omap fst].
      fold (fs_children (dict_set (dq ++ [nq]) v f) d). fold (fs_children f d).
      rewrite IH.
      destruct (split_last k) as [[d' n']|]; [|reflexivity].
      destruct (decide (d' = d)); reflexivity.
Qed.

Lemma plists_in_app f dir l1 l2 acc :
  plists_in f dir (l1 ++ l2) acc = plists_in f dir l2 (plists_in f dir l1 acc).
Proof. unfold plists_in. apply fold_left_app. Qed.

Lemma plists_in_ext f g dir subdirs :
  (forall s, In s subdirs ->
     fs_lookup g (dir ++ [s]) = fs_lookup f (dir ++ [s])
     /\ filter (fun e => endswith e (py ".plist") = true) (fs_children g (dir ++ [s]))
        = filter (fun e => endswith e (py ".plist") = true) (fs_children f (dir ++ [s]))) ->
  forall acc, plists_in g dir subdirs acc = plists_in f dir subdirs acc.
Proof.
  induction subdirs as [|s subdirs IH]; intros Hsame acc; [reflexivity|].
  rewrite !plists_in_cons.
  destruct (Hsame s (or_introl eq_refl)) as [-> ->].
  apply IH. intros s' Hs'. apply Hsame. right. exact Hs'.
Qed.

(** An identifier does not look like a record file. *)
Lemma uuid_not_plist u : endswith (uuid_str u) (py ".plist") = false.
Proof.
  destruct (uuid_str_format u) as [Hlen Hall].
  unfold endswith. apply bool_decide_eq_false_2. intros Hsuffix.
  assert (Hin : In 46 (uuid_str u)).
  { rewrite <- (firstn_skipn (length (uuid_str u) - length (py ".plist"))
                  (uuid_str u)).
    apply in_or_app. right. rewrite Hsuffix. left. reflexivity. }
  rewrite List.Forall_forall in Hall. destruct (Hall _ Hin) as [Hhex|Hdash];
    discriminate.
Qed.

Lemma snoc_ne_self (d : Path) (a : pystr) : d ++ [a] <> d.
Proof.
  intros Heq. apply (f_equal (@length pystr)) in Heq.
  rewrite length_app in Heq. simpl in Heq. lia.
Qed.

Section item_files.
Variables (f : dict Path node) (dir : Path) (c item_uuid : pystr)
  (bs encoded : bytes).

Hypothesis Hwf : parents_are_directories f.
Hypothesis Hid : endswith item_uuid (py ".plist") = false.
Hypothesis Hshard :
  fs_lookup f (dir ++ [c]) = None \/ fs_lookup f (dir ++ [c]) = Some Dir.
Hypothesis Hrecord : fs_lookup f (dir ++ [c; item_uuid ++ py ".plist"]) = None.

Lemma record_ne_content :
  dir ++ [c; item_uuid ++ py ".plist"] <> dir ++ [c; item_uuid].
Proof.
  intros Heq. apply app_inv_head in Heq.
  injection Heq as Heq. exact (app_plist_ne _ Heq).
Qed.

Lemma snoc2_not_nil (a b : pystr) : dir ++ [a; b] <> [].
Proof.
  intros Hnil. apply app_eq_nil in Hnil. destruct Hnil as [_ Hnil].
  discriminate Hnil.
Qed.

Lemma item_files_record :
  fs_lookup (with_item_files f (dir ++ [c]) item_uuid bs encoded)
    (dir ++ [c; item_uuid ++ py ".plist"])
  = Some (File bs).
Proof.
  unfold with_item_files. rewrite <- !snoc2_snoc.
  rewrite fs_lookup_set_ne by (apply not_eq_sym, record_ne_content).
  apply fs_lookup_set_eq, snoc2_not_nil.
Qed.

Lemma item_files_content :
  fs_lookup (with_item_files f (dir ++ [c]) item_uuid bs encoded)
    (dir ++ [c; item_uuid])
  = Some (File encoded).
Proof.
  unfold with_item_files. rewrite <- !snoc2_snoc.
  apply fs_lookup_set_eq, snoc2_not_nil.
Qed.

Lemma item_files_shard :
  fs_lookup (with_item_files f (dir ++ [c]) item_uuid bs encoded) (dir ++ [c])
  = Some Dir.
Proof.
  unfold with_item_files. rewrite <- !snoc2_snoc.
  rewrite !fs_lookup_set_ne by (apply not_eq_sym, snoc_ne_snoc2).
  destruct Hshard as [Hs|Hs]; rewrite Hs; [|exact Hs].
  apply fs_lookup_set_eq, snoc_not_nil.
Qed.

Lemma item_files_frame q :
  q <> dir ++ [c; item_uuid] ->
  q <> dir ++ [c; item_uuid ++ py ".plist"] ->
  q <> dir ++ [c] ->
  fs_lookup (with_item_files f (dir ++ [c]) item_uuid bs encoded) q
  = fs_lookup f q.
Proof.
  intros Hc Hr Hs. unfold with_item_files. rewrite <- !snoc2_snoc.
  rewrite !fs_lookup_set_ne by congruence.
  destruct (fs_lookup f (dir ++ [c])); [reflexivity|].
  apply fs_lookup_set_ne. congruence.
Qed.

(** What was there stays, but for the content file. *)
Lemma item_files_keep q n :
  fs_lookup f q = Some n -> q <> dir ++ [c; item_uuid] ->
  fs_lookup (with_item_files f (dir ++ [c]) item_uuid bs encoded) q = Some n.
Proof.
  intros Hq Hc.
  destruct (decide (q = dir ++ [c])) as [->|Hs].
  - destruct Hshard as [Hs|Hs]; rewrite Hs in Hq; [discriminate Hq|].
    injection Hq as <-. apply item_files_shard.
  - rewrite item_files_frame; [exact Hq | exact Hc | | exact Hs].
    intros ->. rewrite Hrecord in Hq. discriminate Hq.
Qed.

Lemma item_files_remove_record :
  dict_remove (dir ++ [c; item_uuid ++ py ".plist"])
    (with_item_files f (dir ++ [c]) item_uuid bs encoded)
  = dict_set (dir ++ [c; item_uuid]) (File encoded)
      match fs_lookup f (dir ++ [c]) with
      | None => dict_set (dir ++ [c]) Dir f
      | Some _ => f
      end.
Proof.
  unfold with_item_files. rewrite <- !snoc2_snoc.
  rewrite dict_remove_set_ne by apply record_ne_content.
  rewrite dict_remove_set_eq. f_equal. apply dict_remove_absent.
  rewrite <- (fs_lookup_nonempty _ _ (snoc2_not_nil c (item_uuid ++ py ".plist"))).
  destruct (fs_lookup f (dir ++ [c])) eqn:Hs; [exact Hrecord|].
  rewrite fs_lookup_set_ne; [exact Hrecord | apply snoc_ne_snoc2].
Qed.

Lemma empty_missing_shard :
  fs_lookup f (dir ++ [c]) = None -> fs_children f (dir ++ [c]) = [].
Proof.
  intros Hs. destruct (fs_children f (dir ++ [c])) as [|e l] eqn:Hl;
    [reflexivity|].
  assert (Hin : In e (fs_children f (dir ++ [c])))
    by (rewrite Hl; left; reflexivity).
  apply fs_children_iff in Hin. destruct Hin as (v & Hv).
  apply Hwf in Hv. rewrite dirname_snoc, Hs in Hv. discriminate Hv.
Qed.

(** The record paths [get_plists] collects afterwards are those it
    collected before, in their order, and the new one. *)
Lemma item_files_plists :
  filter (fun q => q <> dir ++ [c; item_uuid ++ py ".plist"])
    (plists_in (with_item_files f (dir ++ [c]) item_uuid bs encoded) dir
       (fs_children (with_item_files f (dir ++ [c]) item_uuid bs encoded) dir)
       [])
  = plists_in f dir (fs_children f dir) [].
Proof.
  rewrite <- (plists_in_remove _ dir c (item_uuid ++ py ".plist")).
  rewrite item_files_remove_record.
  change (filter (fun q : Path => q <> dir ++ [c; item_uuid ++ py ".plist"]) [])
    with (@nil Path).
  assert (Hdirs : fs_children (with_item_files f (dir ++ [c]) item_uuid bs encoded)
                    dir
                  = fs_children f dir
                    ++ match fs_lookup f (dir ++ [c]) with
                       | None => [c]
                       | Some _ => []
                       end).
  { unfold with_item_files. rewrite !fs_children_set.
    rewrite !decide_False by apply snoc_ne_self. rewrite !app_nil_r.
    destruct (fs_lookup f (dir ++ [c])) eqn:Hs; [rewrite app_nil_r; reflexivity|].
    rewrite fs_children_set, decide_True by reflexivity.
    rewrite <- (fs_lookup_nonempty _ _ (snoc_not_nil dir c)), Hs. reflexivity. }
  rewrite Hdirs, plists_in_app. rewrite (snoc2_snoc dir c item_uuid).
  set (g := dict_set ((dir ++ [c]) ++ [item_uuid]) (File encoded) _).
  assert (Hold : plists_in g dir (fs_children f dir) []
                 = plists_in f dir (fs_children f dir) []).
  { apply plists_in_ext. intros s Hs.
    apply fs_children_iff in Hs. destruct Hs as (v & Hv).
    assert (Hsc : fs_lookup f (dir ++ [c]) = None -> dir ++ [s] <> dir ++ [c]).
    { intros Hnone Heq. rewrite Heq, Hnone in Hv. discriminate Hv. }
    split.
    - unfold g. rewrite <- snoc2_snoc.
      rewrite fs_lookup_set_ne by (apply not_eq_sym, snoc_ne_snoc2).
      destruct (fs_lookup f (dir ++ [c])) eqn:Hshard'; [reflexivity|].
      apply fs_lookup_set_ne. apply not_eq_sym, Hsc. reflexivity.
    - unfold g. rewrite fs_children_set, list.filter_app.
      assert (Hnew : filter (fun e => endswith e (py ".plist") = true)
                       (if decide (dir ++ [c] = dir ++ [s])
                        then match dict_get ((dir ++ [c]) ++ [item_uuid])
                                     match fs_lookup f (dir ++ [c]) with
                                     | None => dict_set (dir ++ [c]) Dir f
                                     | Some _ => f
                                     end with
                             | Some _ => []
                             | None => [item_uuid]
                             end
                        else []) = []).
      { destruct (decide (dir ++ [c] = dir ++ [s])); [|reflexivity].
        destruct (dict_get _ _); [reflexivity|].
        rewrite filter_cons_False by (rewrite Hid; discriminate). reflexivity. }
      rewrite Hnew, app_nil_r.
      destruct (fs_lookup f (dir ++ [c])) eqn:Hshard'; [reflexivity|].
      rewrite fs_children_set.
      rewrite decide_False; [rewrite app_nil_r; reflexivity|].
      apply not_eq_sym, snoc_ne_self. }
  rewrite Hold.
  destruct (fs_lookup f (dir ++ [c])) as [n|] eqn:Hs; [reflexivity|].
  rewrite plists_in_cons. cbn [plists_in fold_left].
  assert (Hg : fs_lookup g (dir ++ [c]) = Some Dir).
  { unfold g. rewrite <- snoc2_snoc.
    rewrite fs_lookup_set_ne by (apply not_eq_sym, snoc_ne_snoc2).
    apply fs_lookup_set_eq, snoc_not_nil. }
  rewrite Hg. unfold g. rewrite fs_children_set.
  rewrite decide_True by reflexivity.
  rewrite fs_children_set.
  rewrite decide_False by (apply not_eq_sym, snoc_ne_self).
  rewrite (empty_missing_shard Hs). cbn [app].
  destruct (dict_get _ _); cbn [app].
  - rewrite app_nil_r. reflexivity.
  - rewrite filter_cons_False by (rewrite Hid; discriminate).
    rewrite app_nil_r. reflexivity.
Qed.

Lemma item_files_record_listed :
  In (dir ++ [c; item_uuid ++ py ".plist"])
    (plists_in (with_item_files f (dir ++ [c]) item_uuid bs encoded) dir
       (fs_children (with_item_files f (dir ++ [c]) item_uuid bs encoded) dir)
       []).
Proof.
  apply plists_in_members.
  exists c, (item_uuid ++ py ".plist"), (File bs).
  split; [reflexivity|]. split; [apply item_files_shard|].
  split; [apply item_files_record | apply endswith_app].
Qed.

(** The record files listed afterwards, the new one apart, are as they
    were. *)
Lemma item_files_old_records q :
  In q (plists_in (with_item_files f (dir ++ [c]) item_uuid bs encoded) dir
          (fs_children (with_item_files f (dir ++ [c]) item_uuid bs encoded) dir)
          []) ->
  q <> dir ++ [c; item_uuid ++ py ".plist"] ->
  fs_lookup (with_item_files f (dir ++ [c]) item_uuid bs encoded) q
  = fs_lookup f q.
Proof.
  intros Hin Hq. apply plists_in_members in Hin.
  destruct Hin as (s & e & n & -> & _ & _ & Hext).
  apply item_files_frame; [|exact Hq|].
  - intros Heq. apply app_inv_head in Heq.
    injection Heq as _ ->. rewrite Hid in Hext. discriminate Hext.
  - apply not_eq_sym, snoc_ne_snoc2.
Qed.
End item_files.

Lemma content_loaded_transfer ds1 ds2 w1 w2 k text :
  path ds1 = path ds2 ->
  (forall q data, item_path ds1 k = Ok q ->
     fs_lookup (fs w1) q = Some (File data) ->
     fs_lookup (fs w2) q = Some (File data)) ->
  content_loaded ds1 w1 k text -> content_loaded ds2 w2 k text.
Proof.
  intros Hpath Hkeep (q & content & Hq & Hfile & Hrouted).
  exists q, content.
  split; [unfold item_path in *; rewrite <- Hpath; exact Hq|].
  pose proof (Hkeep _ _ Hq Hfile) as Hfile2.
  split; [exact Hfile2|].
  destruct (routed_to_decoder content); [|exact Hrouted].
  destruct Hrouted as (extracted & Hex & Hdec). exists extracted.
  split; [|exact Hdec].
  destruct (extract_rtf_content_same_file q content w1 w2 Hfile Hfile2)
    as (r & out & Hr1 & Hr2).
  rewrite Hr1 in Hex. rewrite Hr2. exact Hex.
Qed.

Lemma content_loaded_functional ds w k t1 t2 :
  content_loaded ds w k t1 -> content_loaded ds w k t2 -> t1 = t2.
Proof.
  intros (q1 & c1 & Hq1 & Hf1 & Hr1) (q2 & c2 & Hq2 & Hf2 & Hr2).
  rewrite Hq1 in Hq2. injection Hq2 as <-.
  rewrite Hf1 in Hf2. injection Hf2 as <-.
  destruct (routed_to_decoder c1).
  - destruct Hr1 as (e1 & He1 & Hd1). destruct Hr2 as (e2 & He2 & Hd2).
    rewrite He1 in He2. injection He2 as <-. congruence.
  - congruence.
Qed.

Section reopening.
Context `{Runtime}.

(** The file system a successful [add_item] leaves in a store that has
    its pages directory. *)
Lemma add_item_fs self name text format w item_uuid self' w' :
  fs_lookup (fs w) (path self ++ [py "pages"]) = Some Dir ->
  add_item self name text format w = (Ok (item_uuid, self'), w') ->
  exists c rest encoded bs,
    let shard := (path self ++ [py "pages"]) ++ [[c]] in
    item_uuid = c :: rest
    /\ utf8_encode text = Ok encoded
    /\ plist_dumps (metadata_record item_uuid name format (sha1_hexdigest encoded))
       = Ok bs
    /\ (fs_lookup (fs w) shard = None \/ fs_lookup (fs w) shard = Some Dir)
    /\ fs w' = with_item_files (fs w) shard item_uuid bs encoded.
Proof.
  intros Hpages Hadd. apply add_item_steps in Hadd.
  destruct Hadd as (c & rest & encoded & w0 & w1 & Hid & Henc & Hfs0 & _
                    & Hplist & Hfile & _).
  cbv zeta in Hplist, Hfile. rewrite snoc2_snoc in Hplist, Hfile.
  set (shard := (path self ++ [py "pages"]) ++ [[c]]) in *.
  unfold save_plist in Hplist. rewrite dirname_snoc in Hplist.
  run_inv Hplist as u wm Hmk.
  unfold shard in Hmk.
  rewrite os_makedirs_child_run in Hmk by (rewrite Hfs0; exact Hpages).
  fold shard in Hmk. rewrite Hfs0 in Hmk.
  destruct (encrypted self) eqn:Hplain; [discriminate Hplist|].
  apply dump_plist_ok in Hplist. destruct Hplist as (bs & Hd & Hfs1 & _).
  unfold save_file in Hfile. rewrite dirname_snoc, Hplain in Hfile.
  run_inv Hfile as u2 wn Hmk2.
  apply write_file_ok in Hfile. destruct Hfile as (Hfs2 & _).
  assert (Hstep : fs_lookup (fs wm) (path self ++ [py "pages"]) = Some Dir
                  /\ fs_lookup (fs wm) shard = Some Dir
                  /\ (fs_lookup (fs w) shard = None
                      \/ fs_lookup (fs w) shard = Some Dir)
                  /\ fs wm = match fs_lookup (fs w) shard with
                             | None => dict_set shard Dir (fs w)
                             | Some _ => fs w
                             end).
  { destruct (fs_lookup (fs w) shard) as [[data|]|] eqn:Hs;
      [discriminate Hmk| |]; injection Hmk as _ <-.
    - rewrite Hfs0. auto.
    - cbn [fs]. split.
      + rewrite fs_lookup_set_ne; [exact Hpages|].
        unfold shard. intros Heq. apply (f_equal (@length pystr)) in Heq.
        rewrite length_app in Heq. simpl in Heq. lia.
      + split; [apply fs_lookup_set_eq, snoc_not_nil | auto]. }
  destruct Hstep as (Hpm & Hsm & Hshard & Hfsm).
  assert (Hp1 : fs_lookup (fs w1) (path self ++ [py "pages"]) = Some Dir).
  { rewrite Hfs1, fs_lookup_set_ne; [exact Hpm|].
    unfold shard. rewrite <- app_assoc. apply snoc2_ne. }
  assert (Hs1 : fs_lookup (fs w1) shard = Some Dir).
  { rewrite Hfs1, fs_lookup_set_ne; [exact Hsm|].
    intros Heq. apply (f_equal (@length pystr)) in Heq.
    rewrite length_app in Heq. simpl in Heq. lia. }
  unfold shard in Hmk2.
  rewrite (os_makedirs_child_run _ _ _ Hp1) in Hmk2. fold shard in Hmk2.
  rewrite Hs1 in Hmk2. injection Hmk2 as _ <-.
  exists c, rest, encoded, bs. cbv zeta. fold shard.
  split; [exact Hid|]. split; [exact Henc|]. split; [exact Hd|].
  split; [exact Hshard|].
  unfold with_item_files. rewrite Hfs2, Hfs1, Hfsm. reflexivity.
Qed.

Lemma load_item_plist_run ds q w data :
  encrypted ds = false ->
  fs_lookup (fs w) q = Some (File data) ->
  forall tbl,
    load_item_plist ds q tbl w
    = match plist_loads data with
      | Ok pl => (Ok (dict_set (stem q) pl tbl), w)
      | Raise ExpatError =>
        (Ok tbl, printed w [py "Skipping " ++ stem q ++ py " due to invalid plist"])
      | Raise e => (Raise e, w)
      end.
Proof.
  intros Hplain Hfile tbl. unfold load_item_plist, try_except, bind.
  rewrite (load_plist_run _ _ _ data Hplain Hfile).
  destruct (plist_loads data) as [pl|e]; [reflexivity|].
  destruct e; reflexivity.
Qed.

(** The first loop of [open] over the old record files and a new one:
    the new record is held under its identifier, the other identifiers
    hold what they held without it. *)
Lemma reopened_records ds (f f' : dict Path node) (record : Path)
    (item_uuid : pystr) bs pl :
  encrypted ds = false ->
  stem record = item_uuid ->
  fs_lookup f' record = Some (File bs) ->
  plist_loads bs = Ok pl ->
  forall paths tbl0 tbl0' w0 w0' tbl w1,
    fs w0 = f -> fs w0' = f' ->
    (forall q, In q paths -> q <> record -> fs_lookup f' q = fs_lookup f q) ->
    for_each (filter (fun q => q <> record) paths) (load_item_plist ds) tbl0 w0
    = (Ok tbl, w1) ->
    dict_get item_uuid tbl = None ->
    (forall k, k <> item_uuid -> dict_get k tbl0' = dict_get k tbl0) ->
    exists tbl' w1',
      for_each paths (load_item_plist ds) tbl0' w0' = (Ok tbl', w1')
      /\ fs w1' = f'
      /\ (forall k, k <> item_uuid -> dict_get k tbl' = dict_get k tbl)
      /\ (In record paths \/ dict_get item_uuid tbl0' = Some pl ->
          dict_get item_uuid tbl' = Some pl).
Proof.
  intros Hplain Hstem Hnew Hloads.
  induction paths as [|q paths IH];
    intros tbl0 tbl0' w0 w0' tbl w1 Hw0 Hw0' Hagree Hrun Hnone Hsame.
  - apply ret_ok in Hrun. destruct Hrun as [-> ->].
    exists tbl0', w0'. split; [reflexivity|]. split; [exact Hw0'|].
    split; [exact Hsame|]. intros [[]|Hget]. exact Hget.
  - cbn [for_each]. destruct (decide (q = record)) as [->|Hq].
    + rewrite filter_cons_False in Hrun by (intros Hn; apply Hn; reflexivity).
      assert (Hstep : load_item_plist ds record tbl0' w0'
                      = (Ok (dict_set item_uuid pl tbl0'), w0')).
      { rewrite (load_item_plist_run _ _ _ bs Hplain)
          by (rewrite Hw0'; exact Hnew).
        rewrite Hloads, Hstem. reflexivity. }
      rewrite (bind_run _ _ _ _ _ Hstep).
      destruct (IH tbl0 (dict_set item_uuid pl tbl0') w0 w0' tbl w1 Hw0 Hw0')
        as (tbl' & w1' & Hrun' & Hfs' & Hother & Hthere).
      * intros q' Hin. apply Hagree. right. exact Hin.
      * exact Hrun.
      * exact Hnone.
      * intros k Hk. rewrite dict_get_set_ne by congruence. apply Hsame, Hk.
      * exists tbl', w1'. split; [exact Hrun'|]. split; [exact Hfs'|].
        split; [exact Hother|]. intros _. apply Hthere. right.
        apply dict_get_set_eq.
    + rewrite filter_cons_True in Hrun by exact Hq.
      cbn [for_each] in Hrun. run_inv Hrun as tbl1 wa Hstep.
      destruct (load_item_plist_inv _ _ _ _ _ _ Hplain Hstep)
        as (Hfsa & data & Hfile & _).
      rewrite (load_item_plist_run _ _ _ data Hplain Hfile) in Hstep.
      assert (Hfile' : fs_lookup (fs w0') q = Some (File data)).
      { rewrite Hw0', Hagree, <- Hw0; [exact Hfile | left; reflexivity | exact Hq]. }
      pose proof (load_item_plist_run _ _ _ data Hplain Hfile' tbl0') as Hstep'.
      destruct (plist_loads data) as [plq|e] eqn:Hparsed.
      * injection Hstep as <- <-.
        assert (Hne : stem q <> item_uuid).
        { intros Heq.
          destruct (load_item_plists_inv ds _ Hplain _ _ _ _ Hrun)
            as (_ & Hkeys & _).
          apply dict_get_none_keys in Hnone. apply Hnone, Hkeys.
          apply dict_keys_set_in. left. symmetry. exact Heq. }
        rewrite (bind_run _ _ _ _ _ Hstep').
        destruct (IH (dict_set (stem q) plq tbl0) (dict_set (stem q) plq tbl0')
                    w0 w0' tbl w1 Hw0 Hw0')
          as (tbl' & w1' & Hrun' & Hfs' & Hother & Hthere).
        -- intros q' Hin. apply Hagree. right. exact Hin.
        -- exact Hrun.
        -- exact Hnone.
        -- intros k Hk. destruct (decide (k = stem q)) as [->|Hks].
           ++ rewrite !dict_get_set_eq. reflexivity.
           ++ rewrite !dict_get_set_ne by congruence. apply Hsame, Hk.
        -- exists tbl', w1'. split; [exact Hrun'|]. split; [exact Hfs'|].
           split; [exact Hother|]. intros [[Heq|Hin]|Hget].
           ++ congruence.
           ++ apply Hthere. left. exact Hin.
           ++ apply Hthere. right.
              rewrite dict_get_set_ne by congruence. exact Hget.
      * destruct e; try discriminate Hstep.
        set (line := py "Skipping " ++ stem q ++ py " due to invalid plist") in *.
        injection Hstep as <- <-.
        rewrite (bind_run _ _ _ _ _ Hstep').
        destruct (IH tbl0 tbl0' (printed w0 [line]) (printed w0' [line]) tbl w1
                    Hw0 Hw0')
          as (tbl' & w1' & Hrun' & Hfs' & Hother & Hthere).
        -- intros q' Hin. apply Hagree. right. exact Hin.
        -- exact Hrun.
        -- exact Hnone.
        -- exact Hsame.
        -- exists tbl', w1'. split; [exact Hrun'|]. split; [exact Hfs'|].
           split; [exact Hother|]. intros [[Heq|Hin]|Hget].
           ++ congruence.
           ++ apply Hthere. left. exact Hin.
           ++ apply Hthere. right. exact Hget.
Qed.

Lemma load_item_alias_run ds k pl uti tbl w :
  dict_get k (item_plists ds) = Some pl ->
  getitem pl (py "uti") = Ok uti ->
  is_alias uti = true ->
  load_item ds k tbl w = (Ok tbl, w).
Proof.
  intros Hget Huti Halias. unfold load_item, item_plist.
  rewrite Hget, bind_lift, Huti, bind_lift. unfold is_alias in Halias.
  destruct (eq_str uti (py "com.fm.page-alias")); [reflexivity|].
  rewrite bind_lift. cbn [orb] in Halias. rewrite Halias. reflexivity.
Qed.

Lemma load_item_content_run ds k pl uti text tbl w :
  encrypted ds = false ->
  dict_get k (item_plists ds) = Some pl ->
  getitem pl (py "uti") = Ok uti ->
  is_alias uti = false ->
  content_loaded ds w k text ->
  exists out, load_item ds k tbl w = (Ok (dict_set k text tbl), printed w out).
Proof.
  intros Hplain Hget Huti Halias (q & content & Hq & Hfile & Hrouted).
  unfold is_alias in Halias. apply orb_false_iff in Halias.
  destruct Halias as [Hpage Halias].
  assert (Hload : exists out loaded,
            load_file ds q w = (Ok loaded, printed w out)
            /\ decode_method loaded = Ok text).
  { unfold load_file. rewrite Hplain.
    rewrite (bind_run _ _ _ _ _ (read_file_run _ _ _ Hfile)).
    fold (routed_to_decoder content).
    destruct (routed_to_decoder content).
    - destruct Hrouted as (extracted & Hex & Hdec).
      destruct (extract_rtf_content_run q w w eq_refl) as (r & out & Hrun & _).
      rewrite Hrun in Hex. cbn [fst] in Hex. subst r.
      exists out, (RBytes extracted). split; [exact Hrun | exact Hdec].
    - exists [], (RBytes content). rewrite printed_nil.
      split; [reflexivity | exact Hrouted]. }
  destruct Hload as (out & loaded & Hload & Hdec). exists out.
  unfold load_item, item_plist.
  rewrite Hget, bind_lift, Huti, bind_lift, Hpage, bind_lift, Halias.
  rewrite Hq, bind_lift.
  rewrite (bind_run _ _ _ _ _ (path_exists_run _ _)), Hfile. cbn [negb].
  rewrite (bind_run _ _ _ _ _ Hload), Hdec, bind_lift. reflexivity.
Qed.

(** The second loop of [open] returns when every record has a type tag
    and the content of every item that is not an alias can be loaded. *)
Lemma load_items_run ds (f : dict Path node) l :
  encrypted ds = false ->
  (forall k, In k l ->
     exists pl uti,
       dict_get k (item_plists ds) = Some pl
       /\ getitem pl (py "uti") = Ok uti
       /\ (is_alias uti = false ->
           exists text w, fs w = f /\ content_loaded ds w k text)) ->
  forall tbl0 w0,
    fs w0 = f ->
    exists tbl w1, for_each l (load_item ds) tbl0 w0 = (Ok tbl, w1) /\ fs w1 = f.
Proof.
  intros Hplain. induction l as [|k l IH]; intros Hall tbl0 w0 Hw0.
  - exists tbl0, w0. split; [reflexivity | exact Hw0].
  - destruct (Hall k (or_introl eq_refl)) as (pl & uti & Hget & Huti & Hcontent).
    cbn [for_each].
    assert (Hrest : forall k', In k' l ->
              exists pl uti,
                dict_get k' (item_plists ds) = Some pl
                /\ getitem pl (py "uti") = Ok uti
                /\ (is_alias uti = false ->
                    exists text w, fs w = f /\ content_loaded ds w k' text)).
    { intros k' Hin. apply Hall. right. exact Hin. }
    destruct (is_alias uti) eqn:Halias.
    + rewrite (bind_run _ _ _ _ _
                 (load_item_alias_run _ _ _ _ tbl0 w0 Hget Huti Halias)).
      apply IH; assumption.
    + destruct (Hcontent eq_refl) as (text & w & Hw & Hloaded).
      assert (Hhere : content_loaded ds w0 k text).
      { eapply content_loaded_fs; [|exact Hloaded]. congruence. }
      destruct (load_item_content_run _ _ _ _ _ tbl0 _ Hplain Hget Huti Halias Hhere)
        as (out & Hstep).
      rewrite (bind_run _ _ _ _ _ Hstep). apply IH; assumption.
Qed.
End reopening.

Lemma dict_get_in_keys {K V} `{EqDecision K} (d : dict K V) k :
  In k (dict_keys d) -> exists v, dict_get k d = Some v.
Proof.
  intros Hin. destruct (dict_get k d) as [v|] eqn:Hget; [exists v; reflexivity|].
  apply dict_get_none_keys in Hget. contradiction.
Qed.

Section reopening_a_store.
Context `{Runtime}.

(** X27: an item added to an opened store is there when the store is
    opened again.  When the codec reads back what it writes, every entry
    of the file system lies in a directory and has a name without [/],
    as the entries of a disk have, the new identifier is not
    one of the store's, nothing sits at the path of the new record, the
    encoded text is not routed to the RTFD decoder and the format is not
    an alias, then [open] on the world [add_item] left succeeds, and
    under every identifier the store it returns holds the text and the
    record that the store returned by [add_item] holds; under the new
    identifier that is the text that was added. *)
Theorem added_item_survives_reopening
    (p : Path) (pw : option pystr) (im : bool) (w0 : World) (ds : DataStore)
    (w : World) (name text format item_uuid : pystr) (ds' : DataStore)
    (w' : World) (encoded : bytes) :
  codec_round_trip ->
  parents_are_directories (fs w) ->
  names_without_slash (fs w) ->
  open p pw im w0 = (Ok ds, w) ->
  add_item ds name text format w = (Ok (item_uuid, ds'), w') ->
  ~ In item_uuid (item_uuids ds) ->
  fs_lookup (fs w)
    (p ++ [py "pages"; firstn 1 item_uuid; item_uuid ++ py ".plist"]) = None ->
  utf8_encode text = Ok encoded ->
  routed_to_decoder encoded = false ->
  is_alias (PStr format) = false ->
  exists ds'' w'',
    open p pw im w' = (Ok ds'', w'')
    /\ item ds'' item_uuid = Ok text
    /\ forall k, item ds'' k = item ds' k /\ item_plist ds'' k = item_plist ds' k.
Proof.
  intros Hcodec Hwf Hnames Hopen Hadd Hfresh Hfree Henc Hrouted Halias.
  destruct (open_ok_checks _ _ _ _ _ _ Hopen)
    as (si & props & Hchecks & Hpages & Hpg).
  set (ds0 := checked_store p pw im si props) in *.
  assert (Hplain : forall tbl, encrypted (set_item_plists ds0 tbl) = false)
    by reflexivity.
  unfold open_pages in Hpg. change (path ds0) with p in Hpg.
  rewrite (bind_run _ _ _ _ _ (get_plists_run _ _ Hpages)) in Hpg.
  run_inv Hpg as tbl wb Hrec. run_inv Hpg as contents wc Hitems.
  apply ret_ok in Hpg. destruct Hpg as [-> Hw]. subst wc.
  cbn [item_plists set_item_plists set_items] in Hitems.
  pose proof (load_item_plists_fs _ _ _ _ _ Hrec) as Hfsb.
  pose proof (load_item_plists_nodup _ _ _ _ _ Hrec) as Hnd.
  destruct (load_items_ok _ _ _ _ _ _ Hitems) as (Hfsc & Hold).
  set (ds1 := set_item_plists ds0 tbl) in *.
  assert (Hf0 : fs w0 = fs w) by congruence.
  assert (Hfb : fs wb = fs w) by congruence.
  assert (Hkeys : forall k, In k (dict_keys tbl) -> ~ In 47 k).
  { intros k Hk. apply dict_get_in_keys in Hk. destruct Hk as (plk & Hget).
    destruct (load_item_plists_inv ds0 _ eq_refl _ _ _ _ Hrec) as (Hsound & _).
    destruct (Hsound k plk Hget)
      as [Hnil|(q & data & Hq & Hstem & Hfile & _)]; [discriminate Hnil|].
    apply plists_in_members in Hq. destruct Hq as (s & e & n & -> & _ & Hn & _).
    rewrite <- Hstem. apply stem_slashless.
    rewrite Hf0 in Hn. apply Hnames in Hn.
    change [s; e] with ([s] ++ [e]) in Hn |- *.
    rewrite !app_assoc in Hn |- *. rewrite last_last.
    apply List.Forall_app in Hn. destruct Hn as [_ Hn].
    apply List.Forall_cons_iff in Hn. exact (proj1 Hn). }
  clear Hnames.
  set (f := fs w) in *.
  rewrite Hf0 in Hpages, Hrec.
  (* the new files *)
  destruct (add_item_fs (set_items ds1 contents) name text format w item_uuid
              ds' w' Hpages Hadd)
    as (c & rest & encoded' & bs & Hid & Henc' & Hd & Hshard & Hfs').
  rewrite Henc in Henc'. injection Henc' as <-.
  destruct (add_item_ok _ _ _ _ _ _ _ _ Hadd)
    as (u & _ & _ & encoded' & _ & Hu & _ & Henc' & _ & _ & _ & Hds' & _).
  rewrite Henc in Henc'. injection Henc' as <-.
  cbv zeta in Hshard, Hfs'. change (path (set_items ds1 contents)) with p in *.
  fold f in Hshard, Hfs'.
  set (dir := p ++ [py "pages"]) in *.
  set (pl := metadata_record item_uuid name format (sha1_hexdigest encoded)) in *.
  pose proof (Hcodec _ _ Hd) as Hparse.
  assert (Hnot : endswith item_uuid (py ".plist") = false)
    by (rewrite Hu; apply uuid_not_plist).
  assert (Hrecord : fs_lookup f (dir ++ [[c]; item_uuid ++ py ".plist"]) = None).
  { unfold dir. rewrite <- app_assoc. rewrite Hid in Hfree |- *. exact Hfree. }
  set (record := dir ++ [[c]; item_uuid ++ py ".plist"]) in *.
  set (f' := with_item_files f (dir ++ [[c]]) item_uuid bs encoded) in *.
  assert (Hkeep : forall q n, fs_lookup f q = Some n ->
                    q <> dir ++ [[c]; item_uuid] -> fs_lookup f' q = Some n)
    by (apply item_files_keep; assumption).
  assert (Hnone : dict_get item_uuid tbl = None)
    by (apply dict_get_none_keys; exact Hfresh).
  assert (Hstem : stem record = item_uuid).
  { unfold record. rewrite snoc2_snoc. apply stem_plist. rewrite Hid. discriminate. }
  (* the checks *)
  assert (Hchecks' : store_checks_pass p w' si props).
  { destruct Hchecks as (sdata & pdata & enc & ver & Hs & Hp & Hrest).
    exists sdata, pdata, enc, ver. rewrite Hfs'. rewrite Hf0 in Hs, Hp.
    split; [|split; [|exact Hrest]]; apply Hkeep; try assumption;
      unfold dir; rewrite <- app_assoc; intros Heq;
      apply app_inv_head in Heq; discriminate Heq. }
  assert (Hpages' : fs_lookup (fs w') dir = Some Dir).
  { rewrite Hfs'. apply Hkeep; [exact Hpages|]. apply not_eq_sym, snoc2_ne. }
  (* the records *)
  unfold load_item_plists in Hrec.
  rewrite <- (item_files_plists f dir [c] item_uuid bs encoded
                Hwf Hnot Hshard Hrecord) in Hrec.
  fold f' record in Hrec.
  destruct (reopened_records ds0 f f' record item_uuid bs pl eq_refl Hstem
              (item_files_record f dir [c] item_uuid bs encoded) Hparse
              (plists_in f' dir (fs_children f' dir) []) [] [] w0 w' tbl wb
              Hf0 Hfs'
              (item_files_old_records f dir [c] item_uuid bs encoded Hnot Hshard)
              Hrec Hnone (fun k _ => eq_refl))
    as (tbl' & wb' & Hrec' & Hfb' & Hother & Hthere).
  specialize (Hthere (or_introl
    (item_files_record_listed f dir [c] item_uuid bs encoded Hshard))).
  pose proof (load_item_plists_nodup ds0 _ _ _ _ Hrec') as Hnd'.
  set (ds1' := set_item_plists ds0 tbl') in *.
  (* the contents *)
  assert (Hcontent : content_loaded ds1' wb' item_uuid text).
  { exists (dir ++ [[c]; item_uuid]), encoded.
    split; [rewrite (item_path_uuid ds1' item_uuid u c rest Hu Hid);
            change (path ds1') with p; unfold dir;
            rewrite <- app_assoc; reflexivity|].
    split; [rewrite Hfb'; apply item_files_content|].
    rewrite Hrouted. apply utf8_round_trip, Henc. }
  assert (Hmoved : forall k t, k <> item_uuid -> ~ In 47 k ->
            content_loaded ds1 wb k t -> content_loaded ds1' wb' k t).
  { intros k t Hk Hslash. apply content_loaded_transfer; [reflexivity|].
    intros q data Hq Hfile. rewrite Hfb'. rewrite Hfb in Hfile.
    apply Hkeep; [exact Hfile|].
    destruct (item_path_slashless ds1 k q Hslash Hq) as [-> | Hlen].
    - change (path ds1) with p. unfold dir.
      rewrite <- app_assoc. intros Heq. apply app_inv_head in Heq.
      injection Heq as _ Heq. exact (Hk Heq).
    - change (path ds1) with p in Hlen. intros Heq.
      apply (f_equal (@length _)) in Heq. unfold dir in Heq.
      rewrite !length_app in Heq. cbn [length] in Heq. lia. }
  destruct (load_items_run ds1' f' (dict_keys tbl') eq_refl) with (tbl0 := @nil (pystr * pystr)) (w0 := wb')
    as (contents' & wc' & Hitems' & Hfc').
  { intros k Hin. destruct (decide (k = item_uuid)) as [->|Hk].
    - exists pl, (PStr format). split; [exact Hthere|]. split; [reflexivity|].
      intros _. exists text, wb'. split; [exact Hfb' | exact Hcontent].
    - apply dict_get_in_keys in Hin. destruct Hin as (plk & Hget).
      pose proof Hget as Hget0. rewrite (Hother k Hk) in Hget0.
      destruct (Hold k) as [_ Hthere0].
      destruct (Hthere0 (dict_get_some_keys _ _ _ Hget0) Hnd)
        as (pl0 & uti & Hpl0 & Huti & Hres).
      change (item_plists ds1) with tbl in Hpl0.
      rewrite Hget0 in Hpl0. injection Hpl0 as <-.
      exists plk, uti. split; [exact Hget|]. split; [exact Huti|].
      intros Hna. rewrite Hna in Hres. destruct Hres as (t & _ & Hloaded).
      exists t, wb'. split; [exact Hfb'|].
      apply Hmoved; [exact Hk | | exact Hloaded].
      apply Hkeys. eapply dict_get_some_keys, Hget0. }
  { exact Hfb'. }
  destruct (load_items_ok _ _ _ _ _ _ Hitems') as (_ & Hnew).
  assert (Htext : dict_get item_uuid contents' = Some text).
  { destruct (Hnew item_uuid) as [_ Hthere'].
    destruct (Hthere' (dict_get_some_keys _ _ _ Hthere) Hnd')
      as (pl0 & uti & Hpl0 & Huti & Hres).
    change (item_plists ds1') with tbl' in Hpl0.
    rewrite Hthere in Hpl0. injection Hpl0 as <-.
    change (getitem pl (py "uti")) with (@Ok pvalue (PStr format)) in Huti.
    injection Huti as <-. rewrite Halias in Hres.
    destruct Hres as (t & Hget & Hloaded).
    rewrite (content_loaded_functional _ _ _ _ _ Hcontent Hloaded). exact Hget. }
  exists (set_items ds1' contents'), wc'. split.
  { rewrite (open_checked _ _ _ _ _ _ Hchecks').
    rewrite (bind_run _ _ _ _ _ (is_dir_run _ _)). fold dir. rewrite Hpages'.
    cbn [negb]. unfold open_pages. fold ds0. change (path ds0 ++ [py "pages"]) with dir.
    rewrite (bind_run _ _ _ _ _ (get_plists_run _ _ Hpages')). rewrite Hfs'.
    unfold load_item_plists. rewrite (bind_run _ _ _ _ _ Hrec').
    fold ds1'. change (item_plists ds1') with tbl'.
    rewrite (bind_run _ _ _ _ _ Hitems'). reflexivity. }
  split.
  { unfold item. cbn [items set_items]. rewrite Htext. reflexivity. }
  intros k. rewrite Hds'. unfold item, item_plist, ds1', ds1.
  cbn [items item_plists set_items set_item_plists].
  destruct (decide (k = item_uuid)) as [->|Hk].
  { rewrite !dict_get_set_eq, Htext, Hthere. split; reflexivity. }
  rewrite !dict_get_set_ne by congruence. rewrite (Hother k Hk).
  split; [|reflexivity].
  assert (Hsame : dict_get k contents' = dict_get k contents); [|rewrite Hsame; reflexivity].
  destruct (Hold k) as [Hout Hin]. destruct (Hnew k) as [Hout' Hin'].
  destruct (dict_get k tbl) as [plk|] eqn:Hget.
  - pose proof Hget as Hget'. rewrite <- (Hother k Hk) in Hget'.
    destruct (Hin (dict_get_some_keys _ _ _ Hget) Hnd)
      as (pl1 & uti1 & Hpl1 & Huti1 & Hres1).
    destruct (Hin' (dict_get_some_keys _ _ _ Hget') Hnd')
      as (pl2 & uti2 & Hpl2 & Huti2 & Hres2).
    change (item_plists ds1) with tbl in Hpl1.
    change (item_plists ds1') with tbl' in Hpl2.
    rewrite Hget in Hpl1. rewrite Hget' in Hpl2.
    injection Hpl1 as <-. injection Hpl2 as <-.
    rewrite Huti1 in Huti2. injection Huti2 as <-.
    destruct (is_alias uti1); [congruence|].
    destruct Hres1 as (t1 & Hget1 & Hloaded1).
    destruct Hres2 as (t2 & Hget2 & Hloaded2).
    rewrite Hget1, Hget2. f_equal.
    exact (content_loaded_functional _ _ _ _ _ Hloaded2
             (Hmoved k t1 Hk
                (Hkeys k (dict_get_some_keys _ _ _ Hget)) Hloaded1)).
  - assert (Hget' : dict_get k tbl' = None) by (rewrite (Hother k Hk); exact Hget).
    rewrite Hout by (apply dict_get_none_keys; exact Hget).
    rewrite Hout' by (apply dict_get_none_keys; exact Hget').
    reflexivity.
Qed.
End reopening_a_store.

(** ** Runs on the sample stores *)

Lemma read_int_inverts_le32_witness :
  read_int (bytes_of "abcd") < 2 ^ 32
  /\ le32 (read_int (bytes_of "abcd")) = bytes_of "abcd".
Proof. apply (read_int_inverts_le32 (bytes_of "abcd")). reflexivity. Defined.

Lemma mismatched_store_has_uuids : records_have_uuid mismatched_store.
Proof.
  intros k pl. unfold mismatched_store. cbn [item_plists dict_get].
  destruct (decide (k = py "a1")); [intros [= <-]; eexists; reflexivity|].
  destruct (decide (k = py "b2")); [intros [= <-]; eexists; reflexivity|].
  discriminate.
Qed.

Lemma validate_reports_witness :
  validate mismatched_store Sample.world0
  = (Ok false, printed Sample.world0 [py "[WARN] UUID mismatch for b2"]).
Proof.
  rewrite (validate_reports_every_mismatch mismatched_store Sample.world0
             mismatched_store_has_uuids).
  vm_compute. reflexivity.
Defined.

Lemma validate_returns_witness :
  exists valid w', validate mismatched_store Sample.world0 = (Ok valid, w').
Proof.
  apply (proj2 (validate_returns_iff_records_have_uuid mismatched_store
                  Sample.world0)).
  exact mismatched_store_has_uuids.
Defined.

Lemma add_item_keeps_valid_witness :
  exists item_uuid self' w',
    add_item (new_store Sample.root None false)
      (py "Index") (py "Write about Index here.")
      (py "net.daringfireball.markdown") Sample.world0
    = (Ok (item_uuid, self'), w')
    /\ validate self' w' = (Ok true, w').
Proof.
  destruct (add_item (new_store Sample.root None false)
              (py "Index") (py "Write about Index here.")
              (py "net.daringfireball.markdown") Sample.world0)
    as [[[item_uuid self']|e] w'] eqn:Hrun.
  - exists item_uuid, self', w'. split; [reflexivity|].
    apply (add_item_keeps_the_store_valid (new_store Sample.root None false)
             _ _ _ Sample.world0 Sample.world0 _ _ _ _ eq_refl Hrun).
  - vm_compute in Hrun. discriminate Hrun.
Defined.

Lemma add_item_succeeds_witness :
  exists self' w',
    add_item (new_store Sample.root None false) (py "Notes") (py "# Notes")
      (py "net.daringfireball.markdown") (Sample.make_store [])
    = (Ok (next_uuid (Sample.make_store []), self'), w').
Proof.
  eapply (add_item_succeeds (new_store Sample.root None false)).
  - reflexivity.
  - vm_compute. reflexivity.
  - vm_compute. reflexivity.
  - vm_compute. reflexivity.
  - left. vm_compute. reflexivity.
  - vm_compute. discriminate.
  - vm_compute. discriminate.
Defined.

Lemma add_item_leaves_the_rest_witness :
  exists item_uuid self' w',
    add_item (new_store Sample.root None false) (py "Notes") (py "# Notes")
      (py "net.daringfireball.markdown") Sample.two_page_store
    = (Ok (item_uuid, self'), w')
    /\ item self' item_uuid = Ok (py "# Notes")
    /\ properties self' = PlDict []
    /\ stdout w' = stdout Sample.two_page_store.
Proof.
  destruct (add_item (new_store Sample.root None false) (py "Notes") (py "# Notes")
              (py "net.daringfireball.markdown") Sample.two_page_store)
    as [[[item_uuid self']|e] w'] eqn:Hrun.
  - exists item_uuid, self', w'. split; [reflexivity|].
    destruct (add_item_leaves_the_rest _ _ _ _ _ _ _ _ Hrun)
      as (_ & Hitem & _ & _ & Hprops & Hout & _).
    split; [exact Hitem|]. split; [exact Hprops | exact Hout].
  - vm_compute in Hrun. discriminate Hrun.
Defined.

Lemma added_item_is_read_back_witness :
  exists item_uuid self' w',
    add_item (new_store Sample.root None false) (py "Notes") (py "# Notes")
      (py "net.daringfireball.markdown") Sample.two_page_store
    = (Ok (item_uuid, self'), w')
    /\ load_item self' item_uuid [] w' = (Ok [(item_uuid, py "# Notes")], w').
Proof.
  destruct (add_item (new_store Sample.root None false) (py "Notes") (py "# Notes")
              (py "net.daringfireball.markdown") Sample.two_page_store)
    as [[[item_uuid self']|e] w'] eqn:Hrun.
  - exists item_uuid, self', w'. split; [reflexivity|].
    apply (added_item_is_read_back _ _ _ _ _ _ _ _ (bytes_of "# Notes") Hrun);
      vm_compute; reflexivity.
  - vm_compute in Hrun. discriminate Hrun.
Defined.

Lemma rtfd_prefixed_text_witness :
  let text := map Byte.to_N Sample.rtfd_content in
  exists item_uuid self' w' tbl' w'',
    add_item (new_store Sample.root None false) (py "Rich") text
      (py "com.apple.rtfd") Sample.two_page_store
    = (Ok (item_uuid, self'), w')
    /\ load_item self' item_uuid [] w' = (Ok tbl', w'')
    /\ exists text', tbl' = [(item_uuid, text')] /\ text' <> text.
Proof.
  intros text.
  destruct (add_item (new_store Sample.root None false) (py "Rich") text
              (py "com.apple.rtfd") Sample.two_page_store)
    as [[[item_uuid self']|e] w'] eqn:Hrun;
    [|vm_compute in Hrun; discriminate Hrun].
  destruct (load_item self' item_uuid [] w') as [[tbl'|e] w''] eqn:Hload.
  - exists item_uuid, self', w', tbl', w''.
    split; [reflexivity|]. split; [exact Hload|].
    apply (rtfd_prefixed_text_is_not_read_back _ _ _ _ _ _ _ _ Sample.rtfd_content
             Hrun) with (tbl := []) (w'' := w'');
      [vm_compute; reflexivity | vm_compute; reflexivity
      | vm_compute; reflexivity | exact Hload].
  - exfalso. vm_compute in Hrun. injection Hrun as <- <- <-.
    vm_compute in Hload. discriminate Hload.
Defined.

Lemma open_only_reads_witness :
  exists r w',
    open Sample.root None false Sample.bad_record_store = (r, w')
    /\ fs w' = fs Sample.bad_record_store.
Proof.
  destruct (open Sample.root None false Sample.bad_record_store) as [r w'] eqn:Hrun.
  exists r, w'. split; [reflexivity|].
  exact (proj1 (open_only_reads_and_prints _ _ _ _ _ _ Hrun)).
Defined.

Lemma opened_records_witness :
  exists ds w',
    open Sample.root None false Sample.two_page_store = (Ok ds, w')
    /\ In (py "a1") (item_uuids ds).
Proof.
  destruct (open Sample.root None false Sample.two_page_store)
    as [[ds|e] w'] eqn:Hrun; [|vm_compute in Hrun; discriminate Hrun].
  exists ds, w'. split; [reflexivity|].
  destruct (opened_records_are_the_parsed_files _ _ _ _ _ _ Hrun) as [_ Hall].
  apply (Hall (py "a") (py "a1.plist")
           (Sample.record_bytes (py "a1") (py "Notes")
              (py "net.daringfireball.markdown"))
           (PlDict [(py "uuid", PStr (py "a1"));
                    (py "key", PStr (Sample.ascii_lower (py "Notes")));
                    (py "displayName", PStr (py "Notes"));
                    (py "uti", PStr (py "net.daringfireball.markdown"))]));
    vm_compute; reflexivity.
Defined.

Lemma create_layout_witness :
  exists ds w',
    create Sample.root (snd (os_mkdir [py "tmp"] Sample.world0)) = (Ok ds, w')
    /\ fs_lookup (fs w') (Sample.root ++ [py "pages"; py "f"]) = Some Dir
    /\ exists store_uuid index_uuid encoded,
         ds = created_store Sample.root store_uuid index_uuid encoded.
Proof.
  destruct (create Sample.root (snd (os_mkdir [py "tmp"] Sample.world0)))
    as [[ds|e] w'] eqn:Hrun; [|vm_compute in Hrun; discriminate Hrun].
  exists ds, w'. split; [reflexivity|].
  destruct (create_layout _ _ _ _ Hrun)
    as (su & iu & encoded & bsi & bsp & Hds & _ & _ & _ & Hshards & _).
  split; [apply (Hshards 15%nat); lia|].
  exists su, iu, encoded. exact Hds.
Defined.

Lemma dict_get_in {K V} `{EqDecision K} (d : dict K V) k v :
  dict_get k d = Some v -> In (k, v) d.
Proof.
  induction d as [|[k' v'] d IH]; simpl; [discriminate|].
  destruct (decide (k = k')) as [->|Hne].
  - intros [= ->]. left. reflexivity.
  - intros Hget. right. apply IH, Hget.
Qed.

Lemma parents_checked (f : dict Path node) :
  forallb (fun kv => match fs_lookup f (dirname (fst kv)) with
                     | Some Dir => true
                     | _ => false
                     end) f = true ->
  parents_are_directories f.
Proof.
  intros Hall q n Hq. destruct q as [|a q]; [reflexivity|].
  apply dict_get_in in Hq. rewrite forallb_forall in Hall.
  specialize (Hall _ Hq). cbn [fst] in Hall.
  destruct (fs_lookup f (dirname (a :: q))) as [[data|]|];
    try discriminate Hall. reflexivity.
Qed.

Lemma names_checked (f : dict Path node) :
  forallb (fun kv => forallb (fun name => negb (existsb (N.eqb 47) name))
                       (fst kv)) f = true ->
  names_without_slash f.
Proof.
  intros Hall q n Hq. destruct q as [|a q]; [constructor|].
  apply dict_get_in in Hq. rewrite forallb_forall in Hall.
  specialize (Hall _ Hq). cbn [fst] in Hall.
  rewrite forallb_forall in Hall. apply List.Forall_forall.
  intros name Hname Hin. specialize (Hall name Hname).
  apply negb_true_iff in Hall.
  assert (Hex : existsb (N.eqb 47) name = true); [|congruence].
  apply existsb_exists. exists 47. split; [exact Hin | apply N.eqb_refl].
Qed.

Lemma added_item_survives_witness :
  exists ds w item_uuid ds' w' ds'' w'',
    open Sample.root None false Sample.two_page_store = (Ok ds, w)
    /\ add_item ds (py "Todo") (py "- milk") (py "net.daringfireball.markdown") w
       = (Ok (item_uuid, ds'), w')
    /\ open Sample.root None false w' = (Ok ds'', w'')
    /\ item ds'' item_uuid = Ok (py "- milk")
    /\ item ds'' (py "a1") = Ok (py "# Notes").
Proof.
  destruct (open Sample.root None false Sample.two_page_store)
    as [[ds|e] w] eqn:Hopen; [|vm_compute in Hopen; discriminate Hopen].
  exists ds, w.
  destruct (add_item ds (py "Todo") (py "- milk")
              (py "net.daringfireball.markdown") w)
    as [[[item_uuid ds']|e] w'] eqn:Hadd.
  2: { vm_compute in Hopen. injection Hopen as <- <-.
       vm_compute in Hadd. discriminate Hadd. }
  exists item_uuid, ds', w'.
  assert (Hfacts : parents_are_directories (fs w)
                   /\ names_without_slash (fs w)
                   /\ ~ In item_uuid (item_uuids ds)
                   /\ fs_lookup (fs w)
                        (Sample.root
                         ++ [py "pages"; firstn 1 item_uuid;
                             item_uuid ++ py ".plist"]) = None
                   /\ item ds' (py "a1") = Ok (py "# Notes")).
  { vm_compute in Hopen. injection Hopen as <- <-.
    vm_compute in Hadd. injection Hadd as <- <- _.
    split; [apply parents_checked; vm_compute; reflexivity|].
    split; [apply names_checked; vm_compute; reflexivity|].
    split; [vm_compute; intuition discriminate|].
    split; vm_compute; reflexivity. }
  destruct Hfacts as (Hwf & Hnames & Hfresh & Hfree & Hnotes).
  destruct (added_item_survives_reopening _ _ _ _ _ _ _ _ _ _ _ _
              (bytes_of "- milk") sample_codec_round_trip Hwf Hnames Hopen Hadd
              Hfresh Hfree eq_refl eq_refl eq_refl)
    as (ds'' & w'' & Hopen' & Hitem & Hsame).
  exists ds'', w''.
  split; [reflexivity|]. split; [reflexivity|]. split; [exact Hopen'|].
  split; [exact Hitem|].
  destruct (Hsame (py "a1")) as [-> _]. exact Hnotes.
Defined.
